(** * Multi-resolution energy forecasting: the NODE benchmarks and the data pipeline

    A shallow embedding of [benchmarks.py] (the vector field [OdeFunc], the
    dynamics models [NODE] and [LatentNODE], the harness classes [GeneralNODE],
    [GeneralPersistence], [GeneralNeuralNetwork]) and of
    [torchlaplace/dataset.py] ([TimeSeriesDataset], [collate_fn], the dataset
    generators and [generate_data_set]).

    Tensors of known rank are nested lists in the layout the code uses
    ((N, T, D): trajectories, timesteps, channels).  Their elements are kept
    abstract behind the class [Dtype]; the functions of torch, numpy, pandas
    and torchdiffeq that the code calls are fields of the classes [Numeric],
    [Random], [Files], [Modules] and [Integrator].
    Python's own float arithmetic ([int(0.8 * n)]) is binary64 and is modelled
    with the primitive floats. *)

From Stdlib Require Import ZArith Lia PrimFloat FloatOps SpecFloat.
From stdpp Require Import base tactics option list strings.

Local Open Scope Z_scope.

(** ** Exceptions and fallible computations *)

Inductive exn : Type :=
| ValueError (msg : string)
| IndexError
| TypeError
| RuntimeError (msg : string)
| ZeroDivisionError
| UnboundLocalError
| StopIteration
| AttributeError
| OverflowError
| FileNotFoundError (path : string).

Inductive result (A : Type) : Type :=
| Ok (a : A)
| Raise (e : exn).
Arguments Ok {A} a.
Arguments Raise {A} e.

#[global] Instance result_ret : MRet result := @Ok.
#[global] Instance result_bind : MBind result := fun A B f m =>
  match m with
  | Ok a => f a
  | Raise e => Raise e
  end.
#[global] Instance result_fmap : FMap result := fun A B f m =>
  match m with
  | Ok a => Ok (f a)
  | Raise e => Raise e
  end.

(** ** Python integers as indices *)

(** [if flag:] on an int. *)
Definition truthy (z : Z) : bool := negb (z =? 0).

(** A negative index counts from the end. *)
Definition norm_index (n : nat) (i : Z) : Z :=
  if i <? 0 then i + Z.of_nat n else i.

(** [l[i]]: IndexError outside [-n, n). *)
Definition py_index {A} (l : list A) (i : Z) : result A :=
  let j := norm_index (length l) i in
  if (0 <=? j) && (j <? Z.of_nat (length l)) then
    match l !! Z.to_nat j with
    | Some x => Ok x
    | None => Raise IndexError
    end
  else Raise IndexError.

(** A slice bound is clamped to [0, n]. *)
Definition slice_bound (n : nat) (i : Z) : nat :=
  Z.to_nat (Z.min (Z.max (norm_index n i) 0) (Z.of_nat n)).

(** [l[lo:hi]], either bound possibly omitted. *)
Definition py_slice {A} (lo hi : option Z) (l : list A) : list A :=
  let n := length l in
  let a := match lo with Some i => slice_bound n i | None => 0%nat end in
  let b := match hi with Some i => slice_bound n i | None => n end in
  take (b - a) (drop a l).

(** [l[::k]] for a positive step [k]. *)
Definition stride_slice {A} (k : nat) (l : list A) : list A :=
  omap (fun i => l !! (i * k)%nat) (seq 0 ((length l + k - 1) / k)%nat).

(** [l[idx]] with a list of indices (torch's index by a list). *)
Definition index_list {A} (idx : list Z) (l : list A) : result (list A) :=
  mapM (py_index l) idx.

(** ** Python floats (binary64) *)

(** [float(z)]: the nearest binary64 value, ties to even. *)
Definition float_of_Z (z : Z) : float :=
  SF2Prim (binary_normalize prec emax z 0 false).

(** [int(f)]: truncation towards zero; NaN and the infinities raise. *)
Definition py_int (f : float) : result Z :=
  match Prim2SF f with
  | S754_zero _ => Ok 0
  | S754_finite s m e =>
      let mag := if 0 <=? e then Z.shiftl (Z.pos m) e
                 else Z.shiftr (Z.pos m) (- e) in
      Ok (if s then - mag else mag)
  | S754_nan => Raise (ValueError "cannot convert float NaN to integer")
  | S754_infinity _ => Raise OverflowError
  end.

(** The literals [0.8], [0.9] and [np.pi] as Python reads them. *)
Definition float_0_8 : float := 0x1.999999999999ap-1%float.
Definition float_0_9 : float := 0x1.ccccccccccccdp-1%float.
Definition float_pi : float := 0x1.921fb54442d18p+1%float.

(** [if x:] on a float. *)
Definition truthy_float (f : float) : bool := negb (PrimFloat.eqb f 0%float).

(** [int(frac * n)] for a Python int [n]. *)
Definition int_of_fraction (frac : float) (n : Z) : result Z :=
  py_int (PrimFloat.mul frac (float_of_Z n)).

(** ** Tensor elements *)

Class Dtype (scalar : Type) : Type := {
  zero : scalar;
  one : scalar;
  nan : scalar;                      (* torch.nan *)
  is_nan : scalar -> bool;           (* torch.isnan, elementwise *)
  add : scalar -> scalar -> scalar;
  sub : scalar -> scalar -> scalar;
  mul : scalar -> scalar -> scalar;
  div : scalar -> scalar -> scalar;
  ltb : scalar -> scalar -> bool;
  of_Z : Z -> scalar;                (* a Python int as a tensor element *)
  of_float : float -> scalar;        (* a Python float as a tensor element *)
  is_nan_nan : is_nan nan = true
}.

(** Elementwise and reduction functions of torch and numpy that the code
    calls; their values are immaterial to the shapes, orders and counters
    studied below. *)
Class Numeric (scalar : Type) : Type := {
  tanh : scalar -> scalar;
  sigmoid : scalar -> scalar;
  sin : scalar -> scalar;
  to_double : scalar -> scalar;                  (* .double() *)
  to_float : scalar -> scalar;                   (* .float() *)
  (* element [i] of torch.linspace(start, end, steps) *)
  linspace_at : scalar -> scalar -> nat -> nat -> scalar;
  nanmean : list scalar -> scalar;               (* np.nanmean of a column *)
  nanstd : list scalar -> scalar                 (* np.nanstd of a column *)
}.

(** The global random generator: [setup_seed] of [utils] (taken as a
    parameter, [utils.py] is not part of the sources) and the torch
    samplers, each returning its draw and the advanced generator. *)
Class Random (scalar rng : Type) : Type := {
  setup_seed : Z -> rng -> rng;
  randperm : nat -> rng -> list nat * rng;
  (* torch.FloatTensor(n, t, d).uniform_() and torch.randn((n, t, d)) *)
  uniform_ : nat -> nat -> nat -> rng -> list (list (list scalar)) * rng;
  randn : nat -> nat -> nat -> rng -> list (list (list scalar)) * rng;
  (* torch.randperm(n) is a permutation of 0, ..., n - 1 *)
  randperm_permutation : forall n g, Permutation (randperm n g).1 (seq 0 n)
}.

(** The CSV files on disk, as [pd.read_csv(path).values] returns them. *)
Class Files (scalar : Type) : Type := {
  read_csv : string -> option (list (list scalar))
}.

(** ** Tensors of fixed rank *)

Section Tensors.
Context {A : Type}.

(** [x.shape[1]] and [x.shape[2]], read off the first row (a tensor with
    no rows has no elements). *)
Definition dim1 (x : list (list A)) : nat := length (default [] (head x)).
Definition dim2 (x : list (list (list A))) : nat := dim1 (default [] (head x)).

(** [torch.transpose(x, 0, 1)] of a tensor with [ncols] columns. *)
Fixpoint transpose (ncols : nat) (x : list (list A)) : list (list A) :=
  match x with
  | [] => replicate ncols []
  | row :: rest => zip_with cons row (transpose ncols rest)
  end.

(** [x[:, i, :]]. *)
Definition select_dim1 (i : Z) (x : list (list A)) : result (list A) :=
  mapM (fun row => py_index row i) x.

(** [torch.cat([x, y], 1)] (also [axis=1]); the other dimensions must
    agree. *)
Definition cat_dim1 (x y : list (list A)) : result (list (list A)) :=
  if bool_decide (length x = length y) then Ok (zip_with app x y)
  else Raise (RuntimeError "Sizes of tensors must match except in dimension 1").

(** [x[:, :, lo:hi]] of a rank-3 tensor. *)
Definition slice_dim2 (lo hi : option Z) (x : list (list (list A)))
  : list (list (list A)) :=
  map (map (py_slice lo hi)) x.
End Tensors.

Section Zeros.
Context {scalar : Type} `{!Dtype scalar}.

(** [torch.zeros(n, m)]. *)
Definition zeros (n m : nat) : list (list scalar) :=
  replicate n (replicate m zero).
End Zeros.

(** ** benchmarks.py *)

(** [nn.Linear]: rows of [weight] are the output units. *)
Module Linear.
Section Defs.
Context {scalar : Type} `{!Dtype scalar}.

Record t : Type := {
  in_features : nat;
  weight : list (list scalar);
  bias : list scalar
}.

Definition dot (x w : list scalar) : scalar :=
  foldr add zero (zip_with mul x w).

Definition forward (self : t) (x : list (list scalar))
  : result (list (list scalar)) :=
  mapM (fun row =>
          if bool_decide (length row = in_features self) then
            Ok (zip_with (fun w b => add (dot row w) b) (weight self) (bias self))
          else Raise (RuntimeError "mat1 and mat2 shapes cannot be multiplied"))
       x.
End Defs.
Arguments t scalar : clear implicits.
End Linear.

(** ** Stateful, fallible computations *)

(** A computation over a state [S] (the random generator, the world) that
    returns or raises; the state at a raise is the state reached. *)
Definition M (S A : Type) : Type := S -> result A * S.

#[global] Instance M_ret {S} : MRet (M S) := fun A a s => (Ok a, s).
#[global] Instance M_bind {S} : MBind (M S) := fun A B f m s =>
  match m s with
  | (Ok a, s') => f a s'
  | (Raise e, s') => (Raise e, s')
  end.

Definition raise {S A} (e : exn) : M S A := fun s => (Raise e, s).
Definition lift {S A} (r : result A) : M S A := fun s => (r, s).

(** The layers of [torch.nn] whose initial parameters are drawn from the
    global generator; the recurrent layers are known by their output
    sequence. *)
Class Modules (scalar rng : Type) `{!Dtype scalar} : Type := {
  nn_Linear : Z -> Z -> M rng (Linear.t scalar);
  nn_LSTM : Z -> Z -> Z ->
            M rng (list (list (list scalar)) -> result (list (list (list scalar))));
  nn_GRU : Z -> Z -> Z ->
           M rng (list (list (list scalar)) -> result (list (list (list scalar))))
}.

Module OdeFunc.
Section Defs.
Context {scalar : Type} `{!Dtype scalar} `{!Numeric scalar}.

Record t : Type := {
  time_dependent : bool;
  fc1 : Linear.t scalar;
  fc1_5 : Linear.t scalar;
  fc2 : Linear.t scalar;
  nfe : Z
}.

Definition set_nfe (n : Z) (self : t) : t :=
  {| time_dependent := time_dependent self; fc1 := fc1 self;
     fc1_5 := fc1_5 self; fc2 := fc2 self; nfe := n |}.

Definition init {rng} `{!Modules scalar rng} (obs_dim nhidden : Z)
  (time_dependent : bool) : M rng t :=
  fc1 ← (if time_dependent then nn_Linear (obs_dim + 1) nhidden
         else nn_Linear obs_dim nhidden);
  fc1_5 ← nn_Linear nhidden nhidden;
  fc2 ← nn_Linear nhidden obs_dim;
  mret {| time_dependent := time_dependent; fc1 := fc1; fc1_5 := fc1_5;
          fc2 := fc2; nfe := 0 |}.

(** [self.sig = nn.Tanh()]. *)
Definition sig (x : list (list scalar)) : list (list scalar) :=
  map (map tanh) x.

(** The layers of [forward], after the counter was advanced. *)
Definition net (self : t) (t_ : scalar) (z : list (list scalar))
  : result (list (list scalar)) :=
  out ← (if time_dependent self then
           let t_vec := map (map (fun o => mul o t_)) (replicate (length z) [one]) in
           t_and_x ← cat_dim1 t_vec z;
           Linear.forward (fc1 self) t_and_x
         else Linear.forward (fc1 self) z);
  out ← Linear.forward (fc1_5 self) (sig out);
  Linear.forward (fc2 self) (sig out).

(** [forward(self, t, z)]: the result (or the exception) and the object
    after the call. *)
Definition forward (t_ : scalar) (z : list (list scalar)) (self : t)
  : result (list (list scalar)) * t :=
  let self := set_nfe (nfe self + 1) self in
  (net self t_ z, self).
End Defs.
Arguments t scalar : clear implicits.
End OdeFunc.

(** What [odeint] does with the vector field: it returns the states at the
    query times (shape (len(t), N, dim)), raises, or evaluates the vector
    field at some [(t, z)] and goes on with the derivative it gets. *)
Inductive solver (scalar : Type) : Type :=
| Return (features : list (list (list scalar)))
| Abort (e : exn)
| Call (t_ : scalar) (z : list (list scalar))
       (k : list (list scalar) -> solver scalar).
Arguments Return {scalar} features.
Arguments Abort {scalar} e.
Arguments Call {scalar} t_ z k.

(** [torchdiffeq.odeint_adjoint(func, y0, t, method=...)], by what it asks of
    [func]. *)
Class Integrator (scalar : Type) : Type := {
  odeint : list (list scalar) -> list scalar -> string -> solver scalar
}.

Section RunSolver.
Context {scalar : Type} `{!Dtype scalar} `{!Numeric scalar}.

(** The integration against a vector field object: every [Call] is one
    invocation of [OdeFunc.forward]. *)
Fixpoint run_solver (s : solver scalar) (f : OdeFunc.t scalar)
  : result (list (list (list scalar))) * OdeFunc.t scalar :=
  match s with
  | Return features => (Ok features, f)
  | Abort e => (Raise e, f)
  | Call t_ z k =>
      match OdeFunc.forward t_ z f with
      | (Ok dz, f') => run_solver (k dz) f'
      | (Raise e, f') => (Raise e, f')
      end
  end.

(** The number of vector field evaluations of that run. *)
Fixpoint evaluations (s : solver scalar) (f : OdeFunc.t scalar) : Z :=
  match s with
  | Return _ | Abort _ => 0
  | Call t_ z k =>
      match OdeFunc.forward t_ z f with
      | (Ok dz, f') => 1 + evaluations (k dz) f'
      | (Raise e, f') => 1
      end
  end.
End RunSolver.

Module NODE.
Section Defs.
Context {scalar : Type} `{!Dtype scalar} `{!Numeric scalar} `{!Integrator scalar}.

Record t : Type := {
  ode_func : OdeFunc.t scalar;
  method : string;
  augment_dim : Z;
  extrap : Z
}.

Definition set_ode_func (f : OdeFunc.t scalar) (self : t) : t :=
  {| ode_func := f; method := method self;
     augment_dim := augment_dim self; extrap := extrap self |}.

Definition init {rng} `{!Modules scalar rng}
  (obs_dim nhidden : Z) (method : string) (augment_dim extrap : Z) : M rng t :=
  f ← OdeFunc.init (obs_dim + augment_dim) nhidden true;
  mret {| ode_func := f; method := method; augment_dim := augment_dim;
          extrap := extrap |}.

Definition encode (trajectories : list (list (list scalar))) (self : t)
  : result (list (list scalar)) :=
  if truthy (extrap self) then select_dim1 (-1) trajectories
  else select_dim1 0 trajectories.

(** Lines 74-80: the seed state handed to the integrator. *)
Definition augment (x0 : list (list scalar)) (self : t)
  : result (list (list scalar)) :=
  if 0 <? augment_dim self then
    let aug := zeros (length x0) (Z.to_nat (augment_dim self)) in
    cat_dim1 x0 aug
  else Ok x0.

(** Lines 90-91: transpose and trim the integrator's output. *)
Definition output (features : list (list (list scalar))) (self : t)
  : list (list (list scalar)) :=
  let features := transpose (dim1 features) features in
  slice_dim2 None (Some (Z.of_nat (dim2 features) - augment_dim self)) features.

(** Lines 74-91: augment the seed state, integrate, trim. *)
Definition integrate (x0 : list (list scalar)) (t_ : list scalar) (self : t)
  : result (list (list (list scalar))) * t :=
  match augment x0 self with
  | Raise e => (Raise e, self)
  | Ok x_aug =>
      let '(r, f) := run_solver (odeint x_aug t_ (method self)) (ode_func self) in
      ((fun features => output features self) <$> r, set_ode_func f self)
  end.

Definition forward (trajectories : list (list (list scalar)))
  (ti : list (list scalar)) (self : t)
  : result (list (list (list scalar))) * t :=
  let t_ := concat ti in
  match (if truthy (extrap self) then select_dim1 (-1) trajectories
         else select_dim1 0 trajectories) with
  | Raise e => (Raise e, self)
  | Ok x0 => integrate x0 t_ self
  end.

(** The number of vector field evaluations of one [forward]. *)
Definition forward_evaluations (trajectories : list (list (list scalar)))
  (ti : list (list scalar)) (self : t) : Z :=
  match (x0 ← encode trajectories self; augment x0 self) with
  | Ok x_aug => evaluations (odeint x_aug (concat ti) (method self)) (ode_func self)
  | Raise _ => 0
  end.
End Defs.
Arguments t scalar : clear implicits.
End NODE.

Module GRUEncoder.
Section Defs.
Context {scalar : Type} `{!Dtype scalar}.

(** [gru] is the output sequence of the two-layer [nn.GRU]. *)
Record t : Type := {
  gru : list (list (list scalar)) -> result (list (list (list scalar)));
  linear_out : Linear.t scalar
}.

Definition init {rng} `{!Modules scalar rng} (dimension hidden_units : Z)
  : M rng t :=
  gru ← nn_GRU dimension hidden_units 2;
  linear_out ← nn_Linear hidden_units dimension;
  mret {| gru := gru; linear_out := linear_out |}.

Definition forward (i : list (list (list scalar))) (self : t)
  : result (list (list scalar)) :=
  out ← gru self i;
  last ← select_dim1 (-1) out;
  Linear.forward (linear_out self) last.
End Defs.
Arguments t scalar : clear implicits.
End GRUEncoder.

Module LatentNODE.
Section Defs.
Context {scalar : Type} `{!Dtype scalar} `{!Numeric scalar} `{!Integrator scalar}.

Record t : Type := {
  ode_func : OdeFunc.t scalar;
  method : string;
  encoder : GRUEncoder.t scalar;
  augment_dim : Z;
  extrap : Z
}.

Definition set_ode_func (f : OdeFunc.t scalar) (self : t) : t :=
  {| ode_func := f; method := method self; encoder := encoder self;
     augment_dim := augment_dim self; extrap := extrap self |}.

Definition init {rng} `{!Modules scalar rng}
  (obs_dim nhidden latent_dim : Z) (method : string) (augment_dim extrap : Z)
  : M rng t :=
  f ← OdeFunc.init (obs_dim + augment_dim) nhidden true;
  encoder ← GRUEncoder.init latent_dim nhidden;
  mret {| ode_func := f; method := method; encoder := encoder;
          augment_dim := augment_dim; extrap := extrap |}.

(** Lines 117-123. *)
Definition augment (x0 : list (list scalar)) (self : t)
  : result (list (list scalar)) :=
  if 0 <? augment_dim self then
    let aug := zeros (length x0) (Z.to_nat (augment_dim self)) in
    cat_dim1 x0 aug
  else Ok x0.

(** Lines 132-133. *)
Definition output (features : list (list (list scalar))) (self : t)
  : list (list (list scalar)) :=
  let features := transpose (dim1 features) features in
  slice_dim2 (Some (Z.of_nat (dim2 features) - augment_dim self)) None features.

(** Lines 117-133: augment the seed state, integrate, trim. *)
Definition integrate (x0 : list (list scalar)) (t_ : list scalar) (self : t)
  : result (list (list (list scalar))) * t :=
  match augment x0 self with
  | Raise e => (Raise e, self)
  | Ok x_aug =>
      let '(r, f) := run_solver (odeint x_aug t_ (method self)) (ode_func self) in
      ((fun features => output features self) <$> r, set_ode_func f self)
  end.

Definition forward (trajectories : list (list (list scalar)))
  (ti : list (list scalar)) (self : t)
  : result (list (list (list scalar))) * t :=
  let t_ := concat ti in
  match GRUEncoder.forward trajectories (encoder self) with
  | Raise e => (Raise e, self)
  | Ok x0 => integrate x0 t_ self
  end.
End Defs.
Arguments t scalar : clear implicits.
End LatentNODE.

(** ** The batch dictionary and tensors of varying rank *)

(** A tensor by its shape and its elements in row-major order: the
    available-forecast slot of a sample is a 0-d placeholder or a 2-d slice,
    and [collate_fn] applies mask indexing and [reshape] to it. *)
Module Tensor.
Section Defs.
Context {scalar : Type} `{!Dtype scalar}.

Record t : Type := { shape : list nat; data : list scalar }.

Definition numel (x : t) : nat := length (data x).

(** [torch.tensor(v)] of a Python number. *)
Definition tensor (v : scalar) : t := {| shape := []; data := [v] |}.

(** A (rows, cols) tensor from its rows. *)
Definition of_rows (cols : nat) (rows : list (list scalar)) : t :=
  {| shape := [length rows; cols]; data := concat rows |}.

Definition stack (xs : list t) : result t :=
  match xs with
  | [] => Raise (RuntimeError "stack expects a non-empty TensorList")
  | x :: rest =>
      if forallb (fun y => bool_decide (shape y = shape x)) rest then
        Ok {| shape := length xs :: shape x; data := concat (map data xs) |}
      else Raise (RuntimeError "stack expects each tensor to be equal size")
  end.

(** [torch.logical_not(torch.isnan(x))]. *)
Definition not_nan_mask (x : t) : list bool :=
  map negb (map is_nan (data x)).

(** [x[mask]] for a boolean mask of the shape of [x]. *)
Definition masked (x : t) (mask : list bool) : t :=
  let kept := omap (fun '(v, b) => if b : bool then Some v else None)
                   (zip (data x) mask) in
  {| shape := [length kept]; data := kept |}.

(** The sizes [reshape] settles on (torch's [infer_size]): at most one
    entry is [-1]. *)
Definition infer_size (dims : list Z) (n : nat) : result (list nat) :=
  let invalid := RuntimeError "shape is invalid for input size" in
  if negb (forallb (fun d => -1 <=? d) dims) then
    Raise (RuntimeError "invalid shape dimension")
  else
    let inferred := length (List.filter (fun d => d =? -1) dims) in
    let newsize := foldr Nat.mul 1%nat
                         (map Z.to_nat (List.filter (fun d => negb (d =? -1)) dims)) in
    match inferred with
    | O => if bool_decide (n = newsize) then Ok (map Z.to_nat dims)
           else Raise invalid
    | S O =>
        if bool_decide (n = newsize)
           || (bool_decide (0 < newsize)%nat && bool_decide (n mod newsize = 0)%nat)
        then
          if bool_decide (newsize = 0%nat) then
            Raise (RuntimeError "cannot reshape tensor of 0 elements: the unspecified dimension size -1 can be any value and is ambiguous")
          else Ok (map (fun d => if d =? -1 then (n / newsize)%nat else Z.to_nat d) dims)
        else Raise invalid
    | _ => Raise (RuntimeError "only one dimension can be inferred")
    end.

Definition reshape (dims : list Z) (x : t) : result t :=
  sizes ← infer_size dims (numel x);
  Ok {| shape := sizes; data := data x |}.

(** [x.flatten(1)]: one row per index of the first dimension. *)
Definition flatten1 (x : t) : result (list (list scalar)) :=
  match shape x with
  | [] | [_] => Raise IndexError
  | n :: rest =>
      Ok (map (fun i => take (foldr Nat.mul 1%nat rest)
                             (drop (i * foldr Nat.mul 1%nat rest) (data x)))
              (seq 0 n))
  end.
End Defs.
Arguments t scalar : clear implicits.
End Tensor.

Module Batch.
Record t (scalar : Type) : Type := {
  observed_data : list (list (list scalar));
  data_to_predict : list (list (list scalar));
  available_forecasts : option (Tensor.t scalar);
  observed_tp : list (list scalar);
  tp_to_predict : list (list scalar);
  observed_mask : option (list (list (list scalar)));
  mask_predicted_data : option (list (list (list scalar)));
  labels : option (list (list (list scalar)));
  mode : string
}.
Arguments observed_data {scalar}.
Arguments data_to_predict {scalar}.
Arguments available_forecasts {scalar}.
Arguments observed_tp {scalar}.
Arguments tp_to_predict {scalar}.
Arguments observed_mask {scalar}.
Arguments mask_predicted_data {scalar}.
Arguments labels {scalar}.
Arguments mode {scalar}.
End Batch.

Section Cat.
Context {A : Type}.

(** [torch.cat((x, y), axis=1)] of rank-3 tensors. *)
Definition cat_axis1 (x y : list (list (list A))) : result (list (list (list A))) :=
  if bool_decide (length x = length y) && bool_decide (dim2 x = dim2 y) then
    Ok (zip_with app x y)
  else Raise (RuntimeError "Sizes of tensors must match except in dimension 1").

(** [torch.cat(xs, 0)] of a list of rank-3 tensors. *)
Definition cat_dim0 (xs : list (list (list (list A)))) : result (list (list (list A))) :=
  match xs with
  | [] => Raise (RuntimeError "torch.cat(): expected a non-empty list of Tensors")
  | x :: rest =>
      if forallb (fun y => bool_decide (dim1 y = dim1 x) && bool_decide (dim2 y = dim2 x)) rest
      then Ok (concat xs)
      else Raise (RuntimeError "Sizes of tensors must match except in dimension 0")
  end.
End Cat.

Section Reshape.
Context {A : Type}.

Fixpoint chunks_fuel (fuel k : nat) (l : list A) : list (list A) :=
  match fuel with
  | O => []
  | S fuel =>
      match l with
      | [] => []
      | _ => take k l :: chunks_fuel fuel k (drop k l)
      end
  end.

(** Consecutive pieces of [k] elements ([k] positive); the last may be
    shorter. *)
Definition chunks (k : nat) (l : list A) : list (list A) :=
  chunks_fuel (length l) k l.
End Reshape.

Section Loss.
Context {scalar : Type} `{!Dtype scalar}.

Definition sum (l : list scalar) : scalar := foldr add zero l.

(** [x.reshape(-1, timesteps, dim)] of a rank-2 tensor. *)
Definition reshape_rows (timesteps dim : Z) (x : list (list scalar))
  : result (list (list (list scalar))) :=
  let flat := concat x in
  sizes ← Tensor.infer_size [-1; timesteps; dim] (length flat);
  Ok (chunks (Z.to_nat timesteps) (chunks (Z.to_nat dim) flat)).

(** [torch.nn.MSELoss()(torch.flatten(preds), torch.flatten(target))]. *)
Definition loss_fn (preds target : list (list (list scalar))) : result scalar :=
  let p := concat (concat preds) in
  let y := concat (concat target) in
  let sq a b := mul (sub a b) (sub a b) in
  if bool_decide (length p = length y) then
    Ok (div (sum (zip_with sq p y)) (of_Z (Z.of_nat (length p))))
  else
    match p, y with
    | [a], _ => Ok (div (sum (map (sq a) y)) (of_Z (Z.of_nat (length y))))
    | _, [b] => Ok (div (sum (map (fun a => sq a b) p)) (of_Z (Z.of_nat (length p))))
    | _, _ => Raise (RuntimeError "The size of tensor a must match the size of tensor b")
    end.
End Loss.

Module LSTMNetwork.
Section Defs.
Context {scalar : Type} `{!Dtype scalar}.

Record t : Type := {
  lstm : list (list (list scalar)) -> result (list (list (list scalar)));
  linear_out : Linear.t scalar;
  out_timesteps : Z;
  out_dim : Z
}.

Definition init {rng} `{!Modules scalar rng}
  (in_dim hidden_units out_dim out_timesteps : Z) : M rng t :=
  lstm ← nn_LSTM in_dim hidden_units 2;
  linear_out ← nn_Linear hidden_units (out_dim * out_timesteps);
  mret {| lstm := lstm; linear_out := linear_out;
          out_timesteps := out_timesteps; out_dim := out_dim |}.

Definition forward (i : list (list (list scalar))) (self : t)
  : result (list (list (list scalar))) :=
  out ← lstm self i;
  last ← select_dim1 (-1) out;
  y ← Linear.forward (linear_out self) last;
  reshape_rows (out_timesteps self) (out_dim self) y.
End Defs.
Arguments t scalar : clear implicits.
End LSTMNetwork.

Module MLPNetwork.
Section Defs.
Context {scalar : Type} `{!Dtype scalar} `{!Numeric scalar}.

(** [nn] is Flatten, the hidden [Linear] layer, Sigmoid. *)
Record t : Type := {
  nn : Linear.t scalar;
  linear_out : Linear.t scalar;
  out_timesteps : Z;
  out_dim : Z
}.

Definition init {rng} `{!Modules scalar rng}
  (in_dim : Z) (in_timesteps : option Z) (out_timesteps hidden_units out_dim : Z)
  : M rng t :=
  match in_timesteps with
  | None => raise TypeError
  | Some in_timesteps =>
      hidden ← nn_Linear (in_dim * in_timesteps) hidden_units;
      linear_out ← nn_Linear hidden_units (out_dim * out_timesteps);
      mret {| nn := hidden; linear_out := linear_out;
              out_timesteps := out_timesteps; out_dim := out_dim |}
  end.

Definition forward (i : list (list (list scalar))) (self : t)
  : result (list (list (list scalar))) :=
  out ← Linear.forward (nn self) (map (fun traj => concat traj) i);
  y ← Linear.forward (linear_out self) (map (map sigmoid) out);
  reshape_rows (out_timesteps self) (out_dim self) y.
End Defs.
Arguments t scalar : clear implicits.
End MLPNetwork.

Module Persistence.
Section Defs.
Context {scalar : Type}.

Record t : Type := { out_timesteps : Z; kind : string }.

Definition init (out_timesteps : Z) (kind : string) : t :=
  {| out_timesteps := out_timesteps; kind := kind |}.

Definition forward (i : list (list (list scalar))) (self : t)
  : result (list (list (list scalar))) :=
  if String.eqb (kind self) "naive" then
    if out_timesteps self <? 0 then
      Raise (RuntimeError "Trying to create tensor with negative dimension")
    else
      mapM (fun traj => last ← index_list [-1] traj;
                        Ok (concat (replicate (Z.to_nat (out_timesteps self)) last)))
           i
  else if String.eqb (kind self) "loop" then
    Ok (map (py_slice (Some (- out_timesteps self)) None) i)
  else Raise UnboundLocalError.
End Defs.
End Persistence.

Section Predict.
Context {scalar : Type}.

(** Lines 253-259 (and 322-329, 394-401): the trajectory a batch
    contributes to the ground truth. *)
Definition ground_truth (batch : Batch.t scalar)
  : result (list (list (list scalar))) :=
  if String.eqb (Batch.mode batch) "extrap" then
    cat_axis1 (Batch.observed_data batch) (Batch.data_to_predict batch)
  else Ok (Batch.data_to_predict batch).

(** The loop shared by the three [predict] methods, over the batches the
    loader yields; [model] is [self.model(...)] on a batch. *)
Fixpoint predict_loop {Mdl : Type}
  (model : Batch.t scalar -> M Mdl (list (list (list scalar))))
  (dl : list (Batch.t scalar))
  : M Mdl (list (list (list (list scalar))) * list (list (list (list scalar)))) :=
  match dl with
  | [] => mret ([], [])
  | batch :: dl =>
      pred ← model batch;
      traj ← lift (ground_truth batch);
      '(predictions, trajs) ← predict_loop model dl;
      mret (pred :: predictions, traj :: trajs)
  end.

Definition predict_with {Mdl : Type}
  (model : Batch.t scalar -> M Mdl (list (list (list scalar))))
  (dl : list (Batch.t scalar))
  : M Mdl (list (list (list scalar)) * list (list (list scalar))) :=
  '(predictions, trajs) ← predict_loop model dl;
  predictions ← lift (cat_dim0 predictions);
  trajs ← lift (cat_dim0 trajs);
  mret (predictions, trajs).
End Predict.

Section GetLoss.
Context {scalar : Type} `{!Dtype scalar}.

(** The loop shared by the three [_get_loss] methods.  [cum_loss] is the
    Python int 0 ([None]) until the first batch and a tensor from then on:
    [0 + loss] is [loss.__radd__(0)], the later [+=] add to the tensor. *)
Fixpoint get_loss_loop {Mdl : Type}
  (model : Batch.t scalar -> M Mdl (list (list (list scalar))))
  (cum_loss : option scalar) (cum_batches : Z) (dl : list (Batch.t scalar))
  : M Mdl (option scalar * Z) :=
  match dl with
  | [] => mret (cum_loss, cum_batches)
  | batch :: dl =>
      preds ← model batch;
      loss ← lift (loss_fn preds (Batch.data_to_predict batch));
      let cum_loss := match cum_loss with
                      | None => add loss (of_Z 0)
                      | Some c => add c loss
                      end in
      get_loss_loop model (Some cum_loss) (cum_batches + 1) dl
  end.

(** [mse = cum_loss / cum_batches]: of two ints when the loader yields no
    batch. *)
Definition get_loss_with {Mdl : Type}
  (model : Batch.t scalar -> M Mdl (list (list (list scalar))))
  (dl : list (Batch.t scalar)) : M Mdl scalar :=
  '(cum_loss, cum_batches) ← get_loss_loop model None 0 dl;
  match cum_loss with
  | None =>
      if cum_batches =? 0 then raise ZeroDivisionError
      else mret (of_float (PrimFloat.div (float_of_Z 0) (float_of_Z cum_batches)))
  | Some c => mret (div c (of_Z cum_batches))
  end.
End GetLoss.

Module GeneralNODE.
Section Defs.
Context {scalar : Type} `{!Dtype scalar} `{!Numeric scalar} `{!Integrator scalar}.

(** [loss_fn] is always [torch.nn.MSELoss()], see [loss_fn] above. *)
Record t : Type := { model : NODE.t scalar }.

Definition init {rng} `{!Modules scalar rng}
  (obs_dim nhidden : Z) (method : string) (latent_dim augment_dim extrap : Z)
  : M rng t :=
  model ← NODE.init obs_dim nhidden method augment_dim extrap;
  mret {| model := model |}.

(** [self.model(batch["observed_data"], batch["tp_to_predict"])]. *)
Definition call_model (batch : Batch.t scalar) : M t (list (list (list scalar))) :=
  fun self =>
    let '(r, model) := NODE.forward (Batch.observed_data batch)
                                    (Batch.tp_to_predict batch) (model self) in
    (r, {| model := model |}).

Definition training_step (batch : Batch.t scalar) : M t scalar :=
  preds ← call_model batch;
  lift (loss_fn preds (Batch.data_to_predict batch)).

Definition _get_loss (dl : list (Batch.t scalar)) : M t scalar :=
  get_loss_with call_model dl.

Definition validation_step (dlval : list (Batch.t scalar)) : M t (scalar * scalar) :=
  mse ← _get_loss dlval;
  mret (mse, mse).

Definition test_step (dltest : list (Batch.t scalar)) : M t (scalar * scalar) :=
  mse ← _get_loss dltest;
  mret (mse, mse).

(** The second definition of [predict] in the class body (line 247), which
    replaces the first. *)
Definition predict (dl : list (Batch.t scalar))
  : M t (list (list (list scalar)) * list (list (list scalar))) :=
  predict_with call_model dl.

Definition encode (dl : list (Batch.t scalar)) : M t (list (list scalar)) :=
  fun self =>
    (encodings ← mapM (fun batch =>
                         NODE.encode (Batch.observed_data batch) (model self)) dl;
     match encodings with
     | [] => Raise (RuntimeError "torch.cat(): expected a non-empty list of Tensors")
     | x :: rest =>
         if forallb (fun y => bool_decide (dim1 y = dim1 x)) rest
         then Ok (concat encodings)
         else Raise (RuntimeError "Sizes of tensors must match except in dimension 0")
     end, self).

Definition _get_and_reset_nfes : M t Z :=
  fun self =>
    let iteration_nfes := OdeFunc.nfe (NODE.ode_func (model self)) in
    let self := {| model := NODE.set_ode_func
                              (OdeFunc.set_nfe 0 (NODE.ode_func (model self)))
                              (model self) |} in
    (Ok iteration_nfes, self).
End Defs.
Arguments t scalar : clear implicits.
End GeneralNODE.

Module GeneralPersistence.
Section Defs.
Context {scalar : Type}.

Record t : Type := { model : Persistence.t }.

Definition init (out_timesteps : Z) (method : string) : result t :=
  if String.eqb method "naive" then
    Ok {| model := Persistence.init out_timesteps "naive" |}
  else if String.eqb method "loop" then
    Ok {| model := Persistence.init out_timesteps "loop" |}
  else Raise (ValueError "No such Persistence model.").

Definition call_model (batch : Batch.t scalar) : M t (list (list (list scalar))) :=
  fun self => (Persistence.forward (Batch.observed_data batch) (model self), self).

Definition predict (dl : list (Batch.t scalar))
  : M t (list (list (list scalar)) * list (list (list scalar))) :=
  predict_with call_model dl.

Definition _get_and_reset_nfes : M t Z := mret 0.

Context `{!Dtype scalar}.

Definition _get_loss (dl : list (Batch.t scalar)) : M t scalar :=
  get_loss_with call_model dl.

Definition training_step (batch : Batch.t scalar) : M t scalar :=
  preds ← call_model batch;
  lift (loss_fn preds (Batch.data_to_predict batch)).

Definition validation_step (dlval : list (Batch.t scalar)) : M t (scalar * scalar) :=
  mse ← _get_loss dlval;
  mret (mse, mse).

Definition test_step (dltest : list (Batch.t scalar)) : M t (scalar * scalar) :=
  mse ← _get_loss dltest;
  mret (mse, mse).

(** [Persistence] defines no [encode]: [self.model.encode] raises
    AttributeError on the first batch. *)
Definition encode (dl : list (Batch.t scalar)) : M t (list (list scalar)) :=
  fun self =>
    (encodings ← mapM (fun batch : Batch.t scalar =>
                         @Raise (list (list scalar)) AttributeError) dl;
     match encodings with
     | [] => Raise (RuntimeError "torch.cat(): expected a non-empty list of Tensors")
     | x :: rest =>
         if forallb (fun y => bool_decide (dim1 y = dim1 x)) rest
         then Ok (concat encodings)
         else Raise (RuntimeError "Sizes of tensors must match except in dimension 0")
     end, self).
End Defs.
End GeneralPersistence.

Module GeneralNeuralNetwork.
Section Defs.
Context {scalar : Type} `{!Dtype scalar} `{!Numeric scalar}.

Inductive network : Type :=
| LSTM (m : LSTMNetwork.t scalar)
| MLP (m : MLPNetwork.t scalar).

Record t : Type := { model : network }.

Definition init {rng} `{!Modules scalar rng}
  (obs_dim out_dim out_timesteps : Z) (in_timesteps : option Z)
  (nhidden : Z) (method : string) : M rng t :=
  if String.eqb method "lstm" then
    m ← LSTMNetwork.init obs_dim nhidden out_dim out_timesteps;
    mret {| model := LSTM m |}
  else if String.eqb method "mlp" then
    m ← MLPNetwork.init obs_dim in_timesteps out_timesteps nhidden out_dim;
    mret {| model := MLP m |}
  else raise (ValueError "No such NN model.").

Definition call_model (batch : Batch.t scalar) : M t (list (list (list scalar))) :=
  fun self =>
    (match model self with
     | LSTM m => LSTMNetwork.forward (Batch.observed_data batch) m
     | MLP m => MLPNetwork.forward (Batch.observed_data batch) m
     end, self).

Definition predict (dl : list (Batch.t scalar))
  : M t (list (list (list scalar)) * list (list (list scalar))) :=
  predict_with call_model dl.

Definition _get_and_reset_nfes : M t Z := mret 0.

Definition _get_loss (dl : list (Batch.t scalar)) : M t scalar :=
  get_loss_with call_model dl.

Definition training_step (batch : Batch.t scalar) : M t scalar :=
  preds ← call_model batch;
  lift (loss_fn preds (Batch.data_to_predict batch)).

Definition validation_step (dlval : list (Batch.t scalar)) : M t (scalar * scalar) :=
  mse ← _get_loss dlval;
  mret (mse, mse).

Definition test_step (dltest : list (Batch.t scalar)) : M t (scalar * scalar) :=
  mse ← _get_loss dltest;
  mret (mse, mse).

(** Neither [LSTMNetwork] nor [MLPNetwork] defines [encode]. *)
Definition encode (dl : list (Batch.t scalar)) : M t (list (list scalar)) :=
  fun self =>
    (encodings ← mapM (fun batch : Batch.t scalar =>
                         @Raise (list (list scalar)) AttributeError) dl;
     match encodings with
     | [] => Raise (RuntimeError "torch.cat(): expected a non-empty list of Tensors")
     | x :: rest =>
         if forallb (fun y => bool_decide (dim1 y = dim1 x)) rest
         then Ok (concat encodings)
         else Raise (RuntimeError "Sizes of tensors must match except in dimension 0")
     end, self).
End Defs.
Arguments t scalar : clear implicits.
End GeneralNeuralNetwork.

(** ** torchlaplace/dataset.py *)

(** A sample of [TimeSeriesDataset]: observed data, data to predict, available
    forecasts, times to predict, observed times. *)
Definition sample (scalar : Type) : Type :=
  (list (list scalar) * list (list scalar) * Tensor.t scalar
   * list (list scalar) * list (list scalar))%type.

Section Pooling.
Context {scalar : Type} `{!Dtype scalar}.

(** [avg_pool1d(x, k, k)] along one row of length L: the means of the
    L // k full windows. *)
Definition avg_pool1d (k : Z) (row : list scalar) : result (list scalar) :=
  if Z.of_nat (length row) <? k then
    Raise (RuntimeError "Output size is too small")
  else
    Ok (map (fun w => div (sum w) (of_Z k))
            (take (length row / Z.to_nat k)%nat (chunks (Z.to_nat k) row))).

(** transpose(1, 2), [avg_pool1d], transpose(1, 2) of an (N, T, [channels])
    tensor. *)
Definition pool_time (k : Z) (channels : nat) (x : list (list (list scalar)))
  : result (list (list (list scalar))) :=
  mapM (fun traj =>
          pooled ← mapM (avg_pool1d k) (transpose channels traj);
          Ok (transpose (length traj / Z.to_nat k)%nat pooled))
       x.

(** [torch.stack] of rank-2 tensors. *)
Definition stack_rows (xs : list (list (list scalar)))
  : result (list (list (list scalar))) :=
  match xs with
  | [] => Raise (RuntimeError "stack expects a non-empty TensorList")
  | x :: rest =>
      if forallb (fun y => bool_decide (length y = length x)
                           && bool_decide (dim1 y = dim1 x)) rest
      then Ok xs
      else Raise (RuntimeError "stack expects each tensor to be equal size")
  end.
End Pooling.

Module TimeSeriesDataset.
Section Defs.
Context {scalar : Type} `{!Dtype scalar}.

(** [available_forecasts] is the (N, T_f, F) tensor by trajectory; the
    attribute exists only when [avail_fcst]. *)
Record t : Type := {
  observed_data : list (list (list scalar));
  data_to_predict : list (list (list scalar));
  tp_to_predict : list (list scalar);
  observed_tp : list (list scalar);
  avail_fcst : bool;
  available_forecasts : option (list (Tensor.t scalar))
}.

(** [trajs[:, lo:hi, feature]]. *)
Definition select (lo hi : option Z) (feature : list Z)
  (trajs : list (list (list scalar))) : result (list (list (list scalar))) :=
  mapM (fun traj => mapM (index_list feature) (py_slice lo hi traj)) trajs.

(** [time_steps] is rank 2 with one row (every generator returns
    [t.unsqueeze(0)]), so the pooled time tensors are again one row; the
    [squeeze] of lines 44 and 49 changes the rank only when a single pooled
    time step is left. *)
Definition init (trajs : list (list (list scalar))) (time_steps : list (list scalar))
  (observe_steps avg_terms : Z)
  (hist_feature fcst_feature : list Z) (avail_fcst_feature : option (list Z))
  : result t :=
  observed_data ← select None (Some observe_steps) hist_feature trajs;
  data_to_predict ← select (Some observe_steps) None fcst_feature trajs;
  let tp_to_predict := map (py_slice (Some observe_steps) None) time_steps in
  let observed_tp := map (py_slice None (Some observe_steps)) time_steps in
  '(observed_data, data_to_predict, tp_to_predict, observed_tp) ←
    (if 1 <? avg_terms then
       observed_data ← pool_time avg_terms (length hist_feature) observed_data;
       data_to_predict ← pool_time avg_terms (length fcst_feature) data_to_predict;
       tp_to_predict ← mapM (avg_pool1d avg_terms) tp_to_predict;
       observed_tp ← mapM (avg_pool1d avg_terms) observed_tp;
       Ok (observed_data, data_to_predict, tp_to_predict, observed_tp)
     else Ok (observed_data, data_to_predict, tp_to_predict, observed_tp));
  available_forecasts ←
    match avail_fcst_feature with
    | None => Ok None
    | Some feature =>
        Some <$> mapM (fun traj =>
                         rows ← mapM (index_list feature)
                                     (py_slice (Some observe_steps) None traj);
                         Ok (Tensor.of_rows (length feature) rows))
                      trajs
    end;
  Ok {| observed_data := observed_data; data_to_predict := data_to_predict;
        tp_to_predict := tp_to_predict; observed_tp := observed_tp;
        avail_fcst := match avail_fcst_feature with None => false | Some _ => true end;
        available_forecasts := available_forecasts |}.

Definition len (self : t) : nat := length (observed_data self).

Definition getitem (index : Z) (self : t) : result (sample scalar) :=
  observed ← py_index (observed_data self) index;
  to_predict ← py_index (data_to_predict self) index;
  if avail_fcst self then
    forecasts ← match available_forecasts self with
                | Some x => py_index x index
                | None => Raise AttributeError
                end;
    Ok (observed, to_predict, forecasts, tp_to_predict self, observed_tp self)
  else
    Ok (observed, to_predict, Tensor.tensor nan, tp_to_predict self, observed_tp self).
End Defs.
Arguments t scalar : clear implicits.
End TimeSeriesDataset.

Section Collate.
Context {scalar : Type} `{!Dtype scalar}.

Definition collate_fn (data : list (sample scalar)) : result (Batch.t scalar) :=
  match data with
  | [] => Raise (ValueError "not enough values to unpack (expected 5, got 0)")
  | _ =>
      observed_data ← stack_rows (map (fun s => s.1.1.1.1) data);
      data_to_pred ← stack_rows (map (fun s => s.1.1.1.2) data);
      available_forecasts ← Tensor.stack (map (fun s => s.1.1.2) data);
      tp_to_predict ← py_index (map (fun s => s.1.2) data) 0;
      observed_tp ← py_index (map (fun s => s.2) data) 0;
      let not_nan_idx := Tensor.not_nan_mask available_forecasts in
      last ← py_index (Tensor.shape available_forecasts) (-1);
      available_forecasts ←
        Tensor.reshape [Z.of_nat (length observed_data); -1; Z.of_nat last]
                       (Tensor.masked available_forecasts not_nan_idx);
      let available_forecasts :=
        if bool_decide (Tensor.numel available_forecasts = 0%nat) then None
        else Some available_forecasts in
      Ok {| Batch.observed_data := observed_data;
            Batch.data_to_predict := data_to_pred;
            Batch.available_forecasts := available_forecasts;
            Batch.observed_tp := observed_tp;
            Batch.tp_to_predict := tp_to_predict;
            Batch.observed_mask := None;
            Batch.mask_predicted_data := None;
            Batch.labels := None;
            Batch.mode := "extrap" |}
  end.
End Collate.

(** [torch.utils.data.DataLoader] with the default samplers and
    [drop_last=False].  An iteration is a function of the generator state it
    starts from; the state it leaves behind is not tracked. *)
Module DataLoader.
Section Defs.
Context {scalar rng : Type} `{!Dtype scalar} `{!Random scalar rng}.

Record t : Type := {
  dataset : TimeSeriesDataset.t scalar;
  batch_size : Z;
  shuffle : bool;
  collate : list (sample scalar) -> result (Batch.t scalar)
}.

Definition init (dataset : TimeSeriesDataset.t scalar) (batch_size : Z)
  (shuffle : bool) (collate : list (sample scalar) -> result (Batch.t scalar))
  : result t :=
  if batch_size <=? 0 then
    Raise (ValueError "batch_size should be a positive integer value")
  else Ok {| dataset := dataset; batch_size := batch_size;
             shuffle := shuffle; collate := collate |}.

(** The indices of one pass: a fresh permutation when [shuffle], else 0..n-1. *)
Definition sampler (self : t) (g : rng) : list nat :=
  let n := TimeSeriesDataset.len (dataset self) in
  if shuffle self then (randperm n g).1 else seq 0 n.

Definition fetch (self : t) (indices : list nat) : result (Batch.t scalar) :=
  samples ← mapM (fun i => TimeSeriesDataset.getitem (Z.of_nat i) (dataset self))
                 indices;
  collate self samples.

(** The batches of one pass over the loader ([for batch in dl]), started
    with the generator in state [g]. *)
Definition iterate (self : t) (g : rng) : result (list (Batch.t scalar)) :=
  mapM (fetch self) (chunks (Z.to_nat (batch_size self)) (sampler self g)).
End Defs.
Arguments t scalar : clear implicits.
End DataLoader.

(** The feature-role dictionary. *)
Record features : Type := {
  hist_feature : list Z;
  fcst_feature : list Z;
  avail_fcst_feature : option (list Z)
}.

(** The process state [generate_data_set] acts on: the global random
    generator and the files read so far. *)
Record world (rng : Type) : Type := {
  generator : rng;
  opened : list string
}.
Arguments generator {rng}.
Arguments opened {rng}.

Section Generators.
Context {scalar rng : Type}
        `{!Dtype scalar} `{!Numeric scalar} `{!Random scalar rng} `{!Files scalar}.

(** [pd.read_csv(path, parse_dates=True, index_col=0).values]. *)
Definition pd_read_csv (path : string) : M (world rng) (list (list scalar)) :=
  fun w =>
    match read_csv path with
    | Some values =>
        (Ok values, {| generator := generator w; opened := opened w ++ [path] |})
    | None => (Raise (FileNotFoundError path), w)
    end.

(** A draw from the global generator. *)
Definition draw {A} (f : rng -> A * rng) : M (world rng) A :=
  fun w =>
    let '(a, g) := f (generator w) in
    (Ok a, {| generator := g; opened := opened w |}).

(** [np.lib.stride_tricks.sliding_window_view(df, w, axis=0).transpose(0, 2, 1)]:
    the windows of [w] consecutive rows. *)
Definition sliding_window_view (df : list (list scalar)) (w : Z)
  : result (list (list (list scalar))) :=
  if w <? 0 then Raise (ValueError "`window_shape` cannot contain negative values")
  else if Z.of_nat (length df) <? w then
    Raise (ValueError "window shape cannot be larger than input array shape")
  else Ok (map (fun i => take (Z.to_nat w) (drop i df))
               (seq 0 (length df - Z.to_nat w + 1))).

(** [torch.arange(n)] and [torch.diff]. *)
Definition arange (n : Z) : list scalar := map of_Z (seqZ 0 n).
Definition diff (x : list scalar) : list scalar := zip_with sub (tail x) x.

Definition cast (double : bool) (x : scalar) : scalar :=
  if double then to_double x else to_float x.

(** The body shared by [mfred] and [nrel]. *)
Definition windowed (path : string) (avail : list Z)
  (double : bool) (window_width : option Z)
  : M (world rng) (list (list (list scalar)) * list (list scalar) * scalar * features) :=
  df ← pd_read_csv path;
  window_width ← (match window_width with
                  | None => raise TypeError
                  | Some w => mret w
                  end);
  trajs ← lift (sliding_window_view df window_width);
  let trajs := stride_slice 12 trajs in
  let t_ := arange window_width in
  let time := sum (diff t_) in
  let sample_rate := div (of_Z window_width) time in
  let t_ := map (cast double) t_ in
  let trajs := map (map (map (cast double))) trajs in
  let features := {| hist_feature := [0]; fcst_feature := [0];
                     avail_fcst_feature := Some avail |} in
  mret (trajs, [t_], sample_rate, features).

(** electricity load dataset *)
Definition mfred (double : bool) (window_width : option Z) :=
  windowed "../datasets/MFRED_wiztemp.csv" [1] double window_width.

(** wind power dataset; [transformed] is not used. *)
Definition nrel (double : bool) (window_width : option Z)
  (transformed : option bool) :=
  windowed "../datasets/nrel_all.csv" [1; 2] double window_width.

(** [torch.linspace(start, end, steps)]. *)
Definition linspace (start stop : scalar) (steps : Z) : result (list scalar) :=
  if steps <? 0 then Raise (RuntimeError "number of steps must be non-negative")
  else Ok (map (linspace_at start stop (Z.to_nat steps)) (seq 0 (Z.to_nat steps))).

Definition sampler (t_ x0 : scalar) : scalar :=
  add (add (sin (add t_ x0)) (sin (mul (of_Z 2) (add t_ x0))))
      (mul (of_float 0.5%float) (sin (mul (of_Z 12) (add t_ x0)))).

(** toy dataset; the argument [t_nsamples] is overwritten on the second
    line, and the [print] is left out. *)
Definition sine (double : bool) (trajectories_to_sample t_nsamples num_pi : Z)
  : result (list (list (list scalar)) * list (list scalar) * scalar * features) :=
  let t_nsamples_ref := 1000 in
  t_nsamples ← py_int (PrimFloat.mul
                         (PrimFloat.div (float_of_Z t_nsamples_ref) (float_of_Z 4))
                         (float_of_Z num_pi));
  let t_end := PrimFloat.mul (float_of_Z num_pi) float_pi in
  t_begin ← (if t_nsamples =? 0 then Raise ZeroDivisionError
             else Ok (PrimFloat.div t_end (float_of_Z t_nsamples)));
  ti ← linspace (of_float t_begin) (of_float t_end) t_nsamples;
  let ti := if double then map to_double ti else ti in
  x0s ← linspace (of_Z 0) (of_float (PrimFloat.mul (float_of_Z 16) float_pi))
                 trajectories_to_sample;
  let trajs := map (fun x0 => map (fun t_ => sampler t_ x0) ti) x0s in
  y ← (match trajs with
       | [] => Raise (RuntimeError "stack expects a non-empty TensorList")
       | _ => Ok trajs
       end);
  sizes ← Tensor.infer_size [trajectories_to_sample; -1; 1] (length (concat y));
  let trajectories := map (map (fun v => [v])) y in
  let sample_rate :=
    mul (mul (div (of_Z t_nsamples) (sum (diff ti))) (of_Z 2)) (of_float float_pi) in
  let features := {| hist_feature := [0]; fcst_feature := [0];
                     avail_fcst_feature := None |} in
  Ok (trajectories, [ti], sample_rate, features).
End Generators.

(** The arguments of [generate_data_set] that it reads ([device] and the
    three stride arguments are never used); [window_width] and [transformed]
    are the entries of [kwargs]. *)
Module Config.
Record t : Type := {
  name : string;
  double : bool;
  batch_size : Z;
  extrap : Z;
  trajectories_to_sample : Z;
  percent_missing_at_random : float;
  normalize : bool;
  test_set_out_of_distribution : bool;
  noise_std : option float;
  t_nsamples : Z;
  add_external_feature : bool;
  observe_steps : Z;
  seed : Z;
  avg_terms : Z;
  window_width : option Z;
  transformed : option bool
}.
End Config.

(** [train_mean] and [train_std]: a tensor, or the int [0] or [1]. *)
Inductive stat (scalar : Type) : Type :=
| StatTensor (v : list scalar)
| StatInt (z : Z).
Arguments StatTensor {scalar} v.
Arguments StatInt {scalar} z.

(** The tuple [generate_data_set] returns. *)
Module Generated.
Record t (scalar : Type) : Type := {
  input_dim : nat * option nat;
  output_dim : nat;
  sample_rate : scalar;
  t_ : list (list scalar);
  dltrain : DataLoader.t scalar;
  dlval : DataLoader.t scalar;
  dltest : DataLoader.t scalar;
  input_timesteps : nat * option nat;
  output_timesteps : nat;
  train_mean : stat scalar;
  train_std : stat scalar;
  feature : features
}.
Arguments input_dim {scalar}.
Arguments output_dim {scalar}.
Arguments sample_rate {scalar}.
Arguments t_ {scalar}.
Arguments dltrain {scalar}.
Arguments dlval {scalar}.
Arguments dltest {scalar}.
Arguments input_timesteps {scalar}.
Arguments output_timesteps {scalar}.
Arguments train_mean {scalar}.
Arguments train_std {scalar}.
Arguments feature {scalar}.
End Generated.

Section GenerateDataSet.
Context {scalar rng : Type}
        `{!Dtype scalar} `{!Numeric scalar} `{!Random scalar rng} `{!Files scalar}.

Definition zip_with3 (f : scalar -> scalar -> scalar)
  (x y : list (list (list scalar))) : list (list (list scalar)) :=
  zip_with (zip_with (zip_with f)) x y.

(** Lines 232-239: zero the entries whose uniform draw is not below
    [1.0 - percent_missing_at_random]. *)
Definition drop_at_random (p : float) (trajectories : list (list (list scalar)))
  : M (world rng) (list (list (list scalar))) :=
  u ← draw (uniform_ (length trajectories) (dim1 trajectories) (dim2 trajectories));
  let threshold := of_float (PrimFloat.sub 1%float p) in
  let float_mask := map (map (map (fun v => if ltb v threshold then one else zero))) u in
  mret (zip_with3 mul float_mask trajectories).

(** Lines 241-242. *)
Definition add_noise (noise_std : float) (trajectories : list (list (list scalar)))
  : M (world rng) (list (list (list scalar))) :=
  r ← draw (randn (length trajectories) (dim1 trajectories) (dim2 trajectories));
  mret (zip_with3 add trajectories
                  (map (map (map (fun v => mul v (of_float noise_std)))) r)).

(** Lines 247-249: the chronological split. *)
Definition chronological_split {A} (train_split test_split : Z) (trajectories : list A)
  : list A * list A * list A :=
  (py_slice None (Some train_split) trajectories,
   py_slice (Some train_split) (Some test_split) trajectories,
   py_slice (Some test_split) None trajectories).

(** Lines 255-259: the split along a random permutation. *)
Definition random_split {A} (train_split test_split : Z) (trajectories : list A)
  : M (world rng) (list A * list A * list A) :=
  traj_index ← draw (randperm (length trajectories));
  let traj_index := map Z.of_nat traj_index in
  train ← lift (index_list (py_slice None (Some train_split) traj_index) trajectories);
  val ← lift (index_list (py_slice (Some train_split) (Some test_split) traj_index)
                         trajectories);
  test ← lift (index_list (py_slice (Some test_split) None traj_index) trajectories);
  mret (train, val, test).

(** [torch.reshape(x, (-1, dim))] and [x.reshape((len, -1, dim))]: the
    elements stay, the sizes must fit. *)
Definition reshape_flat (dim : nat) (x : list (list (list scalar)))
  : result (list (list scalar)) :=
  sizes ← Tensor.infer_size [-1; Z.of_nat dim] (length (concat (concat x)));
  Ok (concat x).

Definition reshape_back (len dim : nat) (x : list (list (list scalar)))
  : result (list (list (list scalar))) :=
  sizes ← Tensor.infer_size [Z.of_nat len; -1; Z.of_nat dim]
                            (length (concat (concat x)));
  Ok x.

(** The values of channel [c] over all rows. *)
Definition column (c : nat) (rows : list (list scalar)) : list scalar :=
  omap (fun row => row !! c) rows.

Definition standardize (mean std : list scalar) (x : list (list (list scalar)))
  : list (list (list scalar)) :=
  map (map (fun row => zip_with (fun v ms => div (sub v ms.1) ms.2)
                                row (zip mean std))) x.

(** Lines 264-283. *)
Definition normalize_splits (normalize : bool) (dim : nat)
  (train val test : list (list (list scalar)))
  : result (list (list (list scalar)) * list (list (list scalar))
            * list (list (list scalar)) * stat scalar * stat scalar) :=
  if normalize then
    let len_train := length train in
    let len_val := length val in
    let len_test := length test in
    rows ← reshape_flat dim train;
    let train_mean := map (fun c => nanmean (column c rows)) (seq 0 dim) in
    let train_std := map (fun c => nanstd (column c rows)) (seq 0 dim) in
    _ ← reshape_flat dim val;
    _ ← reshape_flat dim test;
    train ← reshape_back len_train dim (standardize train_mean train_std train);
    val ← reshape_back len_val dim (standardize train_mean train_std val);
    test ← reshape_back len_test dim (standardize train_mean train_std test);
    Ok (train, val, test, StatTensor train_mean, StatTensor train_std)
  else Ok (train, val, test, StatInt 0, StatInt 1).

(** [next(iter(dl))]. *)
Definition first_batch (dl : DataLoader.t scalar) (g : rng)
  : result (Batch.t scalar) :=
  match chunks (Z.to_nat (DataLoader.batch_size dl)) (DataLoader.sampler dl g) with
  | [] => Raise StopIteration
  | indices :: _ => DataLoader.fetch dl indices
  end.

(** Lines 284-301: the one permutation of the training trajectories, and
    the three loaders. *)
Definition make_loaders (cfg : Config.t) (feature : features)
  (t_ : list (list scalar)) (train val test : list (list (list scalar)))
  : M (world rng) (DataLoader.t scalar * DataLoader.t scalar * DataLoader.t scalar) :=
  rand_idx ← draw (randperm (length train));
  train ← lift (index_list (map Z.of_nat rand_idx) train);
  let loader trajectories :=
    ds ← TimeSeriesDataset.init trajectories t_ (Config.observe_steps cfg)
                                (Config.avg_terms cfg) (hist_feature feature)
                                (fcst_feature feature) (avail_fcst_feature feature);
    DataLoader.init ds (Config.batch_size cfg) false collate_fn in
  dltrain ← lift (loader train);
  dlval ← lift (loader val);
  dltest ← lift (loader test);
  mret (dltrain, dlval, dltest).

Definition generate_data_set (cfg : Config.t) : M (world rng) (Generated.t scalar) :=
  _ ← (fun w => (Ok tt, {| generator := setup_seed (Config.seed cfg) (generator w);
                           opened := opened w |}));
  '(trajectories, t_, sample_rate, feature) ←
    (if String.eqb (Config.name cfg) "nrel" then
       nrel (Config.double cfg) (Config.window_width cfg) (Config.transformed cfg)
     else if String.eqb (Config.name cfg) "sine" then
       lift (sine (Config.double cfg) (Config.trajectories_to_sample cfg)
                  (Config.t_nsamples cfg) 4)
     else if String.eqb (Config.name cfg) "mfred" then
       mfred (Config.double cfg) (Config.window_width cfg)
     else raise (ValueError "Unknown Dataset To Test"));
  let feature :=
    if Config.add_external_feature cfg then feature
    else {| hist_feature := hist_feature feature;
            fcst_feature := fcst_feature feature;
            avail_fcst_feature := None |} in
  trajectories ← (if truthy (Config.extrap cfg) then mret trajectories
                  else drop_at_random (Config.percent_missing_at_random cfg)
                                      trajectories);
  trajectories ← (match Config.noise_std cfg with
                  | Some noise_std =>
                      if truthy_float noise_std then add_noise noise_std trajectories
                      else mret trajectories
                  | None => mret trajectories
                  end);
  train_split ← lift (int_of_fraction float_0_8 (Z.of_nat (length trajectories)));
  test_split ← lift (int_of_fraction float_0_9 (Z.of_nat (length trajectories)));
  '(train, val, test) ←
    (if Config.test_set_out_of_distribution cfg then
       mret (chronological_split train_split test_split trajectories)
     else random_split train_split test_split trajectories);
  '(train, val, test, train_mean, train_std) ←
    lift (normalize_splits (Config.normalize cfg) (dim2 trajectories) train val test);
  '(dltrain, dlval, dltest) ← make_loaders cfg feature t_ train val test;
  b ← (fun w => (first_batch dltrain (generator w), w));
  '(input_dim, avail_fcst_timesteps) ←
    lift (match Batch.available_forecasts b with
          | Some x =>
              last ← py_index (Tensor.shape x) (-1);
              steps ← py_index (Tensor.shape x) 1;
              Ok ((dim2 (Batch.observed_data b), Some last), Some steps)
          | None => Ok ((dim2 (Batch.observed_data b), None), None)
          end);
  let output_dim := dim2 (Batch.data_to_predict b) in
  let input_timesteps := (dim1 (Batch.observed_data b), avail_fcst_timesteps) in
  let output_timesteps := dim1 (Batch.data_to_predict b) in
  mret {| Generated.input_dim := input_dim;
          Generated.output_dim := output_dim;
          Generated.sample_rate := sample_rate;
          Generated.t_ := t_;
          Generated.dltrain := dltrain;
          Generated.dlval := dlval;
          Generated.dltest := dltest;
          Generated.input_timesteps := input_timesteps;
          Generated.output_timesteps := output_timesteps;
          Generated.train_mean := train_mean;
          Generated.train_std := train_std;
          Generated.feature := feature |}.
End GenerateDataSet.

(** The tuple [generate_tree_data_set] returns; its entries 8 and 9 are
    [None]. *)
Module TreeGenerated.
Record t (scalar : Type) : Type := {
  input_dim : nat;
  output_dim : nat;
  sample_rate : scalar;
  t_ : list (list scalar);
  dltrain : list (list scalar) * list (list scalar);
  dlval : list (list scalar) * list (list scalar);
  dltest : list (list scalar) * list (list scalar);
  train_mean : stat scalar;
  train_std : stat scalar;
  feature : features
}.
Arguments input_dim {scalar}.
Arguments output_dim {scalar}.
Arguments sample_rate {scalar}.
Arguments t_ {scalar}.
Arguments dltrain {scalar}.
Arguments dlval {scalar}.
Arguments dltest {scalar}.
Arguments train_mean {scalar}.
Arguments train_std {scalar}.
Arguments feature {scalar}.
End TreeGenerated.

(** [s.__contains__(sub)]. *)
Definition contains (sub s : string) : bool :=
  match String.index 0 sub s with
  | Some _ => true
  | None => false
  end.

Section GenerateTreeDataSet.
Context {scalar rng : Type}
        `{!Dtype scalar} `{!Numeric scalar} `{!Random scalar rng} `{!Files scalar}.

(** Lines 452-459 (and the two copies below them): the inputs
    [torch.concat([observed.flatten(1), forecasts.flatten(1)], dim=-1)] and
    the targets of one batch. *)
Definition tree_arrays (data : Batch.t scalar)
  : result (list (list scalar) * list (list scalar)) :=
  let observed := map (fun traj => concat traj) (Batch.observed_data data) in
  forecasts ← match Batch.available_forecasts data with
              | None => Raise AttributeError
              | Some x => Tensor.flatten1 x
              end;
  x ← cat_dim1 observed forecasts;
  Ok (x, map (fun traj => concat traj) (Batch.data_to_predict data)).

(** Lines 373-399: the split of the trajectories and of the times. *)
Definition tree_split (cfg : Config.t) (train_split test_split : Z)
  (trajectories : list (list (list scalar))) (t_ : list (list scalar))
  : M (world rng) (list (list (list scalar)) * list (list (list scalar))
                   * list (list (list scalar))
                   * list (list scalar) * list (list scalar) * list (list scalar)) :=
  if Config.test_set_out_of_distribution cfg then
    let '(train, val, test) := chronological_split train_split test_split trajectories in
    if contains "time" (Config.name cfg) then
      mret (train, val, test,
            py_slice None (Some train_split) t_,
            py_slice (Some train_split) (Some test_split) t_,
            py_slice (Some test_split) None t_)
    else mret (train, val, test, t_, t_, t_)
  else
    traj_index ← draw (randperm (length trajectories));
    let traj_index := map Z.of_nat traj_index in
    train ← lift (index_list (py_slice None (Some train_split) traj_index) trajectories);
    val ← lift (index_list (py_slice (Some train_split) (Some test_split) traj_index)
                           trajectories);
    test ← lift (index_list (py_slice (Some test_split) None traj_index) trajectories);
    if contains "time" (Config.name cfg) then
      train_t ← lift (index_list (py_slice None (Some train_split) traj_index) t_);
      val_t ← lift (index_list (py_slice (Some train_split) (Some test_split) traj_index)
                               t_);
      test_t ← lift (index_list (py_slice (Some test_split) None traj_index) t_);
      mret (train, val, test, train_t, val_t, test_t)
    else mret (train, val, test, t_, t_, t_).

(** Lines 425-446: the one permutation of the training trajectories and the
    three loaders, each with the number of training trajectories as its
    batch size. *)
Definition make_tree_loaders (cfg : Config.t) (feature : features)
  (train val test : list (list (list scalar)))
  (train_t val_t test_t : list (list scalar))
  : M (world rng) (DataLoader.t scalar * DataLoader.t scalar * DataLoader.t scalar) :=
  rand_idx ← draw (randperm (length train));
  train ← lift (index_list (map Z.of_nat rand_idx) train);
  let loader trajectories time :=
    ds ← TimeSeriesDataset.init trajectories time (Config.observe_steps cfg)
                                (Config.avg_terms cfg) (hist_feature feature)
                                (fcst_feature feature) (avail_fcst_feature feature);
    DataLoader.init ds (Z.of_nat (length train)) false collate_fn in
  dltrain ← lift (loader train train_t);
  dlval ← lift (loader val val_t);
  dltest ← lift (loader test test_t);
  mret (dltrain, dlval, dltest).

Definition generate_tree_data_set (cfg : Config.t)
  : M (world rng) (TreeGenerated.t scalar) :=
  _ ← (fun w => (Ok tt, {| generator := setup_seed (Config.seed cfg) (generator w);
                           opened := opened w |}));
  '(trajectories, t_, sample_rate, feature) ←
    (if String.eqb (Config.name cfg) "nrel" then
       nrel (Config.double cfg) (Config.window_width cfg) (Config.transformed cfg)
     else if String.eqb (Config.name cfg) "sine" then
       lift (sine (Config.double cfg) (Config.trajectories_to_sample cfg)
                  (Config.t_nsamples cfg) 4)
     else if String.eqb (Config.name cfg) "mfred" then
       mfred (Config.double cfg) (Config.window_width cfg)
     else raise (ValueError "Unknown Dataset To Test"));
  let feature :=
    if Config.add_external_feature cfg then feature
    else {| hist_feature := hist_feature feature;
            fcst_feature := fcst_feature feature;
            avail_fcst_feature := None |} in
  trajectories ← (if truthy (Config.extrap cfg) then mret trajectories
                  else drop_at_random (Config.percent_missing_at_random cfg)
                                      trajectories);
  trajectories ← (match Config.noise_std cfg with
                  | Some noise_std =>
                      if truthy_float noise_std then add_noise noise_std trajectories
                      else mret trajectories
                  | None => mret trajectories
                  end);
  train_split ← lift (int_of_fraction float_0_8 (Z.of_nat (length trajectories)));
  test_split ← lift (int_of_fraction float_0_9 (Z.of_nat (length trajectories)));
  '(train, val, test, train_t, val_t, test_t) ←
    tree_split cfg train_split test_split trajectories t_;
  '(train, val, test, train_mean, train_std) ←
    lift (normalize_splits (Config.normalize cfg) (dim2 trajectories) train val test);
  '(dltrain, dlval, dltest) ←
    make_tree_loaders cfg feature train val test train_t val_t test_t;
  train_data ← (fun w => (first_batch dltrain (generator w), w));
  val_data ← (fun w => (first_batch dlval (generator w), w));
  test_data ← (fun w => (first_batch dltest (generator w), w));
  '(x_train, y_train) ← lift (tree_arrays train_data);
  '(x_val, y_val) ← lift (tree_arrays val_data);
  '(x_test, y_test) ← lift (tree_arrays test_data);
  mret {| TreeGenerated.input_dim := dim1 x_train;
          TreeGenerated.output_dim := dim1 y_train;
          TreeGenerated.sample_rate := sample_rate;
          TreeGenerated.t_ := t_;
          TreeGenerated.dltrain := (x_train, y_train);
          TreeGenerated.dlval := (x_val, y_val);
          TreeGenerated.dltest := (x_test, y_test);
          TreeGenerated.train_mean := train_mean;
          TreeGenerated.train_std := train_std;
          TreeGenerated.feature := feature |}.
End GenerateTreeDataSet.

(** ** example.py *)

Section Experiment.
Context {scalar : Type}.

(** Lines 198-201 of [experiment_with_all_baselines]:
    [test_trajs[:, -test_preds.shape[1]:, :]], the targets the test error of
    a model is computed against. *)
Definition test_targets (test_preds test_trajs : list (list (list scalar)))
  : list (list (list scalar)) :=
  map (py_slice (Some (- Z.of_nat (dim1 test_preds))) None) test_trajs.
End Experiment.

(** ** A concrete instance, for the examples

    Exact integers with NaN; every operation that leaves the integers is kept
    as an uninterpreted application.  The generator is a counter, the
    integrator is fixed-step Euler on the query grid, and the one file on disk
    is a small two-column table at the path of the MFRED data. *)
Module Example.

#[local] Unset Elimination Schemes.
Inductive num : Type :=
| Int (z : Z)
| Flt (f : float)
| NaN
| App (op : string) (args : list num).
#[local] Set Elimination Schemes.

Definition binop (op : string) (f : Z -> Z -> option Z) (a b : num) : num :=
  match a, b with
  | NaN, _ | _, NaN => NaN
  | Int x, Int y =>
      match f x y with
      | Some z => Int z
      | None => App op [a; b]
      end
  | _, _ => App op [a; b]
  end.

Definition unop (op : string) (a : num) : num :=
  match a with
  | NaN => NaN
  | Int 0 => Int 0
  | _ => App op [a]
  end.

#[export] Instance num_dtype : Dtype num := {|
  zero := Int 0;
  one := Int 1;
  nan := NaN;
  is_nan := fun a => match a with NaN => true | _ => false end;
  add := binop "add" (fun x y => Some (x + y));
  sub := binop "sub" (fun x y => Some (x - y));
  mul := binop "mul" (fun x y => Some (x * y));
  div := binop "div" (fun x y => if (y =? 0) || negb (x mod y =? 0) then None
                                 else Some (x / y));
  ltb := fun a b => match a, b with Int x, Int y => x <? y | _, _ => false end;
  of_Z := Int;
  of_float := Flt;
  is_nan_nan := eq_refl
|}.

#[export] Instance num_numeric : Numeric num := {|
  tanh := unop "tanh";
  sigmoid := fun a => App "sigmoid" [a];
  sin := unop "sin";
  to_double := fun a => a;
  to_float := fun a => a;
  linspace_at := fun start stop steps i =>
    App "linspace" [start; stop; Int (Z.of_nat steps); Int (Z.of_nat i)];
  nanmean := App "nanmean";
  nanstd := App "nanstd"
|}.

Lemma rotate_permutation {A} (k : nat) (l : list A) : Permutation (rotate k l) l.
Proof.
  unfold rotate. set (n := (k `mod` length l)%nat).
  rewrite Permutation_app_comm. by rewrite take_drop.
Qed.

(** The permutation drawn in state [g] is the rotation by [g + 1]. *)
#[export] Instance counter_random : Random num nat := {|
  setup_seed := fun seed _ => Z.to_nat seed;
  randperm := fun n g => (rotate (g + 1) (seq 0 n), S g);
  uniform_ := fun n t_ d g => (replicate n (replicate t_ (replicate d (Int 0))), S g);
  randn := fun n t_ d g => (replicate n (replicate t_ (replicate d (Int 0))), S g);
  randperm_permutation := fun n g => rotate_permutation (g + 1) (seq 0 n)
|}.

(** 110 rows [i, 100 + i]: ten windows after the stride of 12. *)
Definition table : list (list num) :=
  map (fun i => [Int (Z.of_nat i); Int (100 + Z.of_nat i)]) (seq 0 110).

#[export] Instance one_file : Files num := {|
  read_csv := fun path =>
    if String.eqb path "../datasets/MFRED_wiztemp.csv" then Some table else None
|}.

Definition zero_linear (in_features out_features : Z) : Linear.t num :=
  {| Linear.in_features := Z.to_nat in_features;
     Linear.weight := zeros (Z.to_nat out_features) (Z.to_nat in_features);
     Linear.bias := replicate (Z.to_nat out_features) (Int 0) |}.

(** The layer with zero weights and the given bias: a constant output. *)
Definition constant_linear (in_features : Z) (bias : list num) : Linear.t num :=
  {| Linear.in_features := Z.to_nat in_features;
     Linear.weight := zeros (length bias) (Z.to_nat in_features);
     Linear.bias := bias |}.

#[export] Instance zero_modules : Modules num nat := {|
  nn_Linear := fun i o g => (Ok (zero_linear i o), S g);
  nn_LSTM := fun _ _ _ g => (Ok (fun x => Ok x), S g);
  nn_GRU := fun _ _ _ g => (Ok (fun x => Ok x), S g)
|}.

(** One Euler step per interval of the grid. *)
Fixpoint euler (acc : list (list (list num))) (y : list (list num)) (t0 : num)
  (ts : list num) : solver num :=
  match ts with
  | [] => Return (reverse acc)
  | t1 :: ts =>
      Call t0 y (fun dy =>
        let y1 := zip_with (zip_with (fun v d => add v (mul (sub t1 t0) d))) y dy in
        euler (y1 :: acc) y1 t1 ts)
  end.

#[export] Instance euler_integrator : Integrator num := {|
  odeint := fun y0 t_ method =>
    match t_ with
    | [] => Abort IndexError
    | t0 :: ts =>
        if String.eqb method "euler" then euler [y0] y0 t0 ts
        else Abort (ValueError "only the euler method is provided here")
    end
|}.

(** A vector field on two state channels and one augmented channel, with
    the constant derivative (1, 2, 3). *)
Definition ode_func3 : OdeFunc.t num :=
  {| OdeFunc.time_dependent := true;
     OdeFunc.fc1 := zero_linear 4 2;
     OdeFunc.fc1_5 := zero_linear 2 2;
     OdeFunc.fc2 := constant_linear 2 [Int 1; Int 2; Int 3];
     OdeFunc.nfe := 0 |}.

(** The same on two state channels, without augmentation: the derivative
    is (1, 2). *)
Definition ode_func2 : OdeFunc.t num :=
  {| OdeFunc.time_dependent := true;
     OdeFunc.fc1 := zero_linear 3 2;
     OdeFunc.fc1_5 := zero_linear 2 2;
     OdeFunc.fc2 := constant_linear 2 [Int 1; Int 2];
     OdeFunc.nfe := 0 |}.

(** An encoder that hands on the last observation: the recurrent layer
    returns its input, the linear layer is the identity. *)
Definition last_encoder : GRUEncoder.t num :=
  {| GRUEncoder.gru := fun x => Ok x;
     GRUEncoder.linear_out :=
       {| Linear.in_features := 2;
          Linear.weight := [[Int 1; Int 0]; [Int 0; Int 1]];
          Linear.bias := [Int 0; Int 0] |} |}.

(** One trajectory observed at two times, two channels; three query times. *)
Definition observed : list (list (list num)) := [[[Int 5; Int 7]; [Int 6; Int 8]]].
Definition query : list (list num) := [[Int 0; Int 1; Int 2]].

Definition node (augment_dim extrap : Z) : NODE.t num :=
  {| NODE.ode_func := if augment_dim =? 0 then ode_func2 else ode_func3;
     NODE.method := "euler"; NODE.augment_dim := augment_dim;
     NODE.extrap := extrap |}.

Definition latent_node (augment_dim : Z) : LatentNODE.t num :=
  {| LatentNODE.ode_func := if augment_dim =? 0 then ode_func2 else ode_func3;
     LatentNODE.method := "euler"; LatentNODE.encoder := last_encoder;
     LatentNODE.augment_dim := augment_dim; LatentNODE.extrap := 0 |}.

(** [generate_data_set("mfred", ..., window_width=2)] with the masking, the
    noise and the normalization switched off. *)
Definition config : Config.t :=
  {| Config.name := "mfred"; Config.double := true; Config.batch_size := 3;
     Config.extrap := 1; Config.trajectories_to_sample := 100;
     Config.percent_missing_at_random := 0%float; Config.normalize := false;
     Config.test_set_out_of_distribution := true; Config.noise_std := None;
     Config.t_nsamples := 200; Config.add_external_feature := false;
     Config.observe_steps := 1; Config.seed := 0; Config.avg_terms := 1;
     Config.window_width := Some 2; Config.transformed := None |}.

Definition start : world nat := {| generator := 7%nat; opened := [] |}.

(** The same call with a dataset name of [example.py] that
    [generate_data_set] does not know. *)
Definition unknown_config : Config.t :=
  {| Config.name := "lotka_volterra_system_with_delay"; Config.double := true;
     Config.batch_size := 3; Config.extrap := 1;
     Config.trajectories_to_sample := 100;
     Config.percent_missing_at_random := 0%float; Config.normalize := false;
     Config.test_set_out_of_distribution := true; Config.noise_std := None;
     Config.t_nsamples := 200; Config.add_external_feature := false;
     Config.observe_steps := 1; Config.seed := 0; Config.avg_terms := 1;
     Config.window_width := Some 2; Config.transformed := None |}.

(** Two samples without available forecasts, and their batch. *)
Definition samples : list (sample num) :=
  [([[Int 1]], [[Int 2]], Tensor.tensor NaN, [[Int 1]], [[Int 0]]);
   ([[Int 3]], [[Int 4]], Tensor.tensor NaN, [[Int 1]], [[Int 0]])].

(** Two samples with forecasts at two steps; both forecasts of the first
    are NaN. *)
Definition forecast_samples : list (sample num) :=
  [([[Int 1]], [[Int 2]], Tensor.of_rows 1 [[NaN]; [NaN]], [[Int 1]], [[Int 0]]);
   ([[Int 3]], [[Int 4]], Tensor.of_rows 1 [[Int 7]; [Int 8]], [[Int 1]], [[Int 0]])].

(** The call of [config] with the available forecasts switched on. *)
Definition forecast_config : Config.t :=
  {| Config.name := "mfred"; Config.double := true; Config.batch_size := 3;
     Config.extrap := 1; Config.trajectories_to_sample := 100;
     Config.percent_missing_at_random := 0%float; Config.normalize := false;
     Config.test_set_out_of_distribution := true; Config.noise_std := None;
     Config.t_nsamples := 200; Config.add_external_feature := true;
     Config.observe_steps := 1; Config.seed := 0; Config.avg_terms := 1;
     Config.window_width := Some 2; Config.transformed := None |}.

(** Two samples whose forecasts are all known. *)
Definition complete_samples : list (sample num) :=
  [([[Int 1]], [[Int 2]], Tensor.of_rows 1 [[Int 5]; [Int 6]], [[Int 1]], [[Int 0]]);
   ([[Int 3]], [[Int 4]], Tensor.of_rows 1 [[Int 7]; [Int 8]], [[Int 1]], [[Int 0]])].

(** The call of [config] with the normalization switched on. *)
Definition normalized_config : Config.t :=
  {| Config.name := "mfred"; Config.double := true; Config.batch_size := 3;
     Config.extrap := 1; Config.trajectories_to_sample := 100;
     Config.percent_missing_at_random := 0%float; Config.normalize := true;
     Config.test_set_out_of_distribution := true; Config.noise_std := None;
     Config.t_nsamples := 200; Config.add_external_feature := false;
     Config.observe_steps := 1; Config.seed := 0; Config.avg_terms := 1;
     Config.window_width := Some 2; Config.transformed := None |}.

(** One trajectory of 200 steps and one channel, and one of 8 steps and two
    channels. *)
Definition long_trajectory : list (list num) :=
  map (fun i => [Int i]) (seqZ 0 200).
Definition short_trajectory : list (list num) :=
  map (fun i => [Int (2 * i); Int (100 + i)]) (seqZ 0 8).

Definition batch : Batch.t num :=
  {| Batch.observed_data := [[[Int 1]]; [[Int 3]]];
     Batch.data_to_predict := [[[Int 2]]; [[Int 4]]];
     Batch.available_forecasts := None;
     Batch.observed_tp := [[Int 0]];
     Batch.tp_to_predict := [[Int 1]];
     Batch.observed_mask := None;
     Batch.mask_predicted_data := None;
     Batch.labels := None;
     Batch.mode := "extrap" |}.
End Example.


(** ** Vocabulary of the properties *)

(** [int(0.8 * n)] and [int(0.9 * n)] computed in binary64 and compared with
    the exact quotients, for [fuel] consecutive sizes from [n]. *)
Fixpoint fractions_exact (fuel : nat) (n : Z) : bool :=
  match fuel with
  | O => true
  | S fuel =>
      match int_of_fraction float_0_8 n, int_of_fraction float_0_9 n with
      | Ok a, Ok b =>
          if (a =? 4 * n / 5) && (b =? 9 * n / 10) then fractions_exact fuel (n + 1)
          else false
      | _, _ => false
      end
  end.

Section Vocabulary.
Context {scalar : Type} `{!Dtype scalar}.

(** The ground truth of a pass in which every batch takes the extrap
    branch: observed data and data to predict joined along the time axis,
    batch after batch. *)
Definition concatenated (dl : list (Batch.t scalar))
  : result (list (list (list scalar))) :=
  trajs ← mapM (fun batch => cat_axis1 (Batch.observed_data batch)
                                       (Batch.data_to_predict batch)) dl;
  cat_dim0 trajs.

(** The sample carries the 0-d NaN tensor in its available-forecast slot. *)
Definition placeholder (s : sample scalar) : Prop := s.1.1.2 = Tensor.tensor nan.

(** The channels [feature] of one row: [row[feature]] when every index is
    in range. *)
Definition channels (feature : list Z) (row : list scalar) : list scalar :=
  omap (fun i => row !! Z.to_nat (norm_index (length row) i)) feature.

(** The means of the [length row / k] full windows of [k] consecutive
    elements of a row. *)
Definition window_means (k : nat) (row : list scalar) : list scalar :=
  map (fun j => div (sum (take k (drop (j * k) row))) (of_Z (Z.of_nat k)))
      (seq 0 (length row / k)).

(** The block averages of a (T, [n]) trajectory over windows of [k] steps,
    channel by channel. *)
Definition block_means (k n : nat) (rows : list (list scalar)) : list (list scalar) :=
  map (fun j => map (fun c => div (sum (take k (drop (j * k) (column c rows))))
                                  (of_Z (Z.of_nat k)))
                    (seq 0 n))
      (seq 0 (length rows / k)).

(** The loader [generate_data_set] builds over [trajectories] (lines
    286-301). *)
Definition built_from (cfg : Config.t) (feature : features) (t_ : list (list scalar))
  (trajectories : list (list (list scalar))) (dl : DataLoader.t scalar) : Prop :=
  exists ds,
    TimeSeriesDataset.init trajectories t_ (Config.observe_steps cfg)
                           (Config.avg_terms cfg) (hist_feature feature)
                           (fcst_feature feature) (avail_fcst_feature feature) = Ok ds
    /\ dl = {| DataLoader.dataset := ds; DataLoader.batch_size := Config.batch_size cfg;
               DataLoader.shuffle := false; DataLoader.collate := collate_fn |}.
End Vocabulary.

(** * Properties *)

(** ** Fallible computations and Python indexing *)

Section ResultFacts.
Context {A B : Type}.

Lemma mapM_Ok (f : A -> result B) (l : list A) (k : list B) :
  mapM f l = Ok k <-> Forall2 (fun a b => f a = Ok b) l k.
Proof.
  revert k. induction l as [|a l IH]; intros k; cbn.
  - split.
    + intros [= <-]. constructor.
    + intros Hk. inversion Hk. reflexivity.
  - split.
    + destruct (f a) as [b|e] eqn:Hb; cbn; [|discriminate].
      destruct (mapM f l) as [k'|e] eqn:Hk'; cbn; [|discriminate].
      intros [= <-]. constructor; [assumption|]. by apply IH.
    + intros Hk. inversion Hk as [|? b ? k' Hb Hk']; subst.
      rewrite Hb. cbn. apply IH in Hk'. by rewrite Hk'.
Qed.

Lemma mapM_Ok_length (f : A -> result B) (l : list A) (k : list B) :
  mapM f l = Ok k -> length k = length l.
Proof. intros H%mapM_Ok. symmetry. by eapply Forall2_length. Qed.

Lemma Forall_map_iff (f : A -> B) (P : B -> Prop) (l : list A) :
  Forall P (map f l) <-> Forall (fun a => P (f a)) l.
Proof.
  induction l as [|a l IH]; cbn; [split; constructor|].
  rewrite !Forall_cons. by rewrite IH.
Qed.

Lemma mapM_total (f : A -> result B) (g : A -> B) (l : list A) :
  Forall (fun a => f a = Ok (g a)) l -> mapM f l = Ok (map g l).
Proof.
  intros H. apply mapM_Ok. induction H; constructor; assumption.
Qed.
End ResultFacts.

Section IndexFacts.
Context {A : Type}.
Implicit Types l : list A.

Lemma py_index_first l x : py_index l 0 = Ok x <-> head l = Some x.
Proof.
  unfold py_index, norm_index. cbn.
  destruct l as [|a l]; cbn; [split; discriminate|].
  split; intros [= ->]; reflexivity.
Qed.

Lemma py_index_last l x : py_index l (-1) = Ok x <-> last l = Some x.
Proof.
  unfold py_index, norm_index. rewrite last_lookup.
  destruct l as [|a l]; cbn [length]; [split; discriminate|].
  replace (-1 <? 0) with true by reflexivity.
  replace (Z.to_nat (-1 + Z.of_nat (S (length l)))) with (Init.Nat.pred (S (length l))) by lia.
  replace ((0 <=? -1 + Z.of_nat (S (length l))) && (-1 + Z.of_nat (S (length l)) <? Z.of_nat (S (length l)))) with true
    by (symmetry; apply andb_true_iff; split; [apply Z.leb_le | apply Z.ltb_lt]; lia).
  destruct (_ !! _); split; intros [= ->] || discriminate; reflexivity.
Qed.

Lemma slice_bound_nonneg (n : nat) (i : Z) :
  0 <= i -> slice_bound n i = Nat.min (Z.to_nat i) n.
Proof.
  intros Hi. unfold slice_bound, norm_index.
  destruct (i <? 0) eqn:E; [apply Z.ltb_lt in E; lia | lia].
Qed.

Lemma py_slice_to l (k : Z) :
  0 <= k -> py_slice None (Some k) l = take (Z.to_nat k) l.
Proof.
  intros Hk. unfold py_slice. rewrite slice_bound_nonneg by done.
  rewrite drop_0, Nat.sub_0_r.
  destruct (decide (Z.to_nat k <= length l)%nat).
  - by rewrite Nat.min_l.
  - rewrite Nat.min_r by lia. rewrite !take_ge by lia. done.
Qed.

Lemma py_slice_from l (k : Z) :
  0 <= k -> py_slice (Some k) None l = drop (Z.to_nat k) l.
Proof.
  intros Hk. unfold py_slice. rewrite slice_bound_nonneg by done.
  destruct (decide (Z.to_nat k <= length l)%nat).
  - rewrite Nat.min_l by done. apply take_ge. rewrite length_drop. lia.
  - rewrite Nat.min_r by lia. rewrite Nat.sub_diag, take_0, drop_ge by lia. done.
Qed.

Lemma py_slice_range l (a b : Z) :
  0 <= a <= b ->
  py_slice (Some a) (Some b) l = take (Z.to_nat b - Z.to_nat a) (drop (Z.to_nat a) l).
Proof.
  intros Hab. unfold py_slice. rewrite !slice_bound_nonneg by lia.
  destruct (decide (Z.to_nat b <= length l)%nat).
  - rewrite !Nat.min_l by lia. done.
  - rewrite (Nat.min_r (Z.to_nat b)) by lia.
    destruct (decide (Z.to_nat a <= length l)%nat).
    + rewrite Nat.min_l by lia. rewrite !take_ge; [done| |]; rewrite length_drop; lia.
    + rewrite Nat.min_r by lia. rewrite !drop_ge by lia. by rewrite !take_nil.
Qed.
End IndexFacts.

(** ** Transposition *)

Section TransposeFacts.
Context {A : Type}.
Implicit Types x : list (list (list A)).

(** Every row of the transposed tensor is a row of the tensor. *)
Lemma transpose_rows x (n : nat) (P : list A -> Prop) :
  Forall (Forall P) x -> Forall (Forall P) (transpose n x).
Proof.
  induction 1 as [|slice x Hslice _ IH]; cbn.
  - apply Forall_forall. intros traj [-> _]%elem_of_replicate. constructor.
  - apply Forall_forall. intros traj (row & rest & -> & Hrow & Hrest)%elem_of_zip_with.
    constructor.
    + by eapply Forall_forall in Hslice.
    + by eapply Forall_forall in IH.
Qed.

(** The transposed tensor is empty or has the channel width of the rows. *)
Lemma dim2_transpose x (dim : nat) :
  Forall (Forall (fun row => length row = dim)) x ->
  transpose (dim1 x) x = [] \/ dim2 (transpose (dim1 x) x) = dim.
Proof.
  intros Hx. destruct x as [|slice x]; [by left|].
  cbn. destruct slice as [|row slice]; [by left|].
  destruct (transpose _ x) as [|traj rest]; [by left|].
  right. cbn. apply Forall_cons in Hx as [Hslice _].
  by apply Forall_cons in Hslice as [Hrow _].
Qed.
End TransposeFacts.

(** ** The vector field's counter *)

Section Counter.
Context {scalar : Type} `{!Dtype scalar} `{!Numeric scalar} `{!Integrator scalar}.

Lemma forward_nfe (t_ : scalar) (z : list (list scalar)) (f : OdeFunc.t scalar) :
  OdeFunc.nfe (OdeFunc.forward t_ z f).2 = OdeFunc.nfe f + 1.
Proof. reflexivity. Qed.

Lemma evaluations_nonneg (s : solver scalar) (f : OdeFunc.t scalar) :
  0 <= evaluations s f.
Proof.
  revert f. induction s as [| |t_ z k IH]; intros f; cbn [evaluations]; try lia.
  destruct (OdeFunc.forward t_ z f) as [[dz|e] f']; [|lia].
  specialize (IH dz f'). lia.
Qed.

(** An integration advances the counter by the number of evaluations it
    makes, whether it returns or raises. *)
Lemma run_solver_nfe (s : solver scalar) (f : OdeFunc.t scalar) :
  OdeFunc.nfe (run_solver s f).2 = OdeFunc.nfe f + evaluations s f.
Proof.
  revert f. induction s as [| |t_ z k IH]; intros f;
    cbn [run_solver evaluations snd]; try lia.
  pose proof (forward_nfe t_ z f) as Hone.
  destruct (OdeFunc.forward t_ z f) as [[dz|e] f']; cbn [snd] in *; [|lia].
  rewrite IH. lia.
Qed.

Lemma NODE_forward_nfe trajectories ti (self : NODE.t scalar) :
  OdeFunc.nfe (NODE.ode_func (NODE.forward trajectories ti self).2)
  = OdeFunc.nfe (NODE.ode_func self) + NODE.forward_evaluations trajectories ti self.
Proof.
  unfold NODE.forward, NODE.forward_evaluations, NODE.encode, NODE.integrate.
  destruct (if truthy _ then _ else _) as [x0|e]; cbn; [|lia].
  destruct (NODE.augment x0 self) as [x_aug|e]; cbn; [|lia].
  pose proof (run_solver_nfe (odeint x_aug (concat ti) (NODE.method self))
                             (NODE.ode_func self)) as Hrun.
  destruct (run_solver _ _) as [r f]. cbn in *. exact Hrun.
Qed.

(** C3: every call of [OdeFunc.forward] adds exactly one to [nfe], whatever
    it returns, and an integration (which only calls [forward]) leaves the
    counter at its old value plus the number of calls: nothing in [OdeFunc]
    resets it.  [GeneralNODE._get_and_reset_nfes] returns the counter's
    value and leaves it at zero, changing nothing else; read after a
    training step, it returns the counter before the step plus every
    evaluation of the step. *)
Theorem nfe_counter :
  (forall (t_ : scalar) z (f : OdeFunc.t scalar),
      (OdeFunc.forward t_ z f).2 = OdeFunc.set_nfe (OdeFunc.nfe f + 1) f)
  /\ (forall (s : solver scalar) (f : OdeFunc.t scalar),
        OdeFunc.nfe (run_solver s f).2 = OdeFunc.nfe f + evaluations s f
        /\ 0 <= evaluations s f)
  /\ (forall self : GeneralNODE.t scalar,
        let '(r, self') := GeneralNODE._get_and_reset_nfes self in
        r = Ok (OdeFunc.nfe (NODE.ode_func (GeneralNODE.model self)))
        /\ OdeFunc.nfe (NODE.ode_func (GeneralNODE.model self')) = 0
        /\ OdeFunc.set_nfe (OdeFunc.nfe (NODE.ode_func (GeneralNODE.model self)))
                           (NODE.ode_func (GeneralNODE.model self'))
           = NODE.ode_func (GeneralNODE.model self))
  /\ (forall (batch : Batch.t scalar) (self : GeneralNODE.t scalar),
        let '(loss, self1) := GeneralNODE.training_step batch self in
        let '(r, self2) := GeneralNODE._get_and_reset_nfes self1 in
        r = Ok (OdeFunc.nfe (NODE.ode_func (GeneralNODE.model self))
                + NODE.forward_evaluations (Batch.observed_data batch)
                                      (Batch.tp_to_predict batch)
                                      (GeneralNODE.model self))
        /\ OdeFunc.nfe (NODE.ode_func (GeneralNODE.model self2)) = 0).
Proof.
  split; [reflexivity|].
  split; [intros s f; split; [apply run_solver_nfe | apply evaluations_nonneg]|].
  split.
  - intros [[f method a e]]. cbn. by destruct f.
  - intros batch self.
    pose proof (NODE_forward_nfe (Batch.observed_data batch) (Batch.tp_to_predict batch)
                                 (GeneralNODE.model self)) as Hnfe.
    unfold GeneralNODE.training_step, GeneralNODE.call_model, mbind, M_bind.
    destruct (NODE.forward _ _ _) as [[preds|e] model]; cbn in *.
    + unfold lift. cbn. by rewrite Hnfe.
    + by rewrite Hnfe.
Qed.
End Counter.

(** ** The seed state of the plain NODE *)

Section Seed.
Context {scalar : Type} `{!Dtype scalar} `{!Numeric scalar} `{!Integrator scalar}.
Implicit Types trajectories : list (list (list scalar)).

Lemma truthy_spec (z : Z) : truthy z = false <-> z = 0.
Proof. unfold truthy. destruct (Z.eqb_spec z 0); cbn; split; congruence. Qed.

Lemma select_first trajectories (T : nat) :
  (0 < T)%nat -> Forall (fun traj => length traj = T) trajectories ->
  select_dim1 0 trajectories = Ok (map (fun traj => default [] (head traj)) trajectories).
Proof.
  intros HT Hlen. apply mapM_total. eapply Forall_impl; [exact Hlen|].
  intros [|row traj] Htraj; cbn in *; [lia|]. by apply py_index_first.
Qed.

Lemma select_last trajectories (T : nat) :
  (0 < T)%nat -> Forall (fun traj => length traj = T) trajectories ->
  select_dim1 (-1) trajectories = Ok (map (fun traj => default [] (last traj)) trajectories).
Proof.
  intros HT Hlen. apply mapM_total. eapply Forall_impl; [exact Hlen|].
  intros traj Htraj. apply py_index_last.
  destruct (last traj) as [row|] eqn:Hlast; [done|].
  apply last_None in Hlast as ->. cbn in Htraj. lia.
Qed.

(** C4: on a batch of shape (N, T, D) with T >= 1, [NODE.encode] returns the
    first observed timestep of every trajectory when [extrap] is 0 and the
    last one otherwise, and [NODE.forward] integrates from that same seed;
    the timestep index is a function of the flag alone. *)
Theorem NODE_initial_condition trajectories (ti : list (list scalar))
  (self : NODE.t scalar) (T : nat) :
  (0 < T)%nat ->
  Forall (fun traj => length traj = T) trajectories ->
  NODE.encode trajectories self
  = select_dim1 (if truthy (NODE.extrap self) then -1 else 0) trajectories
  /\ exists x0,
      NODE.encode trajectories self = Ok x0
      /\ NODE.forward trajectories ti self = NODE.integrate x0 (concat ti) self
      /\ length x0 = length trajectories
      /\ forall (n : nat) traj,
          trajectories !! n = Some traj ->
          (NODE.extrap self = 0 -> x0 !! n = traj !! 0%nat)
          /\ (NODE.extrap self <> 0 -> x0 !! n = traj !! (T - 1)%nat).
Proof.
  intros HT Hlen. split; [unfold NODE.encode; by destruct (truthy _)|].
  unfold NODE.encode, NODE.forward.
  destruct (truthy (NODE.extrap self)) eqn:Hflag.
  - rewrite (select_last _ T) by done. eexists. split; [reflexivity|].
    split; [reflexivity|]. split; [by rewrite length_map|].
    intros n traj Hn. split.
    + intros Hzero%truthy_spec. congruence.
    + intros _. rewrite list_lookup_fmap, Hn. cbn.
      eapply Forall_lookup_1 in Hlen; [|exact Hn]. cbn in Hlen.
      rewrite last_lookup, Hlen.
      replace (Init.Nat.pred T) with (T - 1)%nat by lia.
      destruct (traj !! (T - 1)%nat) eqn:Hrow; [done|].
      apply lookup_ge_None in Hrow. lia.
  - rewrite (select_first _ T) by done. eexists. split; [reflexivity|].
    split; [reflexivity|]. split; [by rewrite length_map|].
    intros n traj Hn. split.
    + intros _. rewrite list_lookup_fmap, Hn. cbn.
      eapply Forall_lookup_1 in Hlen; [|exact Hn]. cbn in Hlen.
      rewrite head_lookup.
      destruct (traj !! 0%nat) eqn:Hrow; [done|].
      apply lookup_ge_None in Hrow. lia.
    + intros Hset. apply truthy_spec in Hflag. congruence.
Qed.
End Seed.

(** ** Augmented channels *)

Section Augmentation.
Context {scalar : Type} `{!Dtype scalar} `{!Numeric scalar} `{!Integrator scalar}.
Implicit Types features : list (list (list scalar)).

(** With [augment_dim = a > 0] both variants append [a] zero channels to
    every seed state. *)
Lemma NODE_augment_zeros (x0 : list (list scalar)) (self : NODE.t scalar) (a : nat) :
  (0 < a)%nat -> NODE.augment_dim self = Z.of_nat a ->
  NODE.augment x0 self = Ok (map (fun row => row ++ replicate a zero) x0).
Proof.
  intros Ha Hdim. unfold NODE.augment, cat_dim1, zeros. rewrite Hdim.
  replace (0 <? Z.of_nat a) with true by (symmetry; apply Z.ltb_lt; lia).
  rewrite length_replicate, bool_decide_eq_true_2, Nat2Z.id by done.
  f_equal. induction x0 as [|row x0 IH]; cbn; [done|]. by rewrite IH.
Qed.

Lemma LatentNODE_augment_zeros (x0 : list (list scalar)) (self : LatentNODE.t scalar)
  (a : nat) :
  (0 < a)%nat -> LatentNODE.augment_dim self = Z.of_nat a ->
  LatentNODE.augment x0 self = Ok (map (fun row => row ++ replicate a zero) x0).
Proof.
  intros Ha Hdim. unfold LatentNODE.augment, cat_dim1, zeros. rewrite Hdim.
  replace (0 <? Z.of_nat a) with true by (symmetry; apply Z.ltb_lt; lia).
  rewrite length_replicate, bool_decide_eq_true_2, Nat2Z.id by done.
  f_equal. induction x0 as [|row x0 IH]; cbn; [done|]. by rewrite IH.
Qed.

(** The plain variant keeps the first [d] channels of an integrator output
    of width [d + a]: the positions of the seed state. *)
Lemma NODE_output_keeps_state features (self : NODE.t scalar) (d a : nat) :
  NODE.augment_dim self = Z.of_nat a ->
  Forall (Forall (fun row => length row = (d + a)%nat)) features ->
  NODE.output features self
  = map (map (take d)) (transpose (dim1 features) features).
Proof.
  intros Hdim Hrows. unfold NODE.output, slice_dim2.
  destruct (dim2_transpose features (d + a) Hrows) as [Hnil|Hwidth];
    [by rewrite Hnil|rewrite Hwidth].
  rewrite Hdim. apply map_ext. intros traj. apply map_ext. intros row.
  rewrite py_slice_to by lia. f_equal. lia.
Qed.

(** The latent variant keeps the last [a] channels instead: the positions
    of the appended zeros. *)
Lemma LatentNODE_output_keeps_augmented features (self : LatentNODE.t scalar)
  (d a : nat) :
  LatentNODE.augment_dim self = Z.of_nat a ->
  Forall (Forall (fun row => length row = (d + a)%nat)) features ->
  LatentNODE.output features self
  = map (map (drop d)) (transpose (dim1 features) features).
Proof.
  intros Hdim Hrows. unfold LatentNODE.output, slice_dim2.
  destruct (dim2_transpose features (d + a) Hrows) as [Hnil|Hwidth];
    [by rewrite Hnil|rewrite Hwidth].
  rewrite Hdim. apply map_ext. intros traj. apply map_ext. intros row.
  rewrite py_slice_from by lia. f_equal. lia.
Qed.

(** Without augmentation the plain variant hands the seed state to the
    integrator unchanged and returns every channel of its output. *)
Lemma NODE_without_augmentation (x0 : list (list scalar)) features
  (self : NODE.t scalar) (d : nat) :
  NODE.augment_dim self = 0 ->
  Forall (Forall (fun row => length row = d)) features ->
  NODE.augment x0 self = Ok x0
  /\ NODE.output features self = transpose (dim1 features) features.
Proof.
  intros Hdim Hrows. split; [unfold NODE.augment; by rewrite Hdim|].
  rewrite (NODE_output_keeps_state features self d 0);
    [|done|by rewrite Nat.add_0_r].
  pose proof (transpose_rows features (dim1 features) _ Hrows) as Hwidth.
  induction Hwidth as [|traj rest Htraj _ IH]; cbn; [done|]. f_equal; [|done].
  induction Htraj as [|row traj Hrow _ IH']; cbn; [done|]. f_equal; [|done].
  apply take_ge. lia.
Qed.

(** The latent variant, without augmentation, returns no channel at all. *)
Lemma LatentNODE_without_augmentation (x0 : list (list scalar)) features
  (self : LatentNODE.t scalar) (d : nat) :
  LatentNODE.augment_dim self = 0 ->
  Forall (Forall (fun row => length row = d)) features ->
  LatentNODE.augment x0 self = Ok x0
  /\ LatentNODE.output features self
     = map (map (fun _ => [])) (transpose (dim1 features) features).
Proof.
  intros Hdim Hrows. split; [unfold LatentNODE.augment; by rewrite Hdim|].
  rewrite (LatentNODE_output_keeps_augmented features self d 0);
    [|done|by rewrite Nat.add_0_r].
  pose proof (transpose_rows features (dim1 features) _ Hrows) as Hwidth.
  induction Hwidth as [|traj rest Htraj _ IH]; cbn; [done|]. f_equal; [|done].
  induction Htraj as [|row traj Hrow _ IH']; cbn; [done|]. f_equal; [|done].
  apply drop_ge. lia.
Qed.
End Augmentation.

(** ** Unknown names *)

Section UnknownNames.
Context {scalar rng : Type}
        `{!Dtype scalar} `{!Numeric scalar} `{!Random scalar rng} `{!Files scalar}
        `{!Modules scalar rng}.

Lemma eqb_other (s known : string) : s <> known -> String.eqb s known = false.
Proof. intros. by apply String.eqb_neq. Qed.

(** C6: a dataset name other than "nrel", "sine", "mfred" makes
    [generate_data_set] raise ValueError right after seeding the generator,
    with no file read and no loader built; a method other than "naive",
    "loop" makes the [GeneralPersistence] constructor raise ValueError, and a
    method other than "lstm", "mlp" makes the [GeneralNeuralNetwork]
    constructor raise ValueError before any layer is created. *)
Theorem unknown_names_raise (cfg : Config.t) (w : world rng)
  (out_timesteps obs_dim out_dim nhidden : Z) (in_timesteps : option Z)
  (persistence_method network_method : string) (g : rng) :
  Config.name cfg <> "nrel" -> Config.name cfg <> "sine" ->
  Config.name cfg <> "mfred" ->
  persistence_method <> "naive" -> persistence_method <> "loop" ->
  network_method <> "lstm" -> network_method <> "mlp" ->
  generate_data_set cfg w
  = (Raise (ValueError "Unknown Dataset To Test"),
     {| generator := setup_seed (Config.seed cfg) (generator w);
        opened := opened w |})
  /\ GeneralPersistence.init out_timesteps persistence_method
     = Raise (ValueError "No such Persistence model.")
  /\ GeneralNeuralNetwork.init obs_dim out_dim out_timesteps in_timesteps nhidden
                               network_method g
     = (Raise (ValueError "No such NN model."), g).
Proof.
  intros Hnrel Hsine Hmfred Hnaive Hloop Hlstm Hmlp. repeat split.
  - unfold generate_data_set, mbind, M_bind.
    by rewrite (eqb_other _ _ Hnrel), (eqb_other _ _ Hsine), (eqb_other _ _ Hmfred).
  - unfold GeneralPersistence.init.
    by rewrite (eqb_other _ _ Hnaive), (eqb_other _ _ Hloop).
  - unfold GeneralNeuralNetwork.init.
    by rewrite (eqb_other _ _ Hlstm), (eqb_other _ _ Hmlp).
Qed.
End UnknownNames.

(** ** The chronological split *)

Section SplitPoints.

Lemma fractions_exact_spec (fuel : nat) (n0 : Z) :
  fractions_exact fuel n0 = true ->
  forall n, n0 <= n < n0 + Z.of_nat fuel ->
    int_of_fraction float_0_8 n = Ok (4 * n / 5)
    /\ int_of_fraction float_0_9 n = Ok (9 * n / 10).
Proof.
  revert n0. induction fuel as [|fuel IH]; intros n0 Hcheck n Hn; [lia|].
  cbn [fractions_exact] in Hcheck.
  destruct (int_of_fraction float_0_8 n0) as [a|] eqn:Ha; [|discriminate].
  destruct (int_of_fraction float_0_9 n0) as [b|] eqn:Hb; [|discriminate].
  destruct ((a =? _) && (b =? _)) eqn:Hab; [|discriminate].
  apply andb_true_iff in Hab as [->%Z.eqb_eq ->%Z.eqb_eq].
  destruct (decide (n = n0)) as [->|Hne]; [done|].
  apply (IH (n0 + 1)); [done|lia].
Qed.

(** The comparison, evaluated for every size from 0 to 65536. *)
Lemma fractions_exact_checked : fractions_exact (Z.to_nat 65537) 0 = true.
Proof. vm_cast_no_check (eq_refl true). Qed.

Lemma split_points (n : nat) :
  Z.of_nat n <= 65536 ->
  int_of_fraction float_0_8 (Z.of_nat n) = Ok (4 * Z.of_nat n / 5)
  /\ int_of_fraction float_0_9 (Z.of_nat n) = Ok (9 * Z.of_nat n / 10).
Proof.
  intros Hn. apply (fractions_exact_spec _ _ fractions_exact_checked).
  rewrite Z2Nat.id; lia.
Qed.

(** Three slices at ordered split points partition the list. *)
Lemma chronological_split_ordered {A : Type} (trajectories : list A)
  (train_split test_split : Z) :
  0 <= train_split <= test_split ->
  let '(train, val, test) :=
    chronological_split train_split test_split trajectories in
  train = take (Z.to_nat train_split) trajectories
  /\ val = take (Z.to_nat test_split - Z.to_nat train_split)
                (drop (Z.to_nat train_split) trajectories)
  /\ test = drop (Z.to_nat test_split) trajectories
  /\ train ++ val ++ test = trajectories.
Proof.
  intros Horder. unfold chronological_split.
  rewrite py_slice_to, py_slice_range, py_slice_from by lia.
  repeat (split; [done|]).
  rewrite <- (take_drop (Z.to_nat train_split) trajectories) at 4. f_equal.
  rewrite <- (take_drop (Z.to_nat test_split - Z.to_nat train_split)
                        (drop (Z.to_nat train_split) trajectories)) at 2.
  f_equal. rewrite drop_drop. f_equal. lia.
Qed.

(** The split points and the three parts of the chronological split. *)
Lemma chronological_split_spec {A : Type} (trajectories : list A) :
  Z.of_nat (length trajectories) <= 65536 ->
  exists train_split test_split : Z,
    int_of_fraction float_0_8 (Z.of_nat (length trajectories)) = Ok train_split
    /\ int_of_fraction float_0_9 (Z.of_nat (length trajectories)) = Ok test_split
    /\ train_split = 4 * Z.of_nat (length trajectories) / 5
    /\ test_split = 9 * Z.of_nat (length trajectories) / 10
    /\ let '(train, val, test) :=
         chronological_split train_split test_split trajectories in
       train = take (Z.to_nat train_split) trajectories
       /\ val = take (Z.to_nat test_split - Z.to_nat train_split)
                     (drop (Z.to_nat train_split) trajectories)
       /\ test = drop (Z.to_nat test_split) trajectories
       /\ train ++ val ++ test = trajectories
       /\ (length trajectories = 1000%nat ->
           length train = 800%nat /\ length val = 100%nat /\ length test = 100%nat).
Proof.
  intros Hlen. destruct (split_points _ Hlen) as [Ha Hb].
  set (N := Z.of_nat (length trajectories)) in *.
  exists (4 * N / 5), (9 * N / 10). repeat (split; [done|]).
  assert (0 <= 4 * N / 5 <= 9 * N / 10) as Horder.
  { split; [apply Z.div_pos; lia|].
    apply Z.div_le_lower_bound; [lia|].
    pose proof (Z.mul_div_le (4 * N) 5). lia. }
  assert (9 * N / 10 <= N) as Hupper.
  { apply Z.div_le_upper_bound; lia. }
  unfold chronological_split.
  rewrite py_slice_to, py_slice_range, py_slice_from by lia.
  repeat (split; [done|]). split.
  - rewrite <- (take_drop (Z.to_nat (4 * N / 5)) trajectories) at 4. f_equal.
    rewrite <- (take_drop (Z.to_nat (9 * N / 10) - Z.to_nat (4 * N / 5))
                          (drop (Z.to_nat (4 * N / 5)) trajectories)) at 2.
    f_equal. rewrite drop_drop. f_equal. lia.
  - intros H1000. subst N. rewrite H1000 in *.
    rewrite !length_take, !length_drop, H1000.
    change (4 * Z.of_nat 1000 / 5) with 800.
    change (9 * Z.of_nat 1000 / 10) with 900. lia.
Qed.

End SplitPoints.

(** ** The shape of the sine dataset *)

Section Sine.
Context {scalar : Type} `{!Dtype scalar} `{!Numeric scalar}.

Lemma sine_steps :
  py_int (PrimFloat.mul (PrimFloat.div (float_of_Z 1000) (float_of_Z 4)) (float_of_Z 4))
  = Ok 1000.
Proof. vm_compute. reflexivity. Qed.

Lemma linspace_Ok (start stop : scalar) (steps : Z) :
  0 <= steps ->
  linspace start stop steps
  = Ok (map (linspace_at start stop (Z.to_nat steps)) (seq 0 (Z.to_nat steps))).
Proof.
  intros Hsteps. unfold linspace.
  by replace (steps <? 0) with false by (symmetry; apply Z.ltb_ge; lia).
Qed.

Lemma length_concat_rows {A B C : Type} (f : A -> B -> C) (xs : list A) (ys : list B) :
  length (concat (map (fun x => map (f x) ys) xs)) = (length xs * length ys)%nat.
Proof.
  induction xs as [|x xs IH]; cbn; [done|].
  by rewrite length_app, length_map, IH.
Qed.

(** [view(n, -1, 1)] of [n * m] elements. *)
Lemma infer_size_view (n m : nat) :
  (0 < n)%nat ->
  Tensor.infer_size [Z.of_nat n; -1; 1] (n * m) = Ok [n; m; 1%nat].
Proof.
  intros Hn. unfold Tensor.infer_size.
  replace (forallb _ _) with true
    by (symmetry; cbn; rewrite andb_true_r; apply Z.leb_le; lia).
  cbn [negb List.filter].
  replace (Z.of_nat n =? -1) with false by (symmetry; apply Z.eqb_neq; lia).
  cbn [negb Z.eqb length map foldr]. rewrite Nat2Z.id, !Nat.mul_1_r.
  replace (bool_decide (0 < n)%nat) with true by (symmetry; by apply bool_decide_eq_true_2).
  replace (bool_decide ((n * m) mod n = 0)%nat) with true
    by (symmetry; apply bool_decide_eq_true_2; rewrite Nat.mul_comm; apply Nat.Div0.mod_mul).
  rewrite orb_true_r. cbn [Pos.eqb length].
  rewrite (bool_decide_eq_false_2 (n = 0)%nat) by lia.
  replace (Z.of_nat n =? -1) with false by (symmetry; apply Z.eqb_neq; lia).
  rewrite (Nat.mul_comm n m), Nat.div_mul by lia. reflexivity.
Qed.

(** C8: [sine] never reads its [t_nsamples] argument; with [num_pi = 4] the
    number of timesteps is [int(1000 / 4 * 4) = 1000], and with
    [trajectories_to_sample = 10] the trajectory tensor has shape
    (10, 1000, 1) and the time tensor shape (1, 1000). *)
Theorem sine_shape :
  (forall (double : bool) (trajectories_to_sample t_nsamples t_nsamples' num_pi : Z),
      sine double trajectories_to_sample t_nsamples num_pi
      = sine double trajectories_to_sample t_nsamples' num_pi)
  /\ py_int (PrimFloat.mul (PrimFloat.div (float_of_Z 1000) (float_of_Z 4))
                           (float_of_Z 4)) = Ok 1000
  /\ forall (double : bool) (t_nsamples : Z),
      exists trajectories ti sample_rate feature,
        sine double 10 t_nsamples 4 = Ok (trajectories, [ti], sample_rate, feature)
        /\ length trajectories = 10%nat
        /\ Forall (fun traj => length traj = 1000%nat
                               /\ Forall (fun row => length row = 1%nat) traj)
                  trajectories
        /\ length ti = 1000%nat.
Proof.
  split; [reflexivity|]. split; [exact sine_steps|].
  intros double t_nsamples. unfold sine. rewrite sine_steps.
  cbn [mbind result_bind]. change (1000 =? 0) with false. cbn [mbind result_bind].
  rewrite (linspace_Ok _ _ 1000) by lia. cbn [mbind result_bind].
  set (grid := map _ (seq 0 (Z.to_nat 1000))).
  set (ti := if double then map to_double grid else grid).
  assert (length ti = 1000%nat) as Hti.
  { subst ti grid. destruct double; rewrite ?length_map, length_seq; reflexivity. }
  rewrite (linspace_Ok _ _ 10) by lia. cbn [mbind result_bind].
  set (x0s := map _ (seq 0 (Z.to_nat 10))).
  assert (length x0s = 10%nat) as Hx0s by (subst x0s; by rewrite length_map, length_seq).
  set (trajs := map _ x0s).
  assert (trajs <> []) as Hne.
  { subst trajs. destruct x0s; [discriminate|discriminate]. }
  destruct trajs as [|traj trajs'] eqn:Htrajs; [done|]. rewrite <- Htrajs.
  cbn [mbind result_bind].
  replace (length (concat trajs)) with (10 * 1000)%nat
    by (subst trajs; by rewrite length_concat_rows, Hx0s, Hti).
  pose proof (infer_size_view 10 1000 ltac:(lia)) as Hview.
  change (Z.of_nat 10) with 10 in Hview. rewrite Hview. cbn [mbind result_bind].
  eexists _, ti, _, _. split; [reflexivity|].
  split; [subst trajs; by rewrite !length_map|].
  split; [|exact Hti].
  subst trajs. rewrite !Forall_map_iff. apply Forall_forall. intros x0 _.
  rewrite !length_map. split; [exact Hti|].
  rewrite !Forall_map_iff. apply Forall_forall. by intros t_ _.
Qed.
End Sine.

(** ** Batches from collate_fn *)

(** Case analysis on the innermost fallible step of a hypothesis. *)
Ltac step_result H :=
  first
    [ match type of H with
      | context [@mbind result _ _ _ _ ?r] =>
          lazymatch r with
          | context [@mbind result _ _ _ _ _] => fail
          | _ => destruct r eqn:?; cbn [mbind result_bind] in H; try discriminate H
          end
      end
    | match type of H with
      | @mbind result _ _ _ _ ?r = _ =>
          destruct r eqn:?; cbn [mbind result_bind] in H; try discriminate H
      end ].

Section StateFacts.
Context {S A B : Type}.

Lemma M_bind_Ok (m : M S A) (f : A -> M S B) (s s' : S) (b : B) :
  (m ≫= f) s = (Ok b, s') ->
  exists a s1, m s = (Ok a, s1) /\ f a s1 = (Ok b, s').
Proof.
  unfold mbind, M_bind. destruct (m s) as [[a|e] s1]; [eauto|discriminate].
Qed.

Lemma lift_Ok (r : result A) (s s' : S) (a : A) :
  lift r s = (Ok a, s') -> r = Ok a /\ s' = s.
Proof. unfold lift. by intros [= -> ->]. Qed.
End StateFacts.

Section CollateFacts.
Context {scalar : Type} `{!Dtype scalar}.
Implicit Types (data : list (sample scalar)) (b : Batch.t scalar).

Lemma collate_fn_fields data b :
  collate_fn data = Ok b ->
  Batch.mode b = "extrap" /\ Batch.observed_mask b = None
  /\ Batch.mask_predicted_data b = None /\ Batch.labels b = None.
Proof.
  unfold collate_fn. destruct data as [|s data]; [discriminate|].
  intros H. repeat step_result H. by injection H as <-.
Qed.

Lemma ground_truth_extrap b :
  Batch.mode b = "extrap" ->
  ground_truth b = cat_axis1 (Batch.observed_data b) (Batch.data_to_predict b).
Proof. unfold ground_truth. by intros ->. Qed.

Lemma predict_loop_extrap {Mdl : Type}
  (model : Batch.t scalar -> M Mdl (list (list (list scalar))))
  (dl : list (Batch.t scalar)) (s s' : Mdl) predictions trajs :
  Forall (fun b => Batch.mode b = "extrap") dl ->
  predict_loop model dl s = (Ok (predictions, trajs), s') ->
  mapM (fun batch => cat_axis1 (Batch.observed_data batch)
                               (Batch.data_to_predict batch)) dl = Ok trajs.
Proof.
  intros Hmode. revert s predictions trajs.
  induction Hmode as [|b dl Hb _ IH]; intros s predictions trajs; cbn [predict_loop].
  - by intros [= <- <- <-].
  - intros (pred & s1 & _ & H)%M_bind_Ok.
    apply M_bind_Ok in H as (traj & s2 & [Htraj ->]%lift_Ok & H).
    apply M_bind_Ok in H as ([ps trs] & s3 & Hrest & H).
    injection H as <- <- <-.
    rewrite (ground_truth_extrap b Hb) in Htraj.
    cbn. rewrite Htraj. cbn. by rewrite (IH _ _ _ Hrest).
Qed.

Lemma predict_with_extrap {Mdl : Type}
  (model : Batch.t scalar -> M Mdl (list (list (list scalar))))
  (dl : list (Batch.t scalar)) (s s' : Mdl) predictions trajs :
  Forall (fun b => Batch.mode b = "extrap") dl ->
  predict_with model dl s = (Ok (predictions, trajs), s') ->
  concatenated dl = Ok trajs.
Proof.
  intros Hmode. unfold predict_with.
  intros ([ps trs] & s1 & Hloop & H)%M_bind_Ok.
  apply M_bind_Ok in H as (p & s2 & _ & H).
  apply M_bind_Ok in H as (t & s3 & [Hcat _]%lift_Ok & H).
  injection H as <- <- <-.
  unfold concatenated. by rewrite (predict_loop_extrap _ _ _ _ _ _ Hmode Hloop).
Qed.
End CollateFacts.

Section PredictFacts.
Context {scalar : Type} `{!Dtype scalar} `{!Numeric scalar} `{!Integrator scalar}.

End PredictFacts.

(** ** The placeholder for available forecasts *)

Section Placeholder.
Context {scalar rng : Type} `{!Dtype scalar} `{!Random scalar rng}.
Implicit Types (data : list (sample scalar)) (ds : TimeSeriesDataset.t scalar).

Lemma init_without_forecasts trajs time_steps observe_steps avg_terms hist fcst ds :
  TimeSeriesDataset.init trajs time_steps observe_steps avg_terms hist fcst None = Ok ds ->
  TimeSeriesDataset.avail_fcst ds = false.
Proof.
  unfold TimeSeriesDataset.init. intros H.
  destruct (1 <? avg_terms); repeat step_result H; by injection H as <-.
Qed.

Lemma getitem_placeholder ds (index : Z) (s : sample scalar) :
  TimeSeriesDataset.avail_fcst ds = false ->
  TimeSeriesDataset.getitem index ds = Ok s -> placeholder s.
Proof.
  unfold TimeSeriesDataset.getitem. intros -> H.
  repeat step_result H. by injection H as <-.
Qed.

Lemma stack_placeholders data :
  data <> [] -> Forall placeholder data ->
  Tensor.stack (map (fun s => s.1.1.2) data)
  = Ok {| Tensor.shape := [length data];
          Tensor.data := replicate (length data) nan |}.
Proof.
  intros Hne Hdata. unfold Tensor.stack, placeholder in *.
  destruct data as [|s data]; [done|]. cbn [map].
  apply Forall_cons in Hdata as [Hs Hdata]. rewrite Hs.
  replace (forallb _ _) with true; cycle 1.
  { symmetry. apply forallb_forall. intros y (s' & <- & Hin)%in_map_iff.
    apply list_elem_of_In in Hin. eapply Forall_forall in Hdata; [|exact Hin].
    rewrite Hdata. by apply bool_decide_eq_true_2. }
  cbn. rewrite length_map. do 3 f_equal.
  induction Hdata as [|s' data Hs' _ IH]; cbn; [done|]. by rewrite Hs', IH.
Qed.

Lemma masked_placeholders (n : nat) :
  let x := {| Tensor.shape := [n]; Tensor.data := replicate n nan |} in
  Tensor.masked x (Tensor.not_nan_mask x) = {| Tensor.shape := [0%nat]; Tensor.data := [] |}.
Proof.
  cbn. unfold Tensor.masked, Tensor.not_nan_mask. cbn.
  assert (omap (fun '(v, b) => if b : bool then Some v else None)
               (zip (replicate n nan) (map negb (map is_nan (replicate n nan))))
          = @nil scalar) as ->; [|done].
  induction n as [|n IH]; cbn; [done|]. by rewrite is_nan_nan.
Qed.

(** [reshape(B, -1, B)] of no element, for a batch of [B >= 1] samples. *)
Lemma infer_size_empty (n : nat) :
  (0 < n)%nat -> Tensor.infer_size [Z.of_nat n; -1; Z.of_nat n] 0 = Ok [n; 0%nat; n].
Proof.
  intros Hn. unfold Tensor.infer_size.
  replace (forallb _ _) with true
    by (symmetry; cbn; rewrite andb_true_r; apply andb_true_iff; split; apply Z.leb_le; lia).
  cbn [negb List.filter].
  replace (Z.of_nat n =? -1) with false by (symmetry; apply Z.eqb_neq; lia).
  cbn [negb Z.eqb Pos.eqb length map foldr]. rewrite !Nat2Z.id, !Nat.mul_1_r.
  rewrite (bool_decide_eq_false_2 (0 = n * n)%nat) by nia.
  rewrite (bool_decide_eq_true_2 (0 < n * n)%nat) by nia.
  rewrite Nat.Div0.mod_0_l, (bool_decide_eq_true_2 (0 = 0)%nat) by done.
  cbn [orb andb]. rewrite (bool_decide_eq_false_2 (n * n = 0)%nat) by nia.
  replace (Z.of_nat n =? -1) with false by (symmetry; apply Z.eqb_neq; lia).
  by rewrite Nat.Div0.div_0_l.
Qed.

Lemma stack_rows_length (xs ys : list (list (list scalar))) :
  stack_rows xs = Ok ys -> ys = xs.
Proof.
  unfold stack_rows. destruct xs; [discriminate|].
  destruct (forallb _ _); [by intros [= <-]|discriminate].
Qed.

(** On samples that all carry the placeholder, [collate_fn] returns as soon
    as the observed and the target tensors stack, and the batch has no
    available forecasts. *)
Lemma collate_fn_placeholders data observed to_predict :
  data <> [] -> Forall placeholder data ->
  stack_rows (map (fun s => s.1.1.1.1) data) = Ok observed ->
  stack_rows (map (fun s => s.1.1.1.2) data) = Ok to_predict ->
  exists b, collate_fn data = Ok b /\ Batch.available_forecasts b = None
            /\ Batch.observed_data b = observed
            /\ Batch.data_to_predict b = to_predict.
Proof.
  intros Hne Hdata Hobs Hpred. unfold collate_fn.
  destruct data as [|s rest] eqn:Edata; [done|]. rewrite <- Edata in *.
  rewrite Hobs, Hpred, (stack_placeholders data Hne Hdata).
  cbn [mbind result_bind].
  assert (forall {X} (f : sample scalar -> X), py_index (map f data) 0 = Ok (f s)) as Hfirst.
  { intros X f. rewrite Edata. reflexivity. }
  rewrite !Hfirst. cbn [mbind result_bind Tensor.shape].
  replace (py_index [length data] (-1)) with (Ok (length data)) by reflexivity.
  cbn [mbind result_bind]. rewrite (masked_placeholders (length data)).
  apply stack_rows_length in Hobs as ->. rewrite length_map.
  unfold Tensor.reshape, Tensor.numel. cbn [Tensor.data length].
  rewrite infer_size_empty by (rewrite Edata; cbn; lia).
  cbn. eauto.
Qed.

Lemma collate_fn_placeholders_None data b :
  Forall placeholder data -> collate_fn data = Ok b ->
  Batch.available_forecasts b = None.
Proof.
  intros Hdata Hb.
  destruct data as [|s rest] eqn:Edata; [discriminate|]. rewrite <- Edata in *.
  assert (data <> []) as Hne by (by rewrite Edata).
  destruct (stack_rows (map (fun s => s.1.1.1.1) data)) as [observed|e] eqn:Hobs; cycle 1.
  { unfold collate_fn in Hb. rewrite Edata in Hb. rewrite <- Edata in Hb.
    by rewrite Hobs in Hb. }
  destruct (stack_rows (map (fun s => s.1.1.1.2) data)) as [to_predict|e] eqn:Hpred; cycle 1.
  { unfold collate_fn in Hb. rewrite Edata in Hb. rewrite <- Edata in Hb.
    by rewrite Hobs, Hpred in Hb. }
  destruct (collate_fn_placeholders data _ _ Hne Hdata Hobs Hpred) as (b' & Hb' & Hnone & _).
  congruence.
Qed.

Lemma iterate_placeholders (dl : DataLoader.t scalar) (g : rng) batches :
  TimeSeriesDataset.avail_fcst (DataLoader.dataset dl) = false ->
  DataLoader.collate dl = collate_fn ->
  DataLoader.iterate dl g = Ok batches ->
  Forall (fun b => Batch.available_forecasts b = None) batches.
Proof.
  intros Havail Hcollate Hiter. unfold DataLoader.iterate in Hiter.
  apply mapM_Ok in Hiter. eapply Forall2_Forall_r; [exact Hiter|].
  apply Forall_forall. intros indices _ b. unfold DataLoader.fetch. rewrite Hcollate.
  unfold mbind, result_bind.
  destruct (mapM _ indices) as [samples|e] eqn:Hsamples; [|discriminate].
  apply collate_fn_placeholders_None.
  apply mapM_Ok in Hsamples. eapply Forall2_Forall_r; [exact Hsamples|].
  apply Forall_forall. intros i _ s. by apply getitem_placeholder.
Qed.
End Placeholder.

(** ** The loaders of generate_data_set *)

(** One step of a stateful computation that returned. *)
Ltac inv_bind H :=
  let a := fresh "a" in
  let s := fresh "w" in
  let Ha := fresh "Hstep" in
  apply M_bind_Ok in H as (a & s & Ha & H);
  repeat match type of H with
         | context [let '(_, _) := ?p in _] => destruct p
         end.

Lemma Forall2_Permutation {A B : Type} (R : A -> B -> Prop)
  (p q : list A) (k : list B) :
  Permutation p q -> Forall2 R p k -> exists k', Permutation k k' /\ Forall2 R q k'.
Proof.
  intros Hpq. revert k. induction Hpq as [|x p q _ IH|x y p|p q r _ IH1 _ IH2]; intros k Hk.
  - inversion Hk; subst. eauto.
  - inversion Hk as [|? b ? k0 Hb Hk0]; subst.
    destruct (IH _ Hk0) as (k' & Hperm & Hk').
    exists (b :: k'). split; [by constructor|by constructor].
  - inversion Hk as [|? b ? k0 Hb Hk0]; subst.
    inversion Hk0 as [|? c ? k1 Hc Hk1]; subst.
    exists (c :: b :: k1). split; [apply perm_swap|by repeat constructor].
  - destruct (IH1 _ Hk) as (k1 & Hperm1 & Hk1).
    destruct (IH2 _ Hk1) as (k2 & Hperm2 & Hk2).
    exists k2. split; [by etrans|done].
Qed.

(** [l[idx]] for a permutation [idx] of the positions of [l] permutes [l]. *)
Lemma index_list_permutation {A : Type} (l k : list A) (idx : list nat) :
  Permutation idx (seq 0 (length l)) ->
  index_list (map Z.of_nat idx) l = Ok k ->
  Permutation k l.
Proof.
  intros Hidx Hk. unfold index_list in Hk. apply mapM_Ok in Hk.
  assert (Forall2 (fun (i : nat) x => l !! i = Some x) idx k) as Hlook.
  { apply Forall2_fmap_l in Hk. eapply Forall2_impl; [exact Hk|].
    intros i x. cbn. unfold py_index, norm_index.
    replace (Z.of_nat i <? 0) with false by (symmetry; apply Z.ltb_ge; lia).
    rewrite Nat2Z.id. destruct (_ && _); [|discriminate].
    destruct (l !! i); [by intros [= ->]|discriminate]. }
  destruct (Forall2_Permutation _ _ _ _ Hidx Hlook) as (k' & Hperm & Hk').
  assert (k' = l) as ->; [|done].
  eapply Forall2_unique; [exact Hk'| |intros; congruence].
  apply Forall2_same_length_lookup. split; [by rewrite length_seq|].
  intros i j x [-> _]%lookup_seq Hx. done.
Qed.

Section Pipeline.
Context {scalar rng : Type}
        `{!Dtype scalar} `{!Numeric scalar} `{!Random scalar rng} `{!Files scalar}.

Lemma loader_built cfg feature t_ trajectories (dl : DataLoader.t scalar) :
  (ds ← TimeSeriesDataset.init trajectories t_ (Config.observe_steps cfg)
                               (Config.avg_terms cfg) (hist_feature feature)
                               (fcst_feature feature) (avail_fcst_feature feature);
   DataLoader.init ds (Config.batch_size cfg) false collate_fn) = Ok dl ->
  built_from cfg feature t_ trajectories dl.
Proof.
  intros H. step_result H. unfold DataLoader.init in H.
  destruct (_ <=? 0); [discriminate|]. injection H as <-. by eexists.
Qed.

Lemma make_loaders_spec cfg feature t_ train val test (w w' : world rng)
  dltrain dlval dltest :
  make_loaders cfg feature t_ train val test w = (Ok (dltrain, dlval, dltest), w') ->
  exists permuted,
    index_list (map Z.of_nat (randperm (length train) (generator w)).1) train
    = Ok permuted
    /\ Permutation permuted train
    /\ built_from cfg feature t_ permuted dltrain
    /\ built_from cfg feature t_ val dlval
    /\ built_from cfg feature t_ test dltest.
Proof.
  unfold make_loaders. intros H.
  inv_bind H. inv_bind H. inv_bind H. inv_bind H. inv_bind H.
  injection H as <- <- <- <-.
  unfold draw in Hstep.
  pose proof (randperm_permutation (length train) (generator w)) as Hperm.
  destruct (randperm _ _) as [rand_idx g]. injection Hstep as <- <-.
  apply lift_Ok in Hstep0 as [Hindex _], Hstep1 as [Htrain _],
      Hstep2 as [Hval _], Hstep3 as [Htest _].
  exists a0. cbn in *. split; [done|].
  split; [by eapply index_list_permutation|].
  repeat split; by apply loader_built.
Qed.

Lemma select_length lo hi feature (trajs selected : list (list (list scalar))) :
  TimeSeriesDataset.select lo hi feature trajs = Ok selected ->
  length selected = length trajs.
Proof. apply mapM_Ok_length. Qed.

Lemma pool_time_length k channels (x pooled : list (list (list scalar))) :
  pool_time k channels x = Ok pooled -> length pooled = length x.
Proof. apply mapM_Ok_length. Qed.

(** A dataset has one sample per trajectory. *)
Lemma init_len trajs time_steps observe_steps avg_terms hist fcst avail
  (ds : TimeSeriesDataset.t scalar) :
  TimeSeriesDataset.init trajs time_steps observe_steps avg_terms hist fcst avail = Ok ds ->
  TimeSeriesDataset.len ds = length trajs.
Proof.
  unfold TimeSeriesDataset.init, TimeSeriesDataset.len. intros H.
  destruct (1 <? avg_terms), avail; repeat step_result H; injection H as <-; cbn;
    repeat match goal with
           | Hp : pool_time _ _ _ = Ok _ |- _ => apply pool_time_length in Hp
           | Hs : TimeSeriesDataset.select _ _ _ _ = Ok _ |- _ => apply select_length in Hs
           end; congruence.
Qed.

Lemma built_from_len cfg feature t_ trajectories (dl : DataLoader.t scalar) :
  built_from cfg feature t_ trajectories dl ->
  TimeSeriesDataset.len (DataLoader.dataset dl) = length trajectories.
Proof. intros (ds & Hds & ->). by eapply init_len. Qed.

Lemma normalize_splits_length normalize dim (train val test train' val' test'
  : list (list (list scalar))) mean std :
  normalize_splits normalize dim train val test = Ok (train', val', test', mean, std) ->
  length train' = length train /\ length val' = length val
  /\ length test' = length test.
Proof.
  unfold normalize_splits, reshape_flat, reshape_back, standardize. intros H.
  destruct normalize; [|by injection H as <- <- <- _ _].
  repeat step_result H. injection H as <- <- <- _ _. by rewrite !length_map.
Qed.

Lemma built_from_fixed_order cfg feature t_ trajectories (dl : DataLoader.t scalar)
  (g g' : rng) :
  built_from cfg feature t_ trajectories dl ->
  DataLoader.shuffle dl = false
  /\ DataLoader.sampler dl g
     = seq 0 (TimeSeriesDataset.len (DataLoader.dataset dl))
  /\ DataLoader.iterate dl g = DataLoader.iterate dl g'.
Proof. by intros (ds & _ & ->). Qed.

Lemma built_from_placeholder cfg feature t_ trajectories (dl : DataLoader.t scalar) :
  avail_fcst_feature feature = None ->
  built_from cfg feature t_ trajectories dl ->
  TimeSeriesDataset.avail_fcst (DataLoader.dataset dl) = false
  /\ DataLoader.collate dl = collate_fn.
Proof.
  intros Hnone (ds & Hds & ->). rewrite Hnone in Hds.
  split; [|done]. by eapply init_without_forecasts.
Qed.

(** The steps of a run of [generate_data_set] that returned. *)
Lemma generate_data_set_spec (cfg : Config.t) (w w' : world rng)
  (res : Generated.t scalar) :
  generate_data_set cfg w = (Ok res, w') ->
  (Config.add_external_feature cfg = false ->
   avail_fcst_feature (Generated.feature res) = None)
  /\ exists trajectories train_split test_split split train val test mean std w1 w2 w3,
      int_of_fraction float_0_8 (Z.of_nat (length trajectories)) = Ok train_split
      /\ int_of_fraction float_0_9 (Z.of_nat (length trajectories)) = Ok test_split
      /\ (if Config.test_set_out_of_distribution cfg
          then mret (chronological_split train_split test_split trajectories)
          else random_split train_split test_split trajectories) w1 = (Ok split, w2)
      /\ normalize_splits (Config.normalize cfg) (dim2 trajectories)
                          split.1.1 split.1.2 split.2
         = Ok (train, val, test, mean, std)
      /\ make_loaders cfg (Generated.feature res) (Generated.t_ res) train val test w2
         = (Ok (Generated.dltrain res, Generated.dlval res, Generated.dltest res), w3).
Proof.
  unfold generate_data_set. intros H.
  do 11 inv_bind H. injection H as <- <-. cbn.
  split; [by intros ->|].
  apply lift_Ok in Hstep3 as [Ha ->], Hstep4 as [Hb ->], Hstep6 as [Hnorm ->].
  eexists _, _, _, (_, _, _). eauto 20.
Qed.

(** With the chronological split the three datasets have the sizes of the
    three index ranges. *)
Lemma generate_data_set_chronological_sizes (cfg : Config.t) (w w' : world rng)
  (res : Generated.t scalar) :
  generate_data_set cfg w = (Ok res, w') ->
  Config.test_set_out_of_distribution cfg = true ->
  exists trajectories : list (list (list scalar)),
    Z.of_nat (length trajectories) <= 65536 ->
    let n := Z.of_nat (length trajectories) in
    TimeSeriesDataset.len (DataLoader.dataset (Generated.dltrain res))
    = Z.to_nat (4 * n / 5)
    /\ TimeSeriesDataset.len (DataLoader.dataset (Generated.dlval res))
       = (Z.to_nat (9 * n / 10) - Z.to_nat (4 * n / 5))%nat
    /\ TimeSeriesDataset.len (DataLoader.dataset (Generated.dltest res))
       = (length trajectories - Z.to_nat (9 * n / 10))%nat.
Proof.
  intros (_ & trajectories & a & b & [[train0 val0] test0] & train & val & test & mean
          & std & w1 & w2 & w3 & Ha & Hb & Hsplit & Hnorm & Hloaders)%generate_data_set_spec
         Hflag.
  exists trajectories. intros Hlen n.
  destruct (chronological_split_spec trajectories Hlen)
    as (a' & b' & Ha' & Hb' & -> & -> & Hparts).
  rewrite Ha' in Ha. rewrite Hb' in Hb. injection Ha as <-. injection Hb as <-.
  rewrite Hflag in Hsplit. unfold chronological_split in Hsplit, Hparts.
  injection Hsplit as <- <- <- <-. destruct Hparts as (Htr & Hva & Hte & _).
  apply normalize_splits_length in Hnorm as (Htrain & Hval & Htest).
  cbn [fst snd] in *. rewrite Htr in Htrain. rewrite Hva in Hval. rewrite Hte in Htest.
  apply make_loaders_spec in Hloaders as (permuted & _ & Hperm & Hbt & Hbv & Hbte).
  apply built_from_len in Hbt, Hbv, Hbte.
  apply Permutation_length in Hperm.
  rewrite Hbt, Hbv, Hbte, Hperm, Htrain, Hval, Htest.
  rewrite !length_take, !length_drop.
  assert (0 <= 4 * n / 5 <= 9 * n / 10 /\ 9 * n / 10 <= n) as Hbounds.
  { subst n. split; [split|].
    - apply Z.div_pos; lia.
    - apply Z.div_le_lower_bound; [lia|].
      pose proof (Z.mul_div_le (4 * Z.of_nat (length trajectories)) 5). lia.
    - apply Z.div_le_upper_bound; lia. }
  subst n. lia.
Qed.


(** C10: when the feature dictionary that [generate_data_set] returns has
    no available-forecast feature, as it does whenever
    [add_external_feature] is false, every sample of the three datasets
    carries the 0-d NaN tensor in its available-forecast slot and every
    batch a pass over the loaders yields has [available_forecasts = None];
    on such samples [collate_fn] returns whenever the observed and target
    tensors stack. *)
Theorem placeholders_collate_to_None (cfg : Config.t) (w w' : world rng)
  (res : Generated.t scalar) (dl : DataLoader.t scalar) :
  generate_data_set cfg w = (Ok res, w') ->
  Config.add_external_feature cfg = false
  \/ avail_fcst_feature (Generated.feature res) = None ->
  dl ∈ [Generated.dltrain res; Generated.dlval res; Generated.dltest res] ->
  avail_fcst_feature (Generated.feature res) = None
  /\ (forall (index : Z) (s : sample scalar),
        TimeSeriesDataset.getitem index (DataLoader.dataset dl) = Ok s ->
        s.1.1.2 = Tensor.tensor nan)
  /\ (forall (g : rng) batches,
        DataLoader.iterate dl g = Ok batches ->
        Forall (fun b => Batch.available_forecasts b = None) batches)
  /\ (forall (data : list (sample scalar)) observed to_predict,
        data <> [] ->
        Forall (fun s => s.1.1.2 = Tensor.tensor nan) data ->
        stack_rows (map (fun s => s.1.1.1.1) data) = Ok observed ->
        stack_rows (map (fun s => s.1.1.1.2) data) = Ok to_predict ->
        exists b, collate_fn data = Ok b /\ Batch.available_forecasts b = None
                  /\ Batch.observed_data b = observed
                  /\ Batch.data_to_predict b = to_predict).
Proof.
  intros (Hext & trajectories0 & a & b & split & train & val & test & mean & std
          & w1 & w2 & w3 & _ & _ & _ & _ & Hloaders)%generate_data_set_spec Hnone Hdl.
  assert (avail_fcst_feature (Generated.feature res) = None) as Hfeature
    by (destruct Hnone; auto).
  apply make_loaders_spec in Hloaders as (permuted & _ & _ & Htrain & Hval & Htest).
  assert (exists trajectories,
             built_from cfg (Generated.feature res) (Generated.t_ res) trajectories dl)
    as [trajectories Hbuilt].
  { repeat apply elem_of_cons in Hdl as [->|Hdl]; eauto. by apply elem_of_nil in Hdl. }
  destruct (built_from_placeholder _ _ _ _ _ Hfeature Hbuilt) as [Havail Hcollate].
  split; [done|]. split; [intros index s; by apply getitem_placeholder|].
  split; [intros g batches; by apply iterate_placeholders|].
  intros data observed to_predict. apply collate_fn_placeholders.
Qed.
End Pipeline.

(** ** The properties on the concrete instance *)

Section Examples.
Import Example.

(** C1 on the code: with [augment_dim = 1], seed state (6, 8) and
    derivative (1, 2, 3), the plain variant returns the two state channels
    at the three query times, and the latent variant returns the augmented
    channel 0, 3, 6 and drops both state channels. *)
Theorem LatentNODE_returns_augmented_channels :
  (NODE.forward observed query (node 1 1)).1
  = Ok [[[Int 6; Int 8]; [Int 7; Int 10]; [Int 8; Int 12]]]
  /\ (LatentNODE.forward observed query (latent_node 1)).1
     = Ok [[[Int 0]; [Int 3]; [Int 6]]].
Proof. split; vm_compute; reflexivity. Qed.

(** C5 on the code: with [augment_dim = 0] the plain variant returns both
    channels of the integrator's output, and the latent variant returns a
    tensor with no channel. *)
Theorem LatentNODE_without_augmentation_returns_no_channel :
  (NODE.forward observed query (node 0 1)).1
  = Ok [[[Int 6; Int 8]; [Int 7; Int 10]; [Int 8; Int 12]]]
  /\ (LatentNODE.forward observed query (latent_node 0)).1 = Ok [[[]; []; []]].
Proof. split; vm_compute; reflexivity. Qed.

Lemma NODE_initial_condition_witness :
  NODE.encode observed (node 0 1)
  = select_dim1 (if truthy (NODE.extrap (node 0 1)) then -1 else 0) observed
  /\ exists x0,
      NODE.encode observed (node 0 1) = Ok x0
      /\ NODE.forward observed query (node 0 1)
         = NODE.integrate x0 (concat query) (node 0 1)
      /\ length x0 = length observed
      /\ forall (n : nat) traj,
          observed !! n = Some traj ->
          (NODE.extrap (node 0 1) = 0 -> x0 !! n = traj !! 0%nat)
          /\ (NODE.extrap (node 0 1) <> 0 -> x0 !! n = traj !! (2 - 1)%nat).
Proof.
  apply (NODE_initial_condition observed query (node 0 1) 2); [lia|].
  repeat constructor.
Defined.

Lemma unknown_names_raise_witness :
  generate_data_set unknown_config start
  = (Raise (ValueError "Unknown Dataset To Test"),
     {| generator := setup_seed (Config.seed unknown_config) (generator start);
        opened := opened start |})
  /\ GeneralPersistence.init 4 "mean" = Raise (ValueError "No such Persistence model.")
  /\ GeneralNeuralNetwork.init 1 1 4 (Some 4) 64 "gru" 0%nat
     = (Raise (ValueError "No such NN model."), 0%nat).
Proof.
  apply (unknown_names_raise unknown_config start 4 1 1 64 (Some 4) "mean" "gru" 0%nat);
    discriminate.
Defined.


Lemma collate_fn_example : collate_fn samples = Ok batch.
Proof. vm_compute. reflexivity. Qed.

(** On that batch the persistence baseline repeats the last observation,
    and the ground truth is the observed step followed by the target. *)
Lemma predict_example :
  GeneralPersistence.predict
    [batch] {| GeneralPersistence.model := Persistence.init 1 "naive" |}
  = (Ok ([[[Int 1]]; [[Int 3]]], [[[Int 1]; [Int 2]]; [[Int 3]; [Int 4]]]),
     {| GeneralPersistence.model := Persistence.init 1 "naive" |}).
Proof. vm_compute. reflexivity. Qed.




Lemma placeholders_collate_to_None_witness :
  exists res w',
    generate_data_set config start = (Ok res, w')
    /\ avail_fcst_feature (Generated.feature res) = None
    /\ (forall (index : Z) (s : sample num),
          TimeSeriesDataset.getitem index (DataLoader.dataset (Generated.dltrain res)) = Ok s ->
          s.1.1.2 = Tensor.tensor nan)
    /\ (forall (g : nat) batches,
          DataLoader.iterate (Generated.dltrain res) g = Ok batches ->
          Forall (fun b => Batch.available_forecasts b = None) batches)
    /\ (forall (data : list (sample num)) observed to_predict,
          data <> [] ->
          Forall (fun s => s.1.1.2 = Tensor.tensor nan) data ->
          stack_rows (map (fun s => s.1.1.1.1) data) = Ok observed ->
          stack_rows (map (fun s => s.1.1.1.2) data) = Ok to_predict ->
          exists b, collate_fn data = Ok b /\ Batch.available_forecasts b = None
                    /\ Batch.observed_data b = observed
                    /\ Batch.data_to_predict b = to_predict).
Proof.
  destruct (generate_data_set config start) as [[res|e] w'] eqn:Hrun;
    [|vm_compute in Hrun; discriminate Hrun].
  exists res, w'. split; [reflexivity|].
  apply (placeholders_collate_to_None config start w' res (Generated.dltrain res) Hrun).
  - left. reflexivity.
  - apply list_elem_of_here.
Defined.

(** The train loader of that run does yield batches, all without available
    forecasts. *)
Lemma placeholders_example :
  match (generate_data_set config start).1 with
  | Ok res =>
      map Batch.available_forecasts <$> DataLoader.iterate (Generated.dltrain res) 0%nat
      = Ok [None; None; None]
  | Raise _ => False
  end.
Proof. vm_compute. reflexivity. Qed.
End Examples.

(** * Further properties *)

(** The windows of a dataset *)

Section WindowFacts.
Context {scalar : Type} `{!Dtype scalar}.

Lemma py_index_valid {A} (l : list A) (i : Z) :
  - Z.of_nat (length l) <= i < Z.of_nat (length l) ->
  exists x, py_index l i = Ok x /\ l !! Z.to_nat (norm_index (length l) i) = Some x.
Proof.
  intros Hi. unfold py_index.
  assert (0 <= norm_index (length l) i < Z.of_nat (length l)) as Hj.
  { unfold norm_index. destruct (i <? 0) eqn:E; lia. }
  replace ((0 <=? _) && _) with true by lia.
  destruct (l !! Z.to_nat _) as [x|] eqn:Hx; [eauto|].
  apply lookup_ge_None in Hx. lia.
Qed.

Lemma py_index_invalid {A} (l : list A) (i : Z) :
  i < - Z.of_nat (length l) \/ Z.of_nat (length l) <= i ->
  py_index l i = Raise IndexError.
Proof.
  intros Hi. unfold py_index.
  replace ((0 <=? _) && _) with false; [done|].
  unfold norm_index. destruct (i <? 0) eqn:E; lia.
Qed.

Lemma index_list_channels (feature : list Z) (row : list scalar) :
  Forall (fun i => - Z.of_nat (length row) <= i < Z.of_nat (length row)) feature ->
  index_list feature row = Ok (channels feature row)
  /\ length (channels feature row) = length feature.
Proof.
  unfold index_list, channels. induction 1 as [|i feature Hi _ [IH1 IH2]]; [done|].
  destruct (py_index_valid row i Hi) as (x & Hx & Hlookup).
  cbn. rewrite Hx, Hlookup. cbn. rewrite IH1. cbn. by rewrite IH2.
Qed.

Lemma select_channels lo hi (feature : list Z) (D : nat)
  (trajs : list (list (list scalar))) :
  Forall (Forall (fun row => length row = D)) trajs ->
  Forall (fun i => - Z.of_nat D <= i < Z.of_nat D) feature ->
  TimeSeriesDataset.select lo hi feature trajs
  = Ok (map (fun traj => map (channels feature) (py_slice lo hi traj)) trajs).
Proof.
  intros Hrows Hfeature. unfold TimeSeriesDataset.select.
  apply mapM_total. eapply Forall_impl; [exact Hrows|]. intros traj Htraj. cbn beta.
  apply mapM_total. unfold py_slice. apply Forall_take, Forall_drop.
  eapply Forall_impl; [exact Htraj|]. intros row <-. cbn beta.
  by apply index_list_channels.
Qed.

(** X1: without temporal aggregation, [TimeSeriesDataset] cuts every
    trajectory at [observe_steps]: the observed part is the first
    [observe_steps] steps restricted to the history channels, the part to
    predict is the rest restricted to the forecast channels, the times are cut
    at the same place, and the available forecasts are the rest restricted to
    their channels.  When history and forecast channels coincide the two parts
    joined give back the trajectory. *)
Theorem dataset_splits_each_window (trajs : list (list (list scalar)))
  (time_steps : list (list scalar)) (observe_steps avg_terms : Z)
  (hist fcst : list Z) (avail : option (list Z)) (T D : nat) :
  0 <= observe_steps <= Z.of_nat T ->
  avg_terms <= 1 ->
  Forall (fun traj => length traj = T /\ Forall (fun row => length row = D) traj) trajs ->
  Forall (fun i => - Z.of_nat D <= i < Z.of_nat D)
         (hist ++ fcst ++ default [] avail) ->
  let s := Z.to_nat observe_steps in
  exists ds,
    TimeSeriesDataset.init trajs time_steps observe_steps avg_terms hist fcst avail
    = Ok ds
    /\ TimeSeriesDataset.observed_data ds
       = map (fun traj => map (channels hist) (take s traj)) trajs
    /\ TimeSeriesDataset.data_to_predict ds
       = map (fun traj => map (channels fcst) (drop s traj)) trajs
    /\ TimeSeriesDataset.observed_tp ds = map (take s) time_steps
    /\ TimeSeriesDataset.tp_to_predict ds = map (drop s) time_steps
    /\ TimeSeriesDataset.available_forecasts ds
       = (fun feature =>
            map (fun traj => Tensor.of_rows (length feature)
                                            (map (channels feature) (drop s traj)))
                trajs) <$> avail
    /\ Forall (fun obs => length obs = s) (TimeSeriesDataset.observed_data ds)
    /\ Forall (fun fut => length fut = (T - s)%nat) (TimeSeriesDataset.data_to_predict ds)
    /\ (hist = fcst ->
        zip_with app (TimeSeriesDataset.observed_data ds)
                     (TimeSeriesDataset.data_to_predict ds)
        = map (map (channels hist)) trajs).
Proof.
  intros Hs Havg Htrajs Hfeatures s.
  apply Forall_app in Hfeatures as [Hhist [Hfcst Havail]%Forall_app].
  assert (Forall (Forall (fun row => length row = D)) trajs) as Hrows.
  { eapply Forall_impl; [exact Htrajs|]. by intros traj []. }
  unfold TimeSeriesDataset.init.
  rewrite !(select_channels _ _ _ D) by done. cbn [mbind result_bind].
  replace (1 <? avg_terms) with false by lia. cbn [mbind result_bind].
  assert (forall A (l : list A), py_slice None (Some observe_steps) l = take s l) as Hto.
  { intros A l. apply py_slice_to. lia. }
  assert (forall A (l : list A), py_slice (Some observe_steps) None l = drop s l) as Hfrom.
  { intros A l. apply py_slice_from. lia. }
  assert (forall feature,
             Forall (fun i => - Z.of_nat D <= i < Z.of_nat D) feature ->
             mapM (fun traj : list (list scalar) =>
                     rows ← mapM (index_list feature)
                                 (py_slice (Some observe_steps) None traj);
                     Ok (Tensor.of_rows (length feature) rows)) trajs
             = Ok (map (fun traj => Tensor.of_rows (length feature)
                                      (map (channels feature) (drop s traj))) trajs))
    as Hforecasts.
  { intros feature Hfeature. apply mapM_total.
    eapply Forall_impl; [exact Hrows|]. intros traj Htraj. cbn beta.
    rewrite Hfrom. rewrite (mapM_total _ (channels feature)); [done|].
    apply Forall_drop. eapply Forall_impl; [exact Htraj|]. intros row <-.
    by apply index_list_channels. }
  assert (match avail with
          | None => Ok None
          | Some feature =>
              Some <$> mapM (fun traj : list (list scalar) =>
                               rows ← mapM (index_list feature)
                                           (py_slice (Some observe_steps) None traj);
                               Ok (Tensor.of_rows (length feature) rows)) trajs
          end
          = Ok ((fun feature =>
                   map (fun traj => Tensor.of_rows (length feature)
                                      (map (channels feature) (drop s traj))) trajs)
                <$> avail)) as ->.
  { destruct avail as [feature|]; [|done]. cbn [default] in Havail.
    by rewrite (Hforecasts feature Havail). }
  cbn [mbind result_bind]. eexists. split; [reflexivity|].
  cbn [TimeSeriesDataset.observed_data TimeSeriesDataset.data_to_predict
       TimeSeriesDataset.tp_to_predict TimeSeriesDataset.observed_tp
       TimeSeriesDataset.available_forecasts].
  assert (map (fun traj => map (channels hist) (py_slice None (Some observe_steps) traj))
              trajs
          = map (fun traj => map (channels hist) (take s traj)) trajs) as ->.
  { apply map_ext. intros traj. by rewrite Hto. }
  assert (map (fun traj => map (channels fcst) (py_slice (Some observe_steps) None traj))
              trajs
          = map (fun traj => map (channels fcst) (drop s traj)) trajs) as ->.
  { apply map_ext. intros traj. by rewrite Hfrom. }
  repeat split.
  - apply map_ext. intros row. apply Hto.
  - apply map_ext. intros row. apply Hfrom.
  - apply Forall_map_iff. eapply Forall_impl; [exact Htrajs|]. intros traj [Hlen _].
    cbn beta. rewrite length_map, length_take. lia.
  - apply Forall_map_iff. eapply Forall_impl; [exact Htrajs|]. intros traj [Hlen _].
    cbn beta. rewrite length_map, length_drop. lia.
  - intros <-. clear. induction trajs as [|traj trajs IH]; [done|]. cbn.
    rewrite IH. f_equal. by rewrite <- map_app, take_drop.
Qed.
End WindowFacts.

(** Temporal aggregation *)

Section ListFacts.
Context {A : Type}.

Lemma map_const_seq {B} (v : B) (a n : nat) :
  map (fun _ => v) (seq a n) = replicate n v.
Proof. revert a. induction n as [|n IH]; intros a; [done|]. cbn. by rewrite IH. Qed.

Lemma transpose_columns (n : nat) (x : list (list A)) :
  Forall (fun row => length row = n) x ->
  transpose n x = map (fun c => omap (fun row : list A => row !! c) x) (seq 0 n).
Proof.
  induction 1 as [|row x Hrow _ IH].
  - cbn. by rewrite map_const_seq.
  - cbn [transpose]. rewrite IH. apply list_eq. intros i.
    rewrite lookup_zip_with, !list_lookup_fmap.
    destruct (decide (i < n)%nat) as [Hi|Hi].
    + rewrite lookup_seq_lt by done. cbn.
      destruct (row !! i) as [v|] eqn:Hv; [done|].
      apply lookup_ge_None in Hv. lia.
    + rewrite lookup_seq_ge by lia. cbn.
      rewrite (lookup_ge_None_2 row) by lia. done.
Qed.

Lemma length_column (n c : nat) (x : list (list A)) :
  Forall (fun row => length row = n) x -> (c < n)%nat ->
  length (omap (fun row : list A => row !! c) x) = length x.
Proof.
  intros Hx Hc. induction Hx as [|row x Hrow _ IH]; [done|]. cbn.
  destruct (row !! c) as [v|] eqn:Hv; [cbn; by rewrite IH|].
  apply lookup_ge_None in Hv. lia.
Qed.

Lemma ceil_div_step (n k : nat) :
  (0 < k)%nat -> (0 < n)%nat -> ((n + k - 1) / k = S ((n - k + k - 1) / k))%nat.
Proof.
  intros Hk Hn. destruct (decide (k <= n)%nat) as [Hle|Hlt].
  - replace (n + k - 1)%nat with ((n - k + k - 1) + 1 * k)%nat by lia.
    rewrite Nat.div_add by lia. lia.
  - replace (n - k + k - 1)%nat with (k - 1)%nat by lia.
    rewrite (Nat.div_small (k - 1)) by lia.
    symmetry. apply (Nat.div_unique _ _ _ (n - 1)); lia.
Qed.

Lemma chunks_fuel_windows (fuel k : nat) (l : list A) :
  (0 < k)%nat -> (length l <= fuel)%nat ->
  chunks_fuel fuel k l
  = map (fun j => take k (drop (j * k) l)) (seq 0 ((length l + k - 1) / k)).
Proof.
  intros Hk. revert l. induction fuel as [|fuel IH]; intros l Hl.
  - destruct l; [|cbn in Hl; lia]. cbn. by rewrite Nat.div_small by lia.
  - destruct l as [|x l].
    + cbn. by rewrite Nat.div_small by lia.
    + cbn [chunks_fuel]. rewrite IH by (rewrite length_drop; cbn in *; lia).
      rewrite (ceil_div_step (length (x :: l))) by (cbn; lia).
      rewrite length_drop. cbn [seq map]. f_equal.
      rewrite <- fmap_S_seq, <- list_fmap_compose. apply map_ext. intros j. cbn.
      rewrite drop_drop. repeat (f_equal; try lia).
Qed.

Lemma chunks_windows (k : nat) (l : list A) :
  (0 < k)%nat ->
  chunks k l = map (fun j => take k (drop (j * k) l)) (seq 0 ((length l + k - 1) / k)).
Proof. intros Hk. by apply chunks_fuel_windows. Qed.

Lemma take_full_windows (k : nat) (l : list A) :
  (0 < k)%nat ->
  take (length l / k) (chunks k l)
  = map (fun j => take k (drop (j * k) l)) (seq 0 (length l / k)).
Proof.
  intros Hk. rewrite chunks_windows by done.
  rewrite <- fmap_take, take_seq. f_equal. f_equal.
  apply Nat.min_l. apply Nat.Div0.div_le_mono. lia.
Qed.
End ListFacts.

Section PoolingFacts.
Context {scalar : Type} `{!Dtype scalar}.

Lemma column_of_rows {A B} (F : A -> list B) (G : A -> B) (j : nat) (cs : list A) :
  Forall (fun c => F c !! j = Some (G c)) cs ->
  omap (fun row : list B => row !! j) (map F cs) = map G cs.
Proof. induction 1 as [|c cs Hc _ IH]; [done|]. cbn. by rewrite Hc, IH. Qed.

Lemma avg_pool1d_means (k : Z) (row : list scalar) :
  0 < k <= Z.of_nat (length row) ->
  avg_pool1d k row = Ok (window_means (Z.to_nat k) row).
Proof.
  intros Hk. unfold avg_pool1d, window_means.
  replace (Z.of_nat (length row) <? k) with false by lia.
  rewrite take_full_windows by lia. rewrite <- list_fmap_compose.
  rewrite Z2Nat.id by lia. done.
Qed.

Lemma avg_pool1d_short (k : Z) (row : list scalar) :
  Z.of_nat (length row) < k ->
  avg_pool1d k row = Raise (RuntimeError "Output size is too small").
Proof.
  intros Hk. unfold avg_pool1d.
  by replace (Z.of_nat (length row) <? k) with true by lia.
Qed.

Lemma pool_time_means (k : Z) (n : nat) (x : list (list (list scalar))) :
  0 < k ->
  Forall (fun traj => k <= Z.of_nat (length traj)
                      /\ Forall (fun row => length row = n) traj) x ->
  pool_time k n x = Ok (map (block_means (Z.to_nat k) n) x).
Proof.
  intros Hk Hx. unfold pool_time. apply mapM_total.
  eapply Forall_impl; [exact Hx|]. intros traj [Hlen Hrows]. cbn beta.
  rewrite transpose_columns by done.
  rewrite (mapM_total _ (window_means (Z.to_nat k))).
  2:{ apply Forall_map_iff, Forall_forall. intros c Hc%elem_of_seq.
      apply avg_pool1d_means. rewrite (length_column n) by (done || lia). lia. }
  cbn [mbind result_bind]. f_equal.
  rewrite transpose_columns.
  2:{ apply Forall_map_iff, Forall_map_iff, Forall_forall. intros c Hc%elem_of_seq.
      unfold window_means. rewrite length_map, length_seq.
      rewrite (length_column n) by (done || lia). done. }
  unfold block_means.
  apply map_ext_in. intros j Hj%in_seq. rewrite <- list_fmap_compose.
  apply column_of_rows, Forall_forall. intros c Hc%elem_of_seq.
  cbn beta. unfold compose, window_means. rewrite list_lookup_fmap.
  rewrite (length_column n) by (done || lia).
  rewrite lookup_seq_lt by lia. done.
Qed.
End PoolingFacts.


Section PoolingDataset.
Context {scalar : Type} `{!Dtype scalar}.

Lemma channels_rows (feature : list Z) (D : nat) (rows : list (list scalar)) :
  Forall (fun row => length row = D) rows ->
  Forall (fun i => - Z.of_nat D <= i < Z.of_nat D) feature ->
  Forall (fun row => length row = length feature) (map (channels feature) rows).
Proof.
  intros Hrows Hfeature. apply Forall_map_iff.
  eapply Forall_impl; [exact Hrows|]. intros row <-. cbn beta.
  by apply index_list_channels.
Qed.

Lemma length_block_means (k n : nat) (rows : list (list scalar)) :
  length (block_means k n rows) = (length rows / k)%nat.
Proof. unfold block_means. by rewrite length_map, length_seq. Qed.

(** X2: with [avg_terms = k > 1] the observed part and the part to predict
    are replaced by the means of their full blocks of [k] consecutive steps,
    channel by channel (a remainder of fewer than [k] steps is dropped), while
    the available forecasts keep every step; an observed window shorter than
    [k] makes the constructor raise RuntimeError. *)
Theorem dataset_pools_by_block_means (trajs : list (list (list scalar)))
  (time_steps : list (list scalar)) (observe_steps avg_terms : Z)
  (hist fcst : list Z) (avail : option (list Z)) (T D : nat) :
  1 < avg_terms ->
  0 <= observe_steps <= Z.of_nat T ->
  Forall (fun traj => length traj = T /\ Forall (fun row => length row = D) traj) trajs ->
  Forall (fun row => length row = T) time_steps ->
  Forall (fun i => - Z.of_nat D <= i < Z.of_nat D)
         (hist ++ fcst ++ default [] avail) ->
  let s := Z.to_nat observe_steps in
  let k := Z.to_nat avg_terms in
  (avg_terms <= observe_steps -> observe_steps + avg_terms <= Z.of_nat T ->
   exists ds,
     TimeSeriesDataset.init trajs time_steps observe_steps avg_terms hist fcst avail
     = Ok ds
     /\ TimeSeriesDataset.observed_data ds
        = map (fun traj => block_means k (length hist)
                                       (map (channels hist) (take s traj))) trajs
     /\ TimeSeriesDataset.data_to_predict ds
        = map (fun traj => block_means k (length fcst)
                                       (map (channels fcst) (drop s traj))) trajs
     /\ TimeSeriesDataset.available_forecasts ds
        = (fun feature =>
             map (fun traj => Tensor.of_rows (length feature)
                                             (map (channels feature) (drop s traj)))
                 trajs) <$> avail
     /\ Forall (fun obs => length obs = (s / k)%nat) (TimeSeriesDataset.observed_data ds)
     /\ Forall (fun fut => length fut = ((T - s) / k)%nat)
               (TimeSeriesDataset.data_to_predict ds))
  /\ (observe_steps < avg_terms -> trajs <> [] -> hist <> [] ->
      TimeSeriesDataset.init trajs time_steps observe_steps avg_terms hist fcst avail
      = Raise (RuntimeError "Output size is too small")).
Proof.
  intros Havg Hs Htrajs Htime Hfeatures s k.
  apply Forall_app in Hfeatures as [Hhist [Hfcst Havail]%Forall_app].
  assert (Forall (Forall (fun row => length row = D)) trajs) as Hrows.
  { eapply Forall_impl; [exact Htrajs|]. by intros traj []. }
  assert (forall A (l : list A), py_slice None (Some observe_steps) l = take s l) as Hto.
  { intros A l. apply py_slice_to. lia. }
  assert (forall A (l : list A), py_slice (Some observe_steps) None l = drop s l) as Hfrom.
  { intros A l. apply py_slice_from. lia. }
  unfold TimeSeriesDataset.init.
  rewrite !(select_channels _ _ _ D) by done. cbn [mbind result_bind].
  replace (1 <? avg_terms) with true by lia.
  split.
  - intros Hks HkT.
    rewrite (pool_time_means avg_terms (length hist)); [|lia|].
    2:{ apply Forall_map_iff. eapply Forall_impl; [exact Htrajs|].
        intros traj [Hlen Htraj]. cbn beta. rewrite Hto. split.
        - rewrite length_map, length_take. lia.
        - apply (channels_rows _ D); [by apply Forall_take|done]. }
    cbn [mbind result_bind].
    rewrite (pool_time_means avg_terms (length fcst)); [|lia|].
    2:{ apply Forall_map_iff. eapply Forall_impl; [exact Htrajs|].
        intros traj [Hlen Htraj]. cbn beta. rewrite Hfrom. split.
        - rewrite length_map, length_drop. lia.
        - apply (channels_rows _ D); [by apply Forall_drop|done]. }
    cbn [mbind result_bind].
    rewrite (mapM_total _ (window_means k)).
    2:{ apply Forall_map_iff. eapply Forall_impl; [exact Htime|]. intros row Hrow.
        cbn beta in *. apply avg_pool1d_means.
        rewrite ?Hfrom, ?Hto, ?length_drop, ?length_take. lia. }
    cbn [mbind result_bind].
    rewrite (mapM_total _ (window_means k)).
    2:{ apply Forall_map_iff. eapply Forall_impl; [exact Htime|]. intros row Hrow.
        cbn beta in *. apply avg_pool1d_means.
        rewrite ?Hfrom, ?Hto, ?length_drop, ?length_take. lia. }
    cbn [mbind result_bind].
    assert (match avail with
            | None => Ok None
            | Some feature =>
                Some <$> mapM (fun traj : list (list scalar) =>
                                 rows ← mapM (index_list feature)
                                             (py_slice (Some observe_steps) None traj);
                                 Ok (Tensor.of_rows (length feature) rows)) trajs
            end
            = Ok ((fun feature =>
                     map (fun traj => Tensor.of_rows (length feature)
                                        (map (channels feature) (drop s traj))) trajs)
                  <$> avail)) as ->.
    { destruct avail as [feature|]; [|done]. cbn [default] in Havail.
      rewrite (mapM_total _ (fun traj => Tensor.of_rows (length feature)
                                           (map (channels feature) (drop s traj))));
        [done|].
      eapply Forall_impl; [exact Hrows|]. intros traj Htraj. cbn beta.
      rewrite Hfrom. rewrite (mapM_total _ (channels feature)); [done|].
      apply Forall_drop. eapply Forall_impl; [exact Htraj|]. intros row <-.
      by apply index_list_channels. }
    cbn [mbind result_bind]. eexists. split; [reflexivity|].
    cbn [TimeSeriesDataset.observed_data TimeSeriesDataset.data_to_predict
         TimeSeriesDataset.available_forecasts].
    rewrite <- !list_fmap_compose. unfold compose.
    split; [|split; [|split; [done|split]]].
    + apply map_ext. intros traj. by rewrite Hto.
    + apply map_ext. intros traj. by rewrite Hfrom.
    + apply Forall_map_iff. eapply Forall_impl; [exact Htrajs|]. intros traj [Hlen _].
      cbn beta. rewrite length_block_means, length_map, Hto, length_take.
      f_equal. lia.
    + apply Forall_map_iff. eapply Forall_impl; [exact Htrajs|]. intros traj [Hlen _].
      cbn beta. rewrite length_block_means, length_map, Hfrom, length_drop.
      f_equal. lia.
  - intros Hshort Hne Hhne.
    destruct trajs as [|traj trajs]; [done|].
    apply Forall_cons in Htrajs as [[Hlen Htraj] _].
    destruct hist as [|h hist]; [done|].
    unfold pool_time. cbn [map mapM].
    rewrite (transpose_columns (length (h :: hist))).
    2:{ apply (channels_rows _ D); [|done]. rewrite Hto. by apply Forall_take. }
    cbn [length seq map mapM].
    rewrite avg_pool1d_short; [done|].
    rewrite (length_column (length (h :: hist))); [| |cbn; lia].
    + rewrite length_map, Hto, length_take. lia.
    + apply (channels_rows _ D); [|done]. rewrite Hto. by apply Forall_take.
Qed.
End PoolingDataset.

(** Samples and batches *)

Section SampleFacts.
Context {scalar : Type} `{!Dtype scalar}.

Lemma init_lengths trajs time_steps observe_steps avg_terms hist fcst avail
  (ds : TimeSeriesDataset.t scalar) :
  TimeSeriesDataset.init trajs time_steps observe_steps avg_terms hist fcst avail = Ok ds ->
  length (TimeSeriesDataset.observed_data ds) = length trajs
  /\ length (TimeSeriesDataset.data_to_predict ds) = length trajs
  /\ (if TimeSeriesDataset.avail_fcst ds
      then exists x, TimeSeriesDataset.available_forecasts ds = Some x
                     /\ length x = length trajs
      else True).
Proof.
  unfold TimeSeriesDataset.init. intros H.
  destruct (1 <? avg_terms), avail; repeat step_result H; injection H as <-; cbn;
    repeat match goal with
           | Hp : pool_time _ _ _ = Ok _ |- _ => apply pool_time_length in Hp
           | Hs : TimeSeriesDataset.select _ _ _ _ = Ok _ |- _ => apply select_length in Hs
           | Hf : _ <$> ?m = Ok _ |- _ =>
               destruct m eqn:?; cbn in Hf; [injection Hf as <-|discriminate Hf]
           | Hm : mapM _ trajs = Ok _ |- _ => apply mapM_Ok_length in Hm
           end; repeat split; try congruence; eauto.
Qed.

(** X3: a dataset has one sample per trajectory; [ds[index]] returns the
    sample of that trajectory for [-n <= index < n], a negative index counting
    from the end, with the shared time tensors and, without available
    forecasts, the NaN placeholder; any other index raises IndexError. *)
Theorem getitem_index_range trajs time_steps observe_steps avg_terms hist fcst avail
  (ds : TimeSeriesDataset.t scalar) (index : Z) :
  TimeSeriesDataset.init trajs time_steps observe_steps avg_terms hist fcst avail = Ok ds ->
  let n := Z.of_nat (length trajs) in
  (- n <= index < n ->
   exists smp,
     TimeSeriesDataset.getitem index ds = Ok smp
     /\ TimeSeriesDataset.observed_data ds !! Z.to_nat (index mod n) = Some smp.1.1.1.1
     /\ TimeSeriesDataset.data_to_predict ds !! Z.to_nat (index mod n) = Some smp.1.1.1.2
     /\ smp.1.2 = TimeSeriesDataset.tp_to_predict ds
     /\ smp.2 = TimeSeriesDataset.observed_tp ds
     /\ (avail = None -> smp.1.1.2 = Tensor.tensor nan)
     /\ (0 <= index -> TimeSeriesDataset.getitem (index - n) ds = Ok smp))
  /\ (index < - n \/ n <= index ->
      TimeSeriesDataset.getitem index ds = Raise IndexError).
Proof.
  intros Hinit n.
  pose proof (init_lengths _ _ _ _ _ _ _ _ Hinit) as (Hobs & Hpred & Havail).
  assert (forall i, - n <= i < n ->
            Z.to_nat (norm_index (length trajs) i) = Z.to_nat (i mod n)) as Hnorm.
  { intros i Hi. unfold norm_index. f_equal. destruct (i <? 0) eqn:E.
    - apply (Z.mod_unique _ _ (-1)); lia.
    - symmetry. apply Z.mod_small. lia. }
  split.
  - intros Hindex. unfold TimeSeriesDataset.getitem.
    destruct (py_index_valid (TimeSeriesDataset.observed_data ds) index)
      as (o & Ho & Holookup); [rewrite Hobs; lia|].
    destruct (py_index_valid (TimeSeriesDataset.data_to_predict ds) index)
      as (p & Hp & Hplookup); [rewrite Hpred; lia|].
    rewrite Hobs in Holookup. rewrite Hpred in Hplookup.
    rewrite Hnorm in Holookup, Hplookup by done.
    assert (0 <= index -> py_index (TimeSeriesDataset.observed_data ds) (index - n) = Ok o
                          /\ py_index (TimeSeriesDataset.data_to_predict ds) (index - n)
                             = Ok p) as Hwrap.
    { intros Hpos.
      destruct (py_index_valid (TimeSeriesDataset.observed_data ds) (index - n))
        as (o' & Ho' & Holookup'); [rewrite Hobs; lia|].
      destruct (py_index_valid (TimeSeriesDataset.data_to_predict ds) (index - n))
        as (p' & Hp' & Hplookup'); [rewrite Hpred; lia|].
      rewrite Hobs in Holookup'. rewrite Hpred in Hplookup'.
      rewrite Hnorm in Holookup', Hplookup' by lia.
      replace ((index - n) mod n) with (index mod n) in Holookup', Hplookup'
        by (rewrite <- (Z.mod_add index (-1) n) by lia; f_equal; lia).
      rewrite Holookup in Holookup'. rewrite Hplookup in Hplookup'.
      injection Holookup' as ->. by injection Hplookup' as ->. }
    rewrite Ho, Hp. cbn [mbind result_bind].
    destruct (TimeSeriesDataset.avail_fcst ds) eqn:Hflag.
    + destruct Havail as (x & Hx & Hlen). rewrite Hx.
      destruct (py_index_valid x index) as (f & Hf & Hflookup); [rewrite Hlen; lia|].
      rewrite Hf. cbn [mbind result_bind]. eexists. split; [reflexivity|]. cbn.
      repeat split; try done.
      * intros ->. apply init_without_forecasts in Hinit. congruence.
      * intros Hpos. destruct (Hwrap Hpos) as [-> ->]. cbn [mbind result_bind].
        destruct (py_index_valid x (index - n)) as (f' & Hf' & Hflookup');
          [rewrite Hlen; lia|].
        rewrite Hf'. cbn. rewrite Hlen in Hflookup, Hflookup'.
        rewrite Hnorm in Hflookup, Hflookup' by lia.
        replace ((index - n) mod n) with (index mod n) in Hflookup'
          by (rewrite <- (Z.mod_add index (-1) n) by lia; f_equal; lia).
        rewrite Hflookup in Hflookup'. by injection Hflookup' as ->.
    + eexists. split; [reflexivity|]. cbn. repeat split; try done.
      intros Hpos. by destruct (Hwrap Hpos) as [-> ->].
  - intros Hindex. unfold TimeSeriesDataset.getitem.
    rewrite (py_index_invalid (TimeSeriesDataset.observed_data ds))
      by (rewrite Hobs; lia). done.
Qed.
End SampleFacts.

Section CollateForecasts.
Context {scalar : Type} `{!Dtype scalar}.

Lemma masked_filter (x : Tensor.t scalar) :
  Tensor.data (Tensor.masked x (Tensor.not_nan_mask x))
  = List.filter (fun v => negb (is_nan v)) (Tensor.data x).
Proof.
  unfold Tensor.masked, Tensor.not_nan_mask. cbn [Tensor.data].
  induction (Tensor.data x) as [|v l IH]; [done|]. cbn.
  destruct (is_nan v); cbn; by rewrite IH.
Qed.

Lemma stack_Ok (xs : list (Tensor.t scalar)) (x : Tensor.t scalar) :
  Tensor.stack xs = Ok x ->
  Tensor.data x = concat (map Tensor.data xs)
  /\ Forall (fun y => Tensor.shape x = length xs :: Tensor.shape y) xs.
Proof.
  unfold Tensor.stack. destruct xs as [|x0 rest]; [done|].
  destruct (forallb _ rest) eqn:Hshapes; [|done]. intros [= <-]. cbn [Tensor.data Tensor.shape].
  split; [done|]. apply Forall_cons. split; [done|].
  apply Forall_forall. intros y Hy%list_elem_of_In.
  rewrite forallb_forall in Hshapes. specialize (Hshapes y Hy).
  apply bool_decide_eq_true in Hshapes. by rewrite Hshapes.
Qed.

Lemma infer_size_batch (B last n : nat) (sizes : list nat) :
  Tensor.infer_size [Z.of_nat B; -1; Z.of_nat last] n = Ok sizes ->
  exists m, sizes = [B; m; last] /\ (B * m * last)%nat = n.
Proof.
  unfold Tensor.infer_size.
  replace (forallb _ _) with true
    by (symmetry; cbn; rewrite andb_true_r; apply andb_true_iff; split; apply Z.leb_le; lia).
  cbn [negb List.filter].
  replace (Z.of_nat B =? -1) with false by (symmetry; apply Z.eqb_neq; lia).
  replace (Z.of_nat last =? -1) with false by (symmetry; apply Z.eqb_neq; lia).
  cbn [negb Z.eqb Pos.eqb length map foldr]. rewrite !Nat2Z.id, !Nat.mul_1_r.
  destruct (bool_decide (n = B * last)%nat || _) eqn:Hfit; [|done].
  destruct (bool_decide (B * last = 0)%nat) eqn:Hzero; [done|].
  apply bool_decide_eq_false in Hzero. intros [= <-].
  exists (n / (B * last))%nat.
  replace (Z.of_nat B =? -1) with false by (symmetry; apply Z.eqb_neq; lia).
  replace (Z.of_nat last =? -1) with false by (symmetry; apply Z.eqb_neq; lia).
  split; [done|].
  apply orb_true_iff in Hfit as [Hfit|Hfit].
  - apply bool_decide_eq_true in Hfit. subst n. rewrite Nat.div_same by done. lia.
  - apply andb_true_iff in Hfit as [_ Hmod]. apply bool_decide_eq_true in Hmod.
    pose proof (Nat.div_mod n (B * last) Hzero). lia.
Qed.

(** What [collate_fn] makes of the forecasts of its samples. *)
Lemma collate_fn_forecasts (data : list (sample scalar)) (b : Batch.t scalar) :
  collate_fn data = Ok b ->
  let kept := List.filter (fun v => negb (is_nan v))
                          (concat (map (fun s : sample scalar => Tensor.data s.1.1.2) data)) in
  data <> []
  /\ Batch.observed_data b = map (fun s => s.1.1.1.1) data
  /\ Batch.data_to_predict b = map (fun s => s.1.1.1.2) data
  /\ head ((fun s : sample scalar => s.1.2) <$> data) = Some (Batch.tp_to_predict b)
  /\ head ((fun s : sample scalar => s.2) <$> data) = Some (Batch.observed_tp b)
  /\ match Batch.available_forecasts b with
     | None => kept = []
     | Some x =>
         Tensor.data x = kept /\ kept <> []
         /\ exists m width,
             Tensor.shape x = [length data; m; width]
             /\ (length data * m * width)%nat = length kept
             /\ Forall (fun s : sample scalar =>
                          last (length data :: Tensor.shape s.1.1.2) = Some width)
                       data
     end.
Proof.
  intros Hb. unfold collate_fn in Hb.
  destruct data as [|s rest] eqn:Edata; [done|]. rewrite <- Edata in *.
  intros kept. split; [by rewrite Edata|].
  destruct (stack_rows (map (fun s => s.1.1.1.1) data)) as [observed|] eqn:Hobs;
    [|done]. cbn [mbind result_bind] in Hb.
  destruct (stack_rows (map (fun s => s.1.1.1.2) data)) as [to_predict|] eqn:Hpred;
    [|done]. cbn [mbind result_bind] in Hb.
  destruct (Tensor.stack _) as [stacked|] eqn:Hstack; [|done].
  cbn [mbind result_bind] in Hb.
  match type of Hb with
  | py_index ?l 0 ≫= _ = _ => destruct (py_index l 0) as [tp|] eqn:Htp; [|done]
  end.
  cbn [mbind result_bind] in Hb.
  match type of Hb with
  | py_index ?l 0 ≫= _ = _ => destruct (py_index l 0) as [otp|] eqn:Hotp; [|done]
  end.
  cbn [mbind result_bind] in Hb.
  destruct (py_index (Tensor.shape stacked) (-1)) as [width|] eqn:Hwidth; [|done].
  cbn [mbind result_bind] in Hb.
  destruct (Tensor.reshape _ _) as [x|] eqn:Hreshape; [|done].
  cbn [mbind result_bind] in Hb. injection Hb as <-.
  cbn [Batch.observed_data Batch.data_to_predict Batch.tp_to_predict Batch.observed_tp
       Batch.available_forecasts].
  apply stack_rows_length in Hobs as ->. apply stack_rows_length in Hpred as ->.
  apply stack_Ok in Hstack as [Hdata Hshapes]. apply py_index_last in Hwidth.
  unfold Tensor.reshape in Hreshape.
  destruct (Tensor.infer_size _ _) as [sizes|] eqn:Hsizes; [|done].
  cbn [mbind result_bind] in Hreshape. injection Hreshape as <-.
  apply infer_size_batch in Hsizes as (m & -> & Hsize).
  pose proof (masked_filter stacked) as Hmask.
  unfold Tensor.numel, Tensor.masked in *. cbn [Tensor.data Tensor.shape] in *.
  rewrite Hmask, Hdata, map_map in *. subst kept. cbn zeta.
  rewrite length_map in *.
  split; [done|]. split; [done|].
  split; [by apply py_index_first in Htp|].
  split; [by apply py_index_first in Hotp|].
  destruct (bool_decide _) eqn:Hempty.
  - apply bool_decide_eq_true in Hempty. apply nil_length_inv. exact Hempty.
  - apply bool_decide_eq_false in Hempty.
    split; [done|]. split; [intros Hnil; apply Hempty; exact (f_equal length Hnil)|].
    eexists _, _. split; [done|]. split; [exact Hsize|].
    rewrite Forall_map_iff in Hshapes. eapply Forall_impl; [exact Hshapes|].
    intros s' Hs'. cbn beta in Hs'. rewrite Hs' in Hwidth. exact Hwidth.
Qed.

(** X4: a batch that [collate_fn] returns holds the observed and target
    windows of its samples in order and the time tensors of the first sample;
    its available forecasts are the non-NaN forecast values of all samples in
    order, reshaped to (B, m, width) with B * m * width values, whichever
    sample a value came from, and [None] when no value is left. *)
Theorem collate_deals_out_forecasts (data : list (sample scalar)) (b : Batch.t scalar) :
  collate_fn data = Ok b ->
  let kept := List.filter (fun v => negb (is_nan v))
                          (concat (map (fun s : sample scalar => Tensor.data s.1.1.2) data)) in
  data <> []
  /\ Batch.observed_data b = map (fun s => s.1.1.1.1) data
  /\ Batch.data_to_predict b = map (fun s => s.1.1.1.2) data
  /\ head ((fun s : sample scalar => s.1.2) <$> data) = Some (Batch.tp_to_predict b)
  /\ head ((fun s : sample scalar => s.2) <$> data) = Some (Batch.observed_tp b)
  /\ match Batch.available_forecasts b with
     | None => kept = []
     | Some x =>
         Tensor.data x = kept /\ kept <> []
         /\ exists m width,
             Tensor.shape x = [length data; m; width]
             /\ (length data * m * width)%nat = length kept
             /\ Forall (fun s : sample scalar =>
                          last (length data :: Tensor.shape s.1.1.2) = Some width)
                       data
     end.
Proof. exact (collate_fn_forecasts data b). Qed.

(** X20: when every sample carries forecasts of the same shape
    (steps, width), with at least one value and none of them NaN, the batch
    holds them unchanged, sample after sample, in shape (B, steps, width). *)
Theorem collate_keeps_complete_forecasts (data : list (sample scalar))
  (b : Batch.t scalar) (steps width : nat) :
  collate_fn data = Ok b ->
  (0 < steps * width)%nat ->
  Forall (fun s : sample scalar =>
            Tensor.shape s.1.1.2 = [steps; width]
            /\ length (Tensor.data s.1.1.2) = (steps * width)%nat
            /\ Forall (fun v => is_nan v = false) (Tensor.data s.1.1.2)) data ->
  Batch.available_forecasts b
  = Some {| Tensor.shape := [length data; steps; width];
            Tensor.data := concat (map (fun s : sample scalar => Tensor.data s.1.1.2)
                                       data) |}.
Proof.
  intros Hb Hsize Hdata.
  destruct (collate_fn_forecasts data b Hb) as (Hne & _ & _ & _ & _ & Hforecasts).
  set (values := concat (map (fun s : sample scalar => Tensor.data s.1.1.2) data)) in *.
  assert (List.filter (fun v => negb (is_nan v)) values = values) as Hkept.
  { assert (Forall (fun v => is_nan v = false) values) as Hvalues.
    { subst values. clear -Hdata. induction Hdata as [|s data (_ & _ & Hs) _ IH]; cbn;
        [constructor|by apply Forall_app]. }
    clear -Hvalues. induction Hvalues as [|v values Hv _ IH]; [done|].
    cbn. by rewrite Hv, IH. }
  assert (length values = (length data * (steps * width))%nat) as Hlen.
  { subst values. clear -Hdata. induction Hdata as [|s data (_ & Hs & _) _ IH]; [done|].
    cbn. rewrite length_app, Hs, IH. lia. }
  cbn zeta in Hforecasts. rewrite Hkept in Hforecasts.
  destruct (Batch.available_forecasts b) as [x|].
  - destruct Hforecasts as (Hx & _ & m & w & Hshape & Hcount & Hwidth).
    destruct data as [|s data]; [done|].
    apply Forall_cons in Hwidth as [Hw _]. apply Forall_cons in Hdata as [(Hs & _) _].
    rewrite Hs in Hw. injection Hw as <-.
    assert (m = steps) as -> by (cbn [length] in *; nia).
    destruct x as [shape values']. cbn in Hx, Hshape. by subst.
  - destruct data as [|s data]; [done|]. rewrite Hforecasts in Hlen.
    cbn [length] in Hlen. nia.
Qed.

End CollateForecasts.

(** A pass over a loader *)

Section LoaderFacts.
Context {scalar rng : Type} `{!Dtype scalar} `{!Random scalar rng}.

Lemma py_index_nat {A} (l : list A) (i : nat) (x : A) :
  py_index l (Z.of_nat i) = Ok x -> l !! i = Some x.
Proof.
  unfold py_index, norm_index. destruct (Z.of_nat i <? 0) eqn:E; [apply Z.ltb_lt in E; lia|].
  rewrite Nat2Z.id. destruct (_ && _); [|done]. by destruct (l !! i); intros [= ->].
Qed.

Lemma lookups_of_seq {A} (l os : list A) (a m : nat) :
  Forall2 (fun i o => l !! i = Some o) (seq a m) os -> os = take m (drop a l).
Proof.
  revert a os. induction m as [|m IH]; intros a os H.
  - cbn in H. by apply Forall2_nil_inv_l in H as ->.
  - cbn in H. apply Forall2_cons_inv_l in H as (o & os' & Ho & Hos & ->).
    apply IH in Hos as ->.
    rewrite (drop_S l o a Ho). cbn. f_equal. 
Qed.

Lemma collate_fn_data (data : list (sample scalar)) (b : Batch.t scalar) :
  collate_fn data = Ok b ->
  Batch.observed_data b = map (fun s => s.1.1.1.1) data
  /\ Batch.data_to_predict b = map (fun s => s.1.1.1.2) data.
Proof.
  intros Hb. unfold collate_fn in Hb. destruct data as [|s rest] eqn:Edata; [done|].
  rewrite <- Edata in *. repeat step_result Hb. injection Hb as <-. cbn.
  split; by apply stack_rows_length.
Qed.

Lemma getitem_Ok (ds : TimeSeriesDataset.t scalar) (index : Z) (s : sample scalar) :
  TimeSeriesDataset.getitem index ds = Ok s ->
  py_index (TimeSeriesDataset.observed_data ds) index = Ok s.1.1.1.1
  /\ py_index (TimeSeriesDataset.data_to_predict ds) index = Ok s.1.1.1.2.
Proof.
  unfold TimeSeriesDataset.getitem. intros Hs.
  destruct (py_index (TimeSeriesDataset.observed_data ds) index) as [o|]; [|done].
  destruct (py_index (TimeSeriesDataset.data_to_predict ds) index) as [p|]; [|done].
  cbn [mbind result_bind] in Hs. destruct (TimeSeriesDataset.avail_fcst ds).
  - destruct (match TimeSeriesDataset.available_forecasts ds with
              | Some x => py_index x index
              | None => Raise AttributeError
              end); [|done].
    cbn [mbind result_bind] in Hs. by injection Hs as <-.
  - by injection Hs as <-.
Qed.

Lemma fetch_lookups (dl : DataLoader.t scalar) (indices : list nat) (b : Batch.t scalar) :
  DataLoader.collate dl = collate_fn ->
  DataLoader.fetch dl indices = Ok b ->
  Forall2 (fun i o => TimeSeriesDataset.observed_data (DataLoader.dataset dl) !! i = Some o)
          indices (Batch.observed_data b)
  /\ Forall2 (fun i o => TimeSeriesDataset.data_to_predict (DataLoader.dataset dl) !! i
                         = Some o)
             indices (Batch.data_to_predict b).
Proof.
  intros Hcollate Hfetch. unfold DataLoader.fetch in Hfetch. rewrite Hcollate in Hfetch.
  destruct (mapM _ indices) as [samples|] eqn:Hsamples; [|done].
  cbn [mbind result_bind] in Hfetch.
  apply collate_fn_data in Hfetch as [-> ->]. apply mapM_Ok in Hsamples.
  split; apply Forall2_fmap_r; (eapply Forall2_impl; [exact Hsamples|]);
    intros i s [Ho Hp]%getitem_Ok; by apply py_index_nat.
Qed.

Lemma Forall2_concat_rows {A B} (P : A -> B -> Prop) (ls : list (list A))
  (ks : list (list B)) :
  Forall2 (Forall2 P) ls ks -> Forall2 P (concat ls) (concat ks).
Proof. induction 1; cbn; [constructor|by apply Forall2_app]. Qed.

Lemma concat_chunks {A} (k : nat) (l : list A) :
  (0 < k)%nat -> concat (chunks k l) = l.
Proof.
  intros Hk. unfold chunks. generalize (Nat.le_refl (length l)).
  generalize (length l) at 2 3. intros fuel. revert l.
  induction fuel as [|fuel IH]; intros l Hl.
  - by destruct l; [|cbn in Hl; lia].
  - destruct l as [|x l]; [done|]. cbn [chunks_fuel concat].
    rewrite IH by (rewrite length_drop; cbn in *; lia). apply take_drop.
Qed.

Lemma chunks_lookup {A} (k j : nat) (l c : list A) :
  (0 < k)%nat -> chunks k l !! j = Some c ->
  c = take k (drop (j * k) l) /\ (j * k < length l)%nat.
Proof.
  intros Hk. rewrite chunks_windows by done. rewrite list_lookup_fmap.
  destruct (seq _ _ !! j) as [j'|] eqn:Hj; [|done]. intros [= <-].
  apply lookup_seq in Hj as [-> Hj]. split; [done|].
  assert (j <= (length l + k - 1) / k - 1)%nat as Hle by lia.
  pose proof (Nat.Div0.mul_div_le (length l + k - 1) k). nia.
Qed.

(** X5: a pass over a loader built with [shuffle=False] and [collate_fn]
    yields ceil(n / batch_size) batches; batch [j] has
    min(batch_size, n - j * batch_size) samples and the batches joined are the
    samples of the dataset, each once and in index order. *)
Theorem loader_pass_covers_dataset (dl : DataLoader.t scalar) (g : rng)
  (batches : list (Batch.t scalar)) :
  DataLoader.shuffle dl = false ->
  DataLoader.collate dl = collate_fn ->
  0 < DataLoader.batch_size dl ->
  DataLoader.iterate dl g = Ok batches ->
  let ds := DataLoader.dataset dl in
  let n := TimeSeriesDataset.len ds in
  let k := Z.to_nat (DataLoader.batch_size dl) in
  concat (map Batch.observed_data batches) = TimeSeriesDataset.observed_data ds
  /\ concat (map Batch.data_to_predict batches)
     = take n (TimeSeriesDataset.data_to_predict ds)
  /\ length batches = ((n + k - 1) / k)%nat
  /\ (forall (j : nat) (b : Batch.t scalar),
        batches !! j = Some b ->
        length (Batch.observed_data b) = Nat.min k (n - j * k)
        /\ (0 < length (Batch.observed_data b))%nat).
Proof.
  intros Hshuffle Hcollate Hsize Hiter ds n k.
  unfold DataLoader.iterate, DataLoader.sampler in Hiter. rewrite Hshuffle in Hiter.
  fold ds n k in Hiter. apply mapM_Ok in Hiter.
  assert (0 < k)%nat as Hk by lia.
  assert (Forall2 (fun indices b =>
                     Forall2 (fun i o => TimeSeriesDataset.observed_data ds !! i = Some o)
                             indices (Batch.observed_data b)
                     /\ Forall2 (fun i o => TimeSeriesDataset.data_to_predict ds !! i
                                            = Some o)
                                indices (Batch.data_to_predict b))
                  (chunks k (seq 0 n)) batches) as Hall.
  { eapply Forall2_impl; [exact Hiter|]. intros indices b. by apply fetch_lookups. }
  split; [|split; [|split]].
  - assert (Forall2 (fun i o => TimeSeriesDataset.observed_data ds !! i = Some o)
                    (concat (chunks k (seq 0 n)))
                    (concat (map Batch.observed_data batches))) as Hobs.
    { apply Forall2_concat_rows, Forall2_fmap_r.
      eapply Forall2_impl; [exact Hall|]. by intros indices b []. }
    rewrite concat_chunks in Hobs by done. apply lookups_of_seq in Hobs as ->.
    rewrite drop_0. by apply take_ge.
  - assert (Forall2 (fun i o => TimeSeriesDataset.data_to_predict ds !! i = Some o)
                    (concat (chunks k (seq 0 n)))
                    (concat (map Batch.data_to_predict batches))) as Hpred.
    { apply Forall2_concat_rows, Forall2_fmap_r.
      eapply Forall2_impl; [exact Hall|]. by intros indices b []. }
    rewrite concat_chunks in Hpred by done. by apply lookups_of_seq in Hpred as ->.
  - apply Forall2_length in Hiter. rewrite <- Hiter.
    by rewrite chunks_windows, length_map, !length_seq.
  - intros j b Hb.
    destruct (Forall2_lookup_r _ _ _ _ _ Hall Hb) as (indices & Hindices & Hlook & _).
    apply Forall2_length in Hlook. rewrite <- Hlook.
    apply chunks_lookup in Hindices as [-> Hj]; [|done].
    rewrite length_seq in Hj. rewrite length_take, length_drop, length_seq. lia.
Qed.
End LoaderFacts.

(** The random split and the normalization *)

Section SplitFacts.
Context {scalar rng : Type}
        `{!Dtype scalar} `{!Numeric scalar} `{!Random scalar rng} `{!Files scalar}.

Lemma index_list_app {A} (x y : list Z) (l kx ky : list A) :
  index_list x l = Ok kx -> index_list y l = Ok ky ->
  index_list (x ++ y) l = Ok (kx ++ ky).
Proof.
  unfold index_list. rewrite !mapM_Ok. apply Forall2_app.
Qed.

Lemma index_list_in_range {A} (idx : list nat) (l : list A) :
  Forall (fun i => i < length l)%nat idx ->
  exists k, index_list (map Z.of_nat idx) l = Ok k /\ length k = length idx.
Proof.
  unfold index_list. induction 1 as [|i idx Hi _ (k & Hk & Hlen)]; [by exists []|].
  destruct (py_index_valid l (Z.of_nat i)) as (x & Hx & _); [lia|].
  exists (x :: k). cbn. rewrite Hx. cbn. rewrite Hk. cbn. by rewrite Hlen.
Qed.

(** X6: the random split draws one permutation and returns; the three
    parts together are a permutation of the trajectories, with the sizes of the
    three index ranges. *)
Theorem random_split_partitions (train_split test_split : Z)
  (trajectories : list (list (list scalar))) (w : world rng) :
  0 <= train_split <= test_split ->
  let N := length trajectories in
  exists train val test,
    random_split train_split test_split trajectories w
    = (Ok (train, val, test),
       {| generator := (randperm N (generator w)).2; opened := opened w |})
    /\ Permutation (train ++ val ++ test) trajectories
    /\ length train = Nat.min (Z.to_nat train_split) N
    /\ length val = (Nat.min (Z.to_nat test_split) N - Nat.min (Z.to_nat train_split) N)%nat
    /\ length test = (N - Nat.min (Z.to_nat test_split) N)%nat.
Proof.
  intros Horder N. subst N. unfold random_split, draw, mbind at 1, M_bind at 1.
  pose proof (randperm_permutation (length trajectories) (generator w)) as Hperm.
  destruct (randperm (length trajectories) (generator w)) as [perm g] eqn:Hdraw.
  cbn [fst snd] in *. cbv beta iota zeta.
  pose proof (chronological_split_ordered (map Z.of_nat perm) _ _ Horder) as Hparts.
  unfold chronological_split in Hparts. destruct Hparts as (Htr & Hva & Hte & Hall).
  assert (Forall (fun i => i < length trajectories)%nat perm) as Hrange.
  { apply Forall_forall. intros i Hi. rewrite Hperm in Hi. by apply elem_of_seq in Hi as [_ ?]. }
  assert (length perm = length trajectories) as Hlen.
  { apply Permutation_length in Hperm. by rewrite length_seq in Hperm. }
  rewrite Htr, Hva, Hte. rewrite <- !fmap_drop, <- !fmap_take.
  destruct (index_list_in_range (take (Z.to_nat train_split) perm) trajectories)
    as (train & Htrain & Hltrain); [by apply Forall_take|].
  destruct (index_list_in_range
              (take (Z.to_nat test_split - Z.to_nat train_split)
                    (drop (Z.to_nat train_split) perm)) trajectories)
    as (val & Hval & Hlval); [by apply Forall_take, Forall_drop|].
  destruct (index_list_in_range (drop (Z.to_nat test_split) perm) trajectories)
    as (test & Htest & Hltest); [by apply Forall_drop|].
  exists train, val, test.
  change (index_list (Z.of_nat <$> take (Z.to_nat train_split) perm) trajectories
          = Ok train) in Htrain.
  change (index_list (Z.of_nat <$> take (Z.to_nat test_split - Z.to_nat train_split)
                                        (drop (Z.to_nat train_split) perm)) trajectories
          = Ok val) in Hval.
  change (index_list (Z.of_nat <$> drop (Z.to_nat test_split) perm) trajectories
          = Ok test) in Htest.
  unfold mbind, M_bind, lift, mret, M_ret. rewrite Htrain, Hval, Htest.
  split; [done|]. split.
  - apply (index_list_permutation _ _ perm); [done|].
    rewrite <- Hall, Htr, Hva, Hte, <- !fmap_drop, <- !fmap_take.
    by repeat apply index_list_app.
  - rewrite Hltrain, Hlval, Hltest, !length_take, !length_drop, Hlen. lia.
Qed.
End SplitFacts.

Section NormalizeFacts.
Context {scalar rng : Type}
        `{!Dtype scalar} `{!Numeric scalar} `{!Random scalar rng} `{!Files scalar}.

Lemma reshape_back_no_rows (dim : nat) (x : list (list (list scalar))) :
  exists msg, reshape_back (scalar:=scalar) 0 dim x = Raise (RuntimeError msg).
Proof.
  unfold reshape_back, Tensor.infer_size.
  replace (forallb _ _) with true
    by (symmetry; cbn; rewrite andb_true_r; apply Z.leb_le; lia).
  cbn [negb List.filter Z.of_nat].
  change (0 =? -1) with false.
  replace (Z.of_nat dim =? -1) with false by (symmetry; apply Z.eqb_neq; lia).
  cbn [negb Z.eqb Pos.eqb length map foldr Z.to_nat Nat.mul].
  destruct (bool_decide _ || _); [|by eexists].
  rewrite (bool_decide_eq_true_2 (0 = 0)%nat) by done. by eexists.
Qed.

Lemma standardize_length (mean std : list scalar) (x : list (list (list scalar))) :
  length (standardize mean std x) = length x.
Proof. unfold standardize. by rewrite length_map. Qed.

Lemma normalize_splits_nonempty dim (train val test train' val' test'
  : list (list (list scalar))) mean std :
  normalize_splits true dim train val test = Ok (train', val', test', mean, std) ->
  train <> [] /\ val <> [] /\ test <> [].
Proof.
  unfold normalize_splits. intros H.
  destruct (reshape_flat dim train) as [rows|]; [|done]. cbn [mbind result_bind] in H.
  destruct (reshape_flat dim val); [|done]. cbn [mbind result_bind] in H.
  destruct (reshape_flat dim test); [|done]. cbn [mbind result_bind] in H.
  set (m := map _ (seq 0 dim)) in H. set (s := map _ (seq 0 dim)) in H.
  repeat split; intros ->; cbn [length standardize map] in H.
  - destruct (reshape_back_no_rows dim ([] : list (list (list scalar)))) as [msg Hmsg].
    by rewrite Hmsg in H.
  - destruct (reshape_back _ dim (standardize m s train)); [|done].
    cbn [mbind result_bind] in H.
    destruct (reshape_back_no_rows dim ([] : list (list (list scalar)))) as [msg Hmsg].
    by rewrite Hmsg in H.
  - destruct (reshape_back _ dim (standardize m s train)); [|done].
    cbn [mbind result_bind] in H.
    destruct (reshape_back _ dim (standardize m s val)); [|done].
    cbn [mbind result_bind] in H.
    destruct (reshape_back_no_rows dim ([] : list (list (list scalar)))) as [msg Hmsg].
    by rewrite Hmsg in H.
Qed.
End NormalizeFacts.

Section ReturnedLoaders.
Context {scalar rng : Type}
        `{!Dtype scalar} `{!Numeric scalar} `{!Random scalar rng} `{!Files scalar}.

Lemma generate_data_set_first_batch (cfg : Config.t) (w w' : world rng)
  (res : Generated.t scalar) :
  generate_data_set cfg w = (Ok res, w') ->
  exists g b, first_batch (Generated.dltrain res) g = Ok b.
Proof.
  unfold generate_data_set. intros H.
  do 11 inv_bind H. injection H as <- <-. cbn.
  injection Hstep8 as Hfirst _. eauto.
Qed.

Lemma first_batch_nonempty (dl : DataLoader.t scalar) (g : rng) (b : Batch.t scalar) :
  DataLoader.shuffle dl = false ->
  first_batch dl g = Ok b ->
  (0 < TimeSeriesDataset.len (DataLoader.dataset dl))%nat.
Proof.
  unfold first_batch, DataLoader.sampler. intros -> H.
  destruct (TimeSeriesDataset.len (DataLoader.dataset dl)); [|lia].
  by destruct (Z.to_nat (DataLoader.batch_size dl)).
Qed.

Lemma normalize_splits_spec (normalize : bool) dim (train val test train' val' test'
  : list (list (list scalar))) mean std :
  normalize_splits normalize dim train val test = Ok (train', val', test', mean, std) ->
  if normalize then
    let m := map (fun c => nanmean (column c (concat train))) (seq 0 dim) in
    let s := map (fun c => nanstd (column c (concat train))) (seq 0 dim) in
    mean = StatTensor m /\ std = StatTensor s
    /\ train' = standardize m s train /\ val' = standardize m s val
    /\ test' = standardize m s test
  else mean = StatInt 0 /\ std = StatInt 1
       /\ train' = train /\ val' = val /\ test' = test.
Proof.
  unfold normalize_splits. destruct normalize; [|by intros [= <- <- <- <- <-]].
  intros H. unfold reshape_flat, reshape_back in H.
  repeat step_result H. by injection H as <- <- <- <- <-.
Qed.

(** The statistics and the loaders of a run of [generate_data_set] that
    returned. *)
Lemma generate_data_set_statistics (cfg : Config.t) (w w' : world rng)
  (res : Generated.t scalar) :
  generate_data_set cfg w = (Ok res, w') ->
  exists trajectories train_split test_split split train val test w1 w2 w3,
    (if Config.test_set_out_of_distribution cfg
     then mret (chronological_split train_split test_split trajectories)
     else random_split train_split test_split trajectories) w1 = (Ok split, w2)
    /\ normalize_splits (Config.normalize cfg) (dim2 trajectories)
                        split.1.1 split.1.2 split.2
       = Ok (train, val, test, Generated.train_mean res, Generated.train_std res)
    /\ make_loaders cfg (Generated.feature res) (Generated.t_ res) train val test w2
       = (Ok (Generated.dltrain res, Generated.dlval res, Generated.dltest res), w3).
Proof.
  unfold generate_data_set. intros H.
  do 11 inv_bind H. injection H as <- <-. cbn.
  apply lift_Ok in Hstep6 as [Hnorm ->].
  eexists _, _, _, (_, _, _). eauto 20.
Qed.

(** X7: when [generate_data_set] returns, the train dataset has at least
    one trajectory, and with [normalize] also the val and test datasets have:
    the normalization raises on an empty split. *)
Theorem returned_loaders_are_nonempty (cfg : Config.t) (w w' : world rng)
  (res : Generated.t scalar) :
  generate_data_set cfg w = (Ok res, w') ->
  (0 < TimeSeriesDataset.len (DataLoader.dataset (Generated.dltrain res)))%nat
  /\ (Config.normalize cfg = true ->
      (0 < TimeSeriesDataset.len (DataLoader.dataset (Generated.dlval res)))%nat
      /\ (0 < TimeSeriesDataset.len (DataLoader.dataset (Generated.dltest res)))%nat)
  /\ (forall dim train val test,
        (exists r, normalize_splits (scalar:=scalar) true dim train val test = Ok r) ->
        train <> [] /\ val <> [] /\ test <> []).
Proof.
  intros Hrun. pose proof (generate_data_set_first_batch _ _ _ _ Hrun) as (g & b & Hfirst).
  apply generate_data_set_spec in Hrun
    as (_ & trajectories & a & b' & [[train0 val0] test0] & train & val & test & mean & std
        & w1 & w2 & w3 & _ & _ & _ & Hnorm & Hloaders).
  apply make_loaders_spec in Hloaders as (permuted & _ & Hperm & Hbt & Hbv & Hbte).
  split; [|split].
  - eapply first_batch_nonempty; [|exact Hfirst]. by destruct Hbt as (ds & _ & ->).
  - intros Hflag. rewrite Hflag in Hnorm.
    pose proof (normalize_splits_length _ _ _ _ _ _ _ _ _ _ Hnorm) as (_ & Hval & Htest).
    apply normalize_splits_nonempty in Hnorm as (_ & Hv & Hte). cbn [fst snd] in *.
    apply built_from_len in Hbv, Hbte. rewrite Hbv, Hbte, Hval, Htest.
    destruct val0, test0; cbn; (done || lia).
  - intros dim tr va te [[[[[tr' va'] te'] m] s] Hr].
    by apply normalize_splits_nonempty in Hr.
Qed.
(** X21: the statistics [generate_data_set] returns are the per-channel
    NaN-aware mean and standard deviation of the training part of the split,
    and all three datasets are built from their part standardized with these
    two (the training part permuted once more); without [normalize] the
    statistics are the ints 0 and 1 and the parts are used as they are. *)
Theorem normalization_uses_training_split (cfg : Config.t) (w w' : world rng)
  (res : Generated.t scalar) :
  generate_data_set cfg w = (Ok res, w') ->
  exists trajectories train_split test_split train val test w1 w2,
    (if Config.test_set_out_of_distribution cfg
     then mret (chronological_split train_split test_split trajectories)
     else random_split train_split test_split trajectories) w1
    = (Ok (train, val, test), w2)
    /\ let m := map (fun c => nanmean (column c (concat train)))
                    (seq 0 (dim2 trajectories)) in
       let s := map (fun c => nanstd (column c (concat train)))
                    (seq 0 (dim2 trajectories)) in
       let scaled := fun part : list (list (list scalar)) =>
                       if Config.normalize cfg then standardize m s part else part in
       Generated.train_mean res = (if Config.normalize cfg then StatTensor m else StatInt 0)
       /\ Generated.train_std res = (if Config.normalize cfg then StatTensor s else StatInt 1)
       /\ (exists permuted,
              Permutation permuted (scaled train)
              /\ built_from cfg (Generated.feature res) (Generated.t_ res) permuted
                            (Generated.dltrain res))
       /\ built_from cfg (Generated.feature res) (Generated.t_ res) (scaled val)
                     (Generated.dlval res)
       /\ built_from cfg (Generated.feature res) (Generated.t_ res) (scaled test)
                     (Generated.dltest res).
Proof.
  intros (trajectories & a & b & [[train0 val0] test0] & train & val & test & w1 & w2 & w3
          & Hsplit & Hnorm & Hloaders)%generate_data_set_statistics.
  exists trajectories, a, b, train0, val0, test0, w1, w2. split; [exact Hsplit|].
  apply normalize_splits_spec in Hnorm. cbn [fst snd] in Hnorm.
  apply make_loaders_spec in Hloaders as (permuted & _ & Hperm & Hbt & Hbv & Hbte).
  destruct (Config.normalize cfg).
  - destruct Hnorm as (-> & -> & -> & -> & ->). cbn zeta. eauto 10.
  - destruct Hnorm as (-> & -> & -> & -> & ->). cbn zeta. eauto 10.
Qed.
End ReturnedLoaders.

(** The dataset generators *)

Section GeneratorFacts.
Context {scalar rng : Type}
        `{!Dtype scalar} `{!Numeric scalar} `{!Random scalar rng} `{!Files scalar}.

Lemma omap_total {A B} (f : A -> option B) (g : A -> B) (l : list A) :
  Forall (fun a => f a = Some (g a)) l -> omap f l = map g l.
Proof. induction 1 as [|a l Ha _ IH]; [done|]. cbn. by rewrite Ha, IH. Qed.

Lemma stride_slice_windows {A} (k : nat) (l : list A) (d : A) :
  (0 < k)%nat ->
  stride_slice k l = map (fun i => default d (l !! (i * k)%nat))
                         (seq 0 ((length l + k - 1) / k)).
Proof.
  intros Hk. unfold stride_slice. apply omap_total, Forall_forall.
  intros i [_ Hi]%elem_of_seq.
  assert (i * k < length l)%nat as Hlt.
  { assert (i <= (length l + k - 1) / k - 1)%nat as Hle by lia.
    pose proof (Nat.Div0.mul_div_le (length l + k - 1) k). nia. }
  destruct (l !! (i * k)%nat) eqn:Hl; [done|]. apply lookup_ge_None in Hl. lia.
Qed.

(** X8: [mfred] and [nrel] read their file and return every twelfth window
    of [window_width] consecutive rows, ceil((L - window_width + 1) / 12)
    windows of a table of L rows, with the times 0, ..., window_width - 1 in
    one row and the feature roles of the dataset; the generator is not
    touched. *)
Theorem windowed_datasets_cut_strided_windows (path : string) (avail : list Z)
  (double : bool) (window_width : Z) (df : list (list scalar)) (w : world rng) :
  read_csv path = Some df ->
  0 <= window_width <= Z.of_nat (length df) ->
  let width := Z.to_nat window_width in
  let count := ((length df - width + 1 + 11) / 12)%nat in
  windowed path avail double (Some window_width) w
  = (Ok (map (fun j => map (map (cast double)) (take width (drop (12 * j) df)))
             (seq 0 count),
         [map (cast double) (arange window_width)],
         div (of_Z window_width) (sum (diff (arange window_width))),
         {| hist_feature := [0]; fcst_feature := [0];
            avail_fcst_feature := Some avail |}),
     {| generator := generator w; opened := opened w ++ [path] |})
  /\ mfred double (Some window_width) w
     = windowed "../datasets/MFRED_wiztemp.csv" [1] double (Some window_width) w
  /\ (forall transformed,
         nrel double (Some window_width) transformed w
         = windowed "../datasets/nrel_all.csv" [1; 2] double (Some window_width) w).
Proof.
  intros Hfile Hw width count. split; [|done].
  unfold windowed, pd_read_csv, mbind, M_bind, mret, M_ret, lift. rewrite Hfile.
  unfold sliding_window_view.
  replace (window_width <? 0) with false by lia.
  replace (Z.of_nat (length df) <? window_width) with false by lia.
  do 3 f_equal. f_equal. f_equal.
  rewrite (stride_slice_windows 12 _ []) by lia.
  rewrite length_map, length_seq, <- list_fmap_compose.
  fold width. replace (length df - width + 1 + 12 - 1)%nat with (length df - width + 1 + 11)%nat by lia.
  fold count. apply map_ext_in. intros j Hj%in_seq. cbn.
  rewrite list_lookup_fmap, lookup_seq_lt; [cbn; by rewrite Nat.mul_comm|].
  assert (j <= (length df - width + 1 + 11) / 12 - 1)%nat as Hle by (subst count; lia).
  pose proof (Nat.Div0.mul_div_le (length df - width + 1 + 11) 12). lia.
Qed.

(** X9: [mfred] and [nrel] raise FileNotFoundError, with nothing recorded as
    read, when the file is missing; once the file is read, a missing
    [window_width] raises TypeError and a width that is negative or larger than
    the table raises ValueError. *)
Theorem windowed_datasets_failures (path : string) (avail : list Z) (double : bool)
  (window_width : option Z) (w : world rng) :
  (read_csv path = None ->
   windowed path avail double window_width w = (Raise (FileNotFoundError path), w))
  /\ (forall df, read_csv path = Some df ->
        let w' := {| generator := generator w; opened := opened w ++ [path] |} in
        (window_width = None ->
         windowed path avail double window_width w = (Raise TypeError, w'))
        /\ (forall width, window_width = Some width -> Z.of_nat (length df) < width ->
              exists msg,
                windowed path avail double window_width w = (Raise (ValueError msg), w'))
        /\ (forall width, window_width = Some width -> width < 0 ->
              exists msg,
                windowed path avail double window_width w = (Raise (ValueError msg), w'))).
Proof.
  split.
  - intros Hfile. unfold windowed, pd_read_csv, mbind, M_bind. by rewrite Hfile.
  - intros df Hfile w'. unfold windowed, pd_read_csv, mbind, M_bind. rewrite Hfile.
    repeat split.
    + by intros ->.
    + intros width -> Hlong. unfold mret, M_ret, lift, sliding_window_view.
      destruct (width <? 0); [by eexists|].
      replace (Z.of_nat (length df) <? width) with true by lia. by eexists.
    + intros width -> Hneg. unfold mret, M_ret, lift, sliding_window_view.
      replace (width <? 0) with true by lia. by eexists.
Qed.
End GeneratorFacts.

Section SineFacts.
Context {scalar : Type} `{!Dtype scalar} `{!Numeric scalar}.

(** X10: for every [trajectories_to_sample = n >= 1], [sine] returns [n]
    trajectories of 1000 steps and one channel, trajectory [i] being the
    sampler at phase [x0s[i]] on the time grid, and declares no available
    forecast feature; for [n <= 0] it raises RuntimeError. *)
Theorem sine_any_count (double : bool) (n t_nsamples : Z) :
  (1 <= n ->
   exists ti x0s sample_rate,
     sine double n t_nsamples 4
     = Ok (map (fun x0 => map (fun t_ => [sampler t_ x0]) ti) x0s, [ti], sample_rate,
           {| hist_feature := [0]; fcst_feature := [0]; avail_fcst_feature := None |})
     /\ length x0s = Z.to_nat n
     /\ length ti = 1000%nat
     /\ linspace (of_Z 0) (of_float (PrimFloat.mul (float_of_Z 16) float_pi)) n = Ok x0s)
  /\ (n <= 0 -> exists msg, sine (scalar:=scalar) double n t_nsamples 4
                            = Raise (RuntimeError msg)).
Proof.
  unfold sine. rewrite sine_steps.
  cbn [mbind result_bind]. change (1000 =? 0) with false. cbn [mbind result_bind].
  rewrite (linspace_Ok _ _ 1000) by lia. cbn [mbind result_bind].
  set (grid := map _ (seq 0 (Z.to_nat 1000))).
  set (ti := if double then map to_double grid else grid).
  assert (length ti = 1000%nat) as Hti.
  { subst ti grid. destruct double; rewrite ?length_map, length_seq; reflexivity. }
  split.
  - intros Hn. rewrite (linspace_Ok _ _ n) by lia. cbn [mbind result_bind].
    set (x0s := map _ (seq 0 (Z.to_nat n))).
    assert (length x0s = Z.to_nat n) as Hx0s
      by (subst x0s; by rewrite length_map, length_seq).
    set (trajs := map _ x0s).
    assert (trajs <> []) as Hne.
    { subst trajs. destruct x0s; [cbn in Hx0s; lia|discriminate]. }
    destruct trajs as [|traj trajs'] eqn:Htrajs; [done|]. rewrite <- Htrajs.
    cbn [mbind result_bind].
    replace (length (concat trajs)) with (Z.to_nat n * 1000)%nat
      by (subst trajs; by rewrite length_concat_rows, Hx0s, Hti).
    pose proof (infer_size_view (Z.to_nat n) 1000 ltac:(lia)) as Hview.
    rewrite Z2Nat.id in Hview by lia. rewrite Hview. cbn [mbind result_bind].
    exists ti, x0s. eexists. split; [|done].
    do 2 f_equal. f_equal. f_equal. subst trajs.
    rewrite <- list_fmap_compose. apply map_ext. intros x0. cbn.
    by rewrite <- list_fmap_compose.
  - intros Hn. unfold linspace at 1. destruct (n <? 0) eqn:Hneg; [by eexists|].
    replace n with 0 by lia. cbn. by eexists.
Qed.
End SineFacts.

(** The tree data set and the files read *)

Section TreeFacts.
Context {scalar rng : Type}
        `{!Dtype scalar} `{!Numeric scalar} `{!Random scalar rng} `{!Files scalar}.

Lemma sine_features (double : bool) (n t_nsamples num_pi : Z)
  (r : list (list (list scalar)) * list (list scalar) * scalar * features) :
  sine double n t_nsamples num_pi = Ok r -> avail_fcst_feature r.2 = None.
Proof.
  unfold sine. intros H. repeat step_result H. by injection H as <-.
Qed.

Lemma first_batch_placeholders (dl : DataLoader.t scalar) (g : rng) (b : Batch.t scalar) :
  TimeSeriesDataset.avail_fcst (DataLoader.dataset dl) = false ->
  DataLoader.collate dl = collate_fn ->
  first_batch dl g = Ok b ->
  Batch.available_forecasts b = None.
Proof.
  intros Havail Hcollate. unfold first_batch.
  destruct (chunks _ _) as [|indices ?]; [done|].
  unfold DataLoader.fetch. rewrite Hcollate. intros Hb.
  destruct (mapM _ indices) as [samples|] eqn:Hsamples; [|done].
  cbn [mbind result_bind] in Hb. eapply collate_fn_placeholders_None; [|exact Hb].
  apply mapM_Ok in Hsamples. eapply Forall2_Forall_r; [exact Hsamples|].
  apply Forall_forall. intros i _ s. by apply getitem_placeholder.
Qed.

Lemma make_tree_loaders_placeholders cfg feature train val test train_t val_t test_t
  (w w' : world rng) (dltrain dlval dltest : DataLoader.t scalar) :
  avail_fcst_feature feature = None ->
  make_tree_loaders cfg feature train val test train_t val_t test_t w
  = (Ok (dltrain, dlval, dltest), w') ->
  TimeSeriesDataset.avail_fcst (DataLoader.dataset dltrain) = false
  /\ DataLoader.collate dltrain = collate_fn.
Proof.
  intros Hnone H. unfold make_tree_loaders in H. rewrite Hnone in H.
  do 5 inv_bind H. injection H as <- _ _ _.
  apply lift_Ok in Hstep1 as [Hloader _].
  destruct (TimeSeriesDataset.init _ _ _ _ _ _ _) as [ds|] eqn:Hds; [|done].
  cbn [mbind result_bind] in Hloader. unfold DataLoader.init in Hloader.
  destruct (_ <=? 0); [done|]. injection Hloader as <-. cbn.
  split; [|done]. by eapply init_without_forecasts.
Qed.

(** X11: [generate_tree_data_set] never returns when [add_external_feature]
    is false or the dataset is "sine": the batches then carry no available
    forecasts, and the arrays are built from them. *)
Theorem tree_data_set_needs_forecasts (cfg : Config.t) (w : world rng) :
  Config.add_external_feature cfg = false \/ Config.name cfg = "sine" ->
  exists e w', generate_tree_data_set (scalar:=scalar) cfg w = (Raise e, w').
Proof.
  intros Hcfg.
  destruct (generate_tree_data_set cfg w) as [[res|e] w'] eqn:Hrun; [|by eauto].
  exfalso. unfold generate_tree_data_set in Hrun.
  do 13 inv_bind Hrun. clear Hrun.
  assert (avail_fcst_feature
            (if Config.add_external_feature cfg then f
             else {| hist_feature := hist_feature f; fcst_feature := fcst_feature f;
                     avail_fcst_feature := None |}) = None) as Hnone.
  { destruct Hcfg as [->|Hname]; [done|]. rewrite Hname in Hstep0. cbn in Hstep0.
    apply lift_Ok in Hstep0 as [Hsine _]. apply sine_features in Hsine.
    by destruct (Config.add_external_feature cfg). }
  destruct (make_tree_loaders_placeholders _ _ _ _ _ _ _ _ _ _ _ _ _ Hnone Hstep7)
    as [Havail Hcollate].
  injection Hstep8 as Hfirst _.
  apply (first_batch_placeholders _ _ _ Havail Hcollate) in Hfirst.
  apply lift_Ok in Hstep11 as [Harrays _]. unfold tree_arrays in Harrays.
  by rewrite Hfirst in Harrays.
Qed.
End TreeFacts.

Section FilesRead.
Context {scalar rng : Type}
        `{!Dtype scalar} `{!Numeric scalar} `{!Random scalar rng} `{!Files scalar}.

Lemma draw_opened {A} (f : rng -> A * rng) (w w' : world rng) (r : result A) :
  draw f w = (r, w') -> opened w' = opened w.
Proof. unfold draw. destruct (f (generator w)). by intros [= _ <-]. Qed.

Lemma drop_at_random_opened p (x y : list (list (list scalar))) (w w' : world rng) :
  drop_at_random p x w = (Ok y, w') -> opened w' = opened w.
Proof.
  unfold drop_at_random. intros H. inv_bind H. injection H as _ <-.
  by apply draw_opened in Hstep.
Qed.

Lemma add_noise_opened p (x y : list (list (list scalar))) (w w' : world rng) :
  add_noise p x w = (Ok y, w') -> opened w' = opened w.
Proof.
  unfold add_noise. intros H. inv_bind H. injection H as _ <-.
  by apply draw_opened in Hstep.
Qed.

Lemma random_split_opened {A} a b (x : list A) r (w w' : world rng) :
  random_split a b x w = (Ok r, w') -> opened w' = opened w.
Proof.
  unfold random_split. intros H. do 4 inv_bind H. injection H as _ <-.
  apply draw_opened in Hstep. apply lift_Ok in Hstep0 as [_ ->], Hstep1 as [_ ->],
    Hstep2 as [_ ->]. done.
Qed.

Lemma make_loaders_opened cfg feature t_ train val test r (w w' : world rng) :
  make_loaders (scalar:=scalar) cfg feature t_ train val test w = (Ok r, w') ->
  opened w' = opened w.
Proof.
  unfold make_loaders. intros H. do 5 inv_bind H. injection H as _ <-.
  apply draw_opened in Hstep. apply lift_Ok in Hstep0 as [_ ->], Hstep1 as [_ ->],
    Hstep2 as [_ ->], Hstep3 as [_ ->]. done.
Qed.

Lemma windowed_opened path avail double window_width r (w w' : world rng) :
  windowed (scalar:=scalar) path avail double window_width w = (Ok r, w') ->
  opened w' = opened w ++ [path] /\ generator w' = generator w.
Proof.
  unfold windowed. intros H. do 3 inv_bind H. injection H as _ <-.
  unfold pd_read_csv in Hstep. destruct (read_csv path); [|done].
  injection Hstep as _ <-. apply lift_Ok in Hstep1 as [_ ->].
  destruct window_width; [|done]. by injection Hstep0 as _ <-.
Qed.

(** X12: a call of [generate_data_set] that returns was made with one of
    the three known names, and read exactly the file of that dataset, once:
    no file for "sine". *)
Theorem generate_data_set_reads_one_file (cfg : Config.t) (w w' : world rng)
  (res : Generated.t scalar) :
  generate_data_set cfg w = (Ok res, w') ->
  opened w'
  = opened w ++ (if String.eqb (Config.name cfg) "nrel" then ["../datasets/nrel_all.csv"]
                 else if String.eqb (Config.name cfg) "sine" then []
                 else ["../datasets/MFRED_wiztemp.csv"])
  /\ (Config.name cfg = "nrel" \/ Config.name cfg = "sine" \/ Config.name cfg = "mfred").
Proof.
  unfold generate_data_set. intros H.
  do 11 inv_bind H. injection H as _ <-.
  injection Hstep as _ <-. unfold mret, M_ret in *. cbn beta in *.
  apply lift_Ok in Hstep3 as [_ ->], Hstep4 as [_ ->], Hstep6 as [_ ->],
    Hstep9 as [_ ->].
  injection Hstep8 as _ <-. apply make_loaders_opened in Hstep7. rewrite Hstep7.
  assert (opened w6 = opened w3) as ->.
  { destruct (Config.test_set_out_of_distribution cfg);
      [apply (f_equal snd) in Hstep5; cbn in Hstep5; by rewrite <- Hstep5
      |by apply random_split_opened in Hstep5]. }
  assert (opened w3 = opened w2) as ->.
  { destruct (Config.noise_std cfg) as [noise|];
      [|apply (f_equal snd) in Hstep2; cbn in Hstep2; by rewrite <- Hstep2].
    destruct (truthy_float noise);
      [by apply add_noise_opened in Hstep2
      |apply (f_equal snd) in Hstep2; cbn in Hstep2; by rewrite <- Hstep2]. }
  assert (opened w2 = opened w1) as ->.
  { destruct (truthy (Config.extrap cfg));
      [apply (f_equal snd) in Hstep1; cbn in Hstep1; by rewrite <- Hstep1
      |by apply drop_at_random_opened in Hstep1]. }
  destruct (String.eqb (Config.name cfg) "nrel") eqn:Hnrel.
  { apply windowed_opened in Hstep0 as [-> _]. apply String.eqb_eq in Hnrel. auto. }
  destruct (String.eqb (Config.name cfg) "sine") eqn:Hsine.
  { apply lift_Ok in Hstep0 as [_ ->]. apply String.eqb_eq in Hsine.
    cbn. rewrite app_nil_r. auto. }
  destruct (String.eqb (Config.name cfg) "mfred") eqn:Hmfred; [|done].
  apply windowed_opened in Hstep0 as [-> _]. apply String.eqb_eq in Hmfred. auto.
Qed.
End FilesRead.

(** The persistence baseline and the harness *)

Section PersistenceFacts.
Context {scalar : Type}.

Lemma concat_replicate_singleton {A} (n : nat) (x : A) :
  concat (replicate n [x]) = replicate n x.
Proof. induction n as [|n IH]; [done|]. cbn. by rewrite IH. Qed.

Lemma py_slice_last {A} (l : list A) (k : Z) :
  0 <= k ->
  py_slice (Some (- k)) None l
  = drop (if k =? 0 then 0%nat else (length l - Z.to_nat k)%nat) l.
Proof.
  intros Hk. unfold py_slice, slice_bound, norm_index.
  destruct (k =? 0) eqn:Hzero.
  - apply Z.eqb_eq in Hzero as ->. change (- 0 <? 0) with false. cbn match.
    replace (Z.to_nat (Z.min (Z.max (- 0) 0) (Z.of_nat (length l)))) with 0%nat by lia.
    rewrite drop_0. apply take_ge. lia.
  - apply Z.eqb_neq in Hzero.
    replace (- k <? 0) with true by (symmetry; apply Z.ltb_lt; lia).
    replace (Z.to_nat (Z.min (Z.max (- k + Z.of_nat (length l)) 0) (Z.of_nat (length l))))
      with (length l - Z.to_nat k)%nat by lia.
    apply take_ge. rewrite length_drop. lia.
Qed.

(** X13: the naive persistence model forecasts, for every trajectory, its
    last observed step repeated [out_timesteps] times. *)
Theorem persistence_naive_repeats_last_step (i : list (list (list scalar)))
  (self : @Persistence.t) :
  Persistence.kind self = "naive" ->
  0 <= Persistence.out_timesteps self ->
  Forall (fun traj => traj <> []) i ->
  Persistence.forward i self
  = Ok (map (fun traj => replicate (Z.to_nat (Persistence.out_timesteps self))
                                   (default [] (last traj))) i).
Proof.
  intros Hkind Hk Hi. unfold Persistence.forward. rewrite Hkind. cbn [String.eqb].
  replace (Persistence.out_timesteps self <? 0) with false by lia.
  apply mapM_total. eapply Forall_impl; [exact Hi|]. intros traj Htraj. cbn beta.
  unfold index_list. cbn [mapM]. 
  destruct (last traj) as [row|] eqn:Hlast.
  - apply py_index_last in Hlast. rewrite Hlast. cbn. by rewrite concat_replicate_singleton.
  - by apply last_None in Hlast.
Qed.

(** X14: the loop persistence model returns the last [out_timesteps]
    observed steps of every trajectory: exactly that many when the trajectory
    is long enough, all of them when it is shorter, and the whole observed
    window (not an empty forecast) when [out_timesteps] is 0. *)
Theorem persistence_loop_returns_tail (i : list (list (list scalar)))
  (self : @Persistence.t) :
  Persistence.kind self = "loop" ->
  0 <= Persistence.out_timesteps self ->
  let k := Persistence.out_timesteps self in
  Persistence.forward i self
  = Ok (map (fun traj => drop (if k =? 0 then 0%nat
                               else (length traj - Z.to_nat k)%nat) traj) i)
  /\ (0 < k ->
      Forall (fun traj => Z.to_nat k <= length traj)%nat i ->
      Persistence.forward i self
      = Ok (map (fun traj => drop (length traj - Z.to_nat k) traj) i)
      /\ Forall (fun forecast => length forecast = Z.to_nat k)
                (map (fun traj => drop (length traj - Z.to_nat k) traj) i))
  /\ (k = 0 -> Persistence.forward i self = Ok i).
Proof.
  intros Hkind Hk k.
  assert (Persistence.forward i self
          = Ok (map (fun traj => drop (if k =? 0 then 0%nat
                                       else (length traj - Z.to_nat k)%nat) traj) i))
    as Hforward.
  { unfold Persistence.forward. rewrite Hkind. cbn [String.eqb]. f_equal.
    apply map_ext. intros traj. subst k. exact (py_slice_last traj _ Hk). }
  split; [exact Hforward|]. split.
  - intros Hpos Hlong. rewrite Hforward.
    replace (k =? 0) with false by lia. split; [done|].
    apply Forall_map_iff. eapply Forall_impl; [exact Hlong|].
    intros traj Htraj. cbn beta in *. rewrite length_drop. lia.
  - intros Hzero. rewrite Hforward, Hzero. cbn. f_equal.
    clear. induction i as [|traj i IH]; [done|]. cbn. by f_equal.
Qed.
End PersistenceFacts.

Section LossFacts.
Context {scalar : Type} `{!Dtype scalar} `{!Numeric scalar}.

(** The loop of [_get_loss] over a model that keeps no state. *)
Lemma get_loss_loop_pure {Mdl : Type}
  (model : Batch.t scalar -> M Mdl (list (list (list scalar))))
  (dl : list (Batch.t scalar)) (s : Mdl) (cum_loss : option scalar) (cum_batches : Z) :
  (forall b s, (model b s).2 = s) ->
  get_loss_loop model cum_loss cum_batches dl s
  = (losses ← mapM (fun b => preds ← (model b s).1;
                             loss_fn preds (Batch.data_to_predict b)) dl;
     Ok (match losses, cum_loss with
         | [], _ => cum_loss
         | l :: rest, None => Some (foldl add (add l (of_Z 0)) rest)
         | l :: rest, Some c => Some (foldl add c losses)
         end, cum_batches + Z.of_nat (length dl)), s).
Proof.
  intros Hpure. revert cum_loss cum_batches.
  induction dl as [|b dl IH]; intros cum_loss cum_batches.
  - cbn. by rewrite Z.add_0_r.
  - cbn [get_loss_loop mapM]. unfold mbind at 1, M_bind at 1.
    pose proof (Hpure b s) as Hb. destruct (model b s) as [[preds|e] s0]; cbn in Hb; subst s0;
      [|done].
    cbn [fst mbind result_bind]. unfold mbind at 1, M_bind at 1, lift.
    destruct (loss_fn preds (Batch.data_to_predict b)) as [loss|e]; [|done].
    rewrite IH. cbn [mbind result_bind].
    destruct (mapM _ dl) as [losses|e] eqn:Hlosses; [|done].
    cbn [mbind result_bind mret result_ret]. rewrite length_cons.
    replace (cum_batches + 1 + Z.of_nat (length dl))
      with (cum_batches + Z.of_nat (S (length dl))) by lia.
    by destruct cum_loss as [c|], losses as [|l rest].
Qed.

Lemma mapM_ext_result {A B : Type} (f g : A -> result B) (l : list A) :
  (forall a, f a = g a) -> mapM f l = mapM g l.
Proof. intros Hfg. induction l as [|a l IH]; [done|]. cbn. by rewrite Hfg, IH. Qed.

Lemma get_loss_with_pure {Mdl : Type}
  (model : Batch.t scalar -> M Mdl (list (list (list scalar))))
  (dl : list (Batch.t scalar)) (s : Mdl) :
  (forall b s, (model b s).2 = s) ->
  get_loss_with model dl s
  = (losses ← mapM (fun b => preds ← (model b s).1;
                             loss_fn preds (Batch.data_to_predict b)) dl;
     match losses with
     | [] => Raise ZeroDivisionError
     | l :: rest =>
         Ok (div (foldl add (add l (of_Z 0)) rest) (of_Z (Z.of_nat (length dl))))
     end, s).
Proof.
  intros Hpure. unfold get_loss_with, mbind at 1, M_bind at 1.
  rewrite get_loss_loop_pure by done.
  destruct (mapM _ dl) as [[|l rest]|e] eqn:Hlosses; cbn; [|done..].
  apply mapM_Ok_length in Hlosses. by rewrite <- Hlosses.
Qed.

End LossFacts.

Section CounterFacts.
Context {scalar : Type} `{!Dtype scalar} `{!Numeric scalar} `{!Integrator scalar}.

Lemma bind_measure {S A B : Type} (measure : S -> Z) (m : M S A) (f : A -> M S B) (s : S) :
  measure s <= measure (m s).2 ->
  (forall a s', measure s' <= measure (f a s').2) ->
  measure s <= measure ((m ≫= f) s).2.
Proof.
  intros Hm Hf. unfold mbind, M_bind. destruct (m s) as [[a|e] s']; cbn in *; [|done].
  specialize (Hf a s'). lia.
Qed.

Lemma lift_measure {S A : Type} (measure : S -> Z) (r : result A) (s : S) :
  measure s <= measure (lift r s).2.
Proof. done. Qed.

Lemma predict_loop_measure {Mdl : Type} (measure : Mdl -> Z)
  (model : Batch.t scalar -> M Mdl (list (list (list scalar))))
  (dl : list (Batch.t scalar)) (s : Mdl) :
  (forall b s, measure s <= measure (model b s).2) ->
  measure s <= measure (predict_loop model dl s).2.
Proof.
  intros Hmodel. revert s. induction dl as [|b dl IH]; intros s; [done|].
  cbn [predict_loop]. apply bind_measure; [done|]. intros preds s1.
  apply bind_measure; [done|]. intros traj s2.
  apply bind_measure; [done|]. by intros [predictions trajs] s3.
Qed.

Lemma predict_with_measure {Mdl : Type} (measure : Mdl -> Z)
  (model : Batch.t scalar -> M Mdl (list (list (list scalar))))
  (dl : list (Batch.t scalar)) (s : Mdl) :
  (forall b s, measure s <= measure (model b s).2) ->
  measure s <= measure (predict_with model dl s).2.
Proof.
  intros Hmodel. unfold predict_with.
  apply bind_measure; [by apply predict_loop_measure|]. intros [predictions trajs] s1.
  apply bind_measure; [done|]. intros p s2.
  apply bind_measure; [done|]. by intros t_ s3.
Qed.

Lemma get_loss_loop_measure {Mdl : Type} (measure : Mdl -> Z)
  (model : Batch.t scalar -> M Mdl (list (list (list scalar))))
  (dl : list (Batch.t scalar)) (s : Mdl) cum_loss cum_batches :
  (forall b s, measure s <= measure (model b s).2) ->
  measure s <= measure (get_loss_loop model cum_loss cum_batches dl s).2.
Proof.
  intros Hmodel. revert s cum_loss cum_batches.
  induction dl as [|b dl IH]; intros s cum_loss cum_batches; [done|].
  cbn [get_loss_loop]. apply bind_measure; [done|]. intros preds s1.
  apply bind_measure; [done|]. intros loss s2. apply IH.
Qed.

Lemma get_loss_with_measure {Mdl : Type} (measure : Mdl -> Z)
  (model : Batch.t scalar -> M Mdl (list (list (list scalar))))
  (dl : list (Batch.t scalar)) (s : Mdl) :
  (forall b s, measure s <= measure (model b s).2) ->
  measure s <= measure (get_loss_with model dl s).2.
Proof.
  intros Hmodel. unfold get_loss_with.
  apply bind_measure; [by apply get_loss_loop_measure|]. intros [[c|] n] s1; [done|].
  by destruct (n =? 0).
Qed.

Lemma forward_evaluations_nonneg trajectories ti (self : NODE.t scalar) :
  0 <= NODE.forward_evaluations trajectories ti self.
Proof.
  unfold NODE.forward_evaluations.
  destruct (_ ≫= _); [apply evaluations_nonneg|done].
Qed.

Lemma call_model_nfe (batch : Batch.t scalar) (self : GeneralNODE.t scalar) :
  OdeFunc.nfe (NODE.ode_func (GeneralNODE.model (GeneralNODE.call_model batch self).2))
  = OdeFunc.nfe (NODE.ode_func (GeneralNODE.model self))
    + NODE.forward_evaluations (Batch.observed_data batch) (Batch.tp_to_predict batch)
                               (GeneralNODE.model self).
Proof.
  unfold GeneralNODE.call_model.
  pose proof (NODE_forward_nfe (Batch.observed_data batch) (Batch.tp_to_predict batch)
                               (GeneralNODE.model self)) as Hnfe.
  by destruct (NODE.forward _ _ _) as [r model].
Qed.

(** X16: [training_step], [validation_step], [test_step] and [predict] of
    the NODE harness never lower the evaluation counter, [encode] leaves the
    model untouched, and a validation or prediction pass over one batch adds
    exactly the evaluations of its forward pass, as a training step does. *)
Theorem harness_counter_only_grows (self : GeneralNODE.t scalar)
  (batch : Batch.t scalar) (dl : list (Batch.t scalar)) :
  let nfe := fun s : GeneralNODE.t scalar =>
               OdeFunc.nfe (NODE.ode_func (GeneralNODE.model s)) in
  nfe self <= nfe (GeneralNODE.training_step batch self).2
  /\ nfe self <= nfe (GeneralNODE.validation_step dl self).2
  /\ nfe self <= nfe (GeneralNODE.test_step dl self).2
  /\ nfe self <= nfe (GeneralNODE.predict dl self).2
  /\ (GeneralNODE.encode dl self).2 = self
  /\ nfe (GeneralNODE.validation_step [batch] self).2
     = nfe self + NODE.forward_evaluations (Batch.observed_data batch)
                                           (Batch.tp_to_predict batch)
                                           (GeneralNODE.model self)
  /\ nfe (GeneralNODE.predict [batch] self).2
     = nfe self + NODE.forward_evaluations (Batch.observed_data batch)
                                           (Batch.tp_to_predict batch)
                                           (GeneralNODE.model self).
Proof.
  intros nfe.
  assert (forall b s, nfe s <= nfe (GeneralNODE.call_model b s).2) as Hmodel.
  { intros b s. subst nfe. cbn beta. rewrite call_model_nfe.
    pose proof (forward_evaluations_nonneg (Batch.observed_data b) (Batch.tp_to_predict b)
                                           (GeneralNODE.model s)). lia. }
  repeat split.
  - unfold GeneralNODE.training_step. apply bind_measure; [done|]. by intros preds s.
  - unfold GeneralNODE.validation_step, GeneralNODE._get_loss.
    apply bind_measure; [by apply get_loss_with_measure|]. by intros mse s.
  - unfold GeneralNODE.test_step, GeneralNODE._get_loss.
    apply bind_measure; [by apply get_loss_with_measure|]. by intros mse s.
  - unfold GeneralNODE.predict. by apply predict_with_measure.
  - unfold GeneralNODE.validation_step, GeneralNODE._get_loss, get_loss_with.
    cbn [get_loss_loop]. unfold mbind, M_bind, lift, mret, M_ret.
    pose proof (call_model_nfe batch self) as Hnfe.
    destruct (GeneralNODE.call_model batch self) as [[preds|e] s]; [|done].
    by destruct (loss_fn preds (Batch.data_to_predict batch)).
  - unfold GeneralNODE.predict, predict_with. cbn [predict_loop].
    unfold mbind, M_bind, lift, mret, M_ret.
    pose proof (call_model_nfe batch self) as Hnfe.
    destruct (GeneralNODE.call_model batch self) as [[preds|e] s]; [|done].
    destruct (ground_truth batch); [|done].
    destruct (cat_dim0 [preds]); [|done]. by destruct (cat_dim0 _).
Qed.
End CounterFacts.

Section EncodeFacts.
Context {scalar : Type} `{!Dtype scalar} `{!Numeric scalar} `{!Integrator scalar}.

Lemma NODE_encode_seed trajectories (self : NODE.t scalar) :
  Forall (fun traj => traj <> []) trajectories ->
  NODE.encode trajectories self
  = Ok (map (fun traj => default [] (if truthy (NODE.extrap self) then last traj
                                     else head traj)) trajectories).
Proof.
  intros Hne. unfold NODE.encode, select_dim1.
  destruct (truthy (NODE.extrap self)); apply mapM_total;
    (eapply Forall_impl; [exact Hne|]); intros traj Htraj; cbn beta.
  - destruct (last traj) as [row|] eqn:Hlast; [by apply py_index_last|].
    by apply last_None in Hlast.
  - destruct (head traj) as [row|] eqn:Hhead; [by apply py_index_first|].
    by apply head_None in Hhead.
Qed.

(** X17: on batches of trajectories with at least one step, [encode] of the
    NODE harness returns the seed state of every trajectory of every batch (the
    first step, or the last one in extrapolation mode), one row per trajectory,
    and leaves the model untouched; [encode] of the persistence and of the
    neural network harness raises AttributeError. *)
Theorem encode_returns_seed_states (dl : list (Batch.t scalar))
  (self : GeneralNODE.t scalar) (D : nat) :
  dl <> [] ->
  Forall (fun b => Batch.observed_data b <> []
                   /\ Forall (fun traj => traj <> []
                                          /\ Forall (fun row => length row = D) traj)
                             (Batch.observed_data b)) dl ->
  let seed := fun traj : list (list scalar) =>
                default [] (if truthy (NODE.extrap (GeneralNODE.model self))
                            then last traj else head traj) in
  GeneralNODE.encode dl self
  = (Ok (concat (map (fun b => map seed (Batch.observed_data b)) dl)), self)
  /\ length (concat (map (fun b => map seed (Batch.observed_data b)) dl))
     = length (concat (map Batch.observed_data dl))
  /\ (forall self' : GeneralPersistence.t,
         GeneralPersistence.encode dl self' = (Raise AttributeError, self'))
  /\ (forall self' : GeneralNeuralNetwork.t scalar,
         GeneralNeuralNetwork.encode dl self' = (Raise AttributeError, self')).
Proof.
  intros Hdl Hbatches seed. split; [|split; [|split]].
  - unfold GeneralNODE.encode. f_equal.
    rewrite (mapM_total _ (fun b => map seed (Batch.observed_data b))).
    2:{ eapply Forall_impl; [exact Hbatches|]. intros b [_ Hb]. cbn beta.
        apply NODE_encode_seed. eapply Forall_impl; [exact Hb|]. by intros traj []. }
    cbn [mbind result_bind].
    assert (Forall (fun b => dim1 (map seed (Batch.observed_data b)) = D) dl) as Hdim.
    { eapply Forall_impl; [exact Hbatches|]. intros b [Hne Hb]. cbn beta.
      destruct (Batch.observed_data b) as [|traj rest]; [done|].
      apply Forall_cons in Hb as [[Htraj Hrows] _]. cbn. subst seed. cbn beta.
      destruct (truthy _).
      - destruct (last traj) as [row|] eqn:Hlast; [|by apply last_None in Hlast].
        cbn. apply last_Some in Hlast as [l' ->].
        by apply Forall_app in Hrows as [_ [Hrow _]%Forall_cons].
      - destruct traj as [|row traj]; [done|]. cbn.
        by apply Forall_cons in Hrows as [Hrow _]. }
    destruct dl as [|b dl]; [done|]. cbn [map].
    apply Forall_cons in Hdim as [Hb Hrest].
    replace (forallb _ _) with true; [done|]. symmetry. apply forallb_forall.
    intros y Hy. apply bool_decide_eq_true. rewrite Hb.
    apply in_map_iff in Hy as (b' & <- & Hin).
    rewrite Forall_forall in Hrest. apply Hrest. by apply list_elem_of_In.
  - clear. induction dl as [|b dl IH]; [done|]. cbn.
    rewrite !length_app, length_map. by rewrite IH.
  - intros self'. unfold GeneralPersistence.encode. by destruct dl.
  - intros self'. unfold GeneralNeuralNetwork.encode. by destruct dl.
Qed.
End EncodeFacts.

(** The neural network baselines *)

Section NetworkFacts.
Context {scalar : Type} `{!Dtype scalar} `{!Numeric scalar}.

Lemma elem_of_concat_rows {A} (x : A) (l : list A) (ls : list (list A)) :
  x ∈ l -> l ∈ ls -> x ∈ concat ls.
Proof.
  intros Hx Hl. induction Hl as [l ls|l l' ls _ IH]; cbn; apply elem_of_app; auto.
Qed.

Lemma chunks_exact {A} (k : nat) (l : list A) :
  (0 < k)%nat -> (length l mod k = 0)%nat ->
  Forall (fun c => length c = k) (chunks k l)
  /\ length (chunks k l) = (length l / k)%nat.
Proof.
  intros Hk Hmod. rewrite chunks_windows by done.
  assert ((length l + k - 1) / k = length l / k)%nat as Hceil.
  { pose proof (Nat.div_mod (length l) k ltac:(lia)) as Hdiv. rewrite Hmod in Hdiv.
    symmetry. apply (Nat.div_unique _ _ _ (k - 1)); lia. }
  rewrite Hceil, length_map, length_seq. split; [|done].
  apply Forall_map_iff, Forall_forall. intros j [_ Hj]%elem_of_seq.
  rewrite length_take, length_drop.
  pose proof (Nat.div_mod (length l) k ltac:(lia)) as Hdiv. rewrite Hmod in Hdiv.
  assert (S j <= length l / k)%nat as Hle by lia.
  assert (k * S j <= k * (length l / k))%nat by (apply Nat.mul_le_mono_l; lia).
  lia.
Qed.

Lemma reshape_rows_shape (timesteps dim : Z) (x : list (list scalar))
  (out : list (list (list scalar))) :
  0 < timesteps -> 0 < dim ->
  reshape_rows timesteps dim x = Ok out ->
  Forall (fun traj => length traj = Z.to_nat timesteps
                      /\ Forall (fun row => length row = Z.to_nat dim) traj) out
  /\ concat (concat out) = concat x
  /\ (length out * Z.to_nat timesteps * Z.to_nat dim)%nat = length (concat x).
Proof.
  intros Ht Hd. unfold reshape_rows. intros H.
  destruct (Tensor.infer_size _ _) as [sizes|] eqn:Hsizes; [|done].
  cbn [mbind result_bind] in H. injection H as <-.
  set (flat := concat x) in *. set (t := Z.to_nat timesteps). set (d := Z.to_nat dim).
  assert (length flat mod (t * d) = 0)%nat as Hmod.
  { unfold Tensor.infer_size in Hsizes.
    destruct (negb _); [done|]. cbn [List.filter] in Hsizes.
    change (-1 =? -1) with true in Hsizes.
    replace (timesteps =? -1) with false in Hsizes by lia.
    replace (dim =? -1) with false in Hsizes by lia.
    cbn [negb length map foldr] in Hsizes. fold t d in Hsizes.
    rewrite Nat.mul_1_r in Hsizes.
    destruct (bool_decide (length flat = t * d)%nat || _) eqn:Hfit; [|done].
    apply orb_true_iff in Hfit as [Hfit|Hfit].
    - apply bool_decide_eq_true in Hfit. rewrite Hfit. apply Nat.Div0.mod_same.
    - apply andb_true_iff in Hfit as [_ Hfit]. by apply bool_decide_eq_true in Hfit. }
  assert (0 < t /\ 0 < d)%nat as [Htpos Hdpos] by (subst t d; lia).
  assert (length flat mod d = 0)%nat as Hmodd.
  { pose proof (Nat.div_mod (length flat) (t * d) ltac:(lia)) as Hdiv.
    rewrite Hmod, Nat.add_0_r in Hdiv. rewrite Hdiv.
    replace (t * d * (length flat / (t * d)))%nat
      with ((t * (length flat / (t * d))) * d)%nat by lia.
    apply Nat.Div0.mod_mul. }
  destruct (chunks_exact d flat Hdpos Hmodd) as [Hrows Hcount].
  assert (length (chunks d flat) mod t = 0)%nat as Hmodt.
  { rewrite Hcount.
    pose proof (Nat.div_mod (length flat) (t * d) ltac:(lia)) as Hdiv.
    rewrite Hmod, Nat.add_0_r in Hdiv. rewrite Hdiv at 1.
    replace (t * d * (length flat / (t * d)))%nat
      with ((t * (length flat / (t * d))) * d)%nat by lia.
    rewrite Nat.div_mul by lia. rewrite Nat.mul_comm. apply Nat.Div0.mod_mul. }
  destruct (chunks_exact t (chunks d flat) Htpos Hmodt) as [Htrajs Hcount'].
  split; [|split].
  - apply Forall_forall. intros traj Htraj. split.
    + by eapply Forall_forall in Htrajs.
    + apply Forall_forall. intros row Hrow.
      eapply Forall_forall in Hrows; [exact Hrows|].
      rewrite <- (concat_chunks t (chunks d flat)) by done.
      by apply (elem_of_concat_rows row traj).
  - by rewrite !concat_chunks.
  - rewrite Hcount', Hcount.
    pose proof (Nat.div_mod (length flat) d ltac:(lia)) as Hdiv1.
    pose proof (Nat.div_mod (length flat / d) t ltac:(lia)) as Hdiv2.
    rewrite Hcount in Hmodt. nia.
Qed.

Lemma Linear_forward_shape (self : Linear.t scalar) (x y : list (list scalar)) :
  Linear.forward self x = Ok y ->
  length y = length x
  /\ Forall (fun row => length row = Nat.min (length (Linear.weight self))
                                              (length (Linear.bias self))) y.
Proof.
  unfold Linear.forward. intros Hy. split; [by apply mapM_Ok_length in Hy|].
  apply mapM_Ok in Hy. eapply Forall2_Forall_r; [exact Hy|].
  apply Forall_forall. intros row _ out Hout.
  destruct (bool_decide _); [|done]. injection Hout as <-. apply length_zip_with.
Qed.

Lemma length_concat_uniform {A} (n : nat) (ls : list (list A)) :
  Forall (fun l => length l = n) ls -> length (concat ls) = (length ls * n)%nat.
Proof. induction 1 as [|l ls Hl _ IH]; [done|]. cbn. rewrite length_app. lia. Qed.

(** X18: what the MLP and the LSTM network return has [out_timesteps] steps
    of [out_dim] channels per trajectory, and the MLP returns one trajectory
    per input trajectory when its output layer has
    [out_timesteps * out_dim] units; a neural network harness for "mlp" built
    without [in_timesteps] raises TypeError before any layer is created. *)
Theorem network_forecast_shape (i out : list (list (list scalar))) :
  (forall self : MLPNetwork.t scalar,
      let T := Z.to_nat (MLPNetwork.out_timesteps self) in
      let D := Z.to_nat (MLPNetwork.out_dim self) in
      0 < MLPNetwork.out_timesteps self -> 0 < MLPNetwork.out_dim self ->
      length (Linear.weight (MLPNetwork.linear_out self)) = (T * D)%nat ->
      length (Linear.bias (MLPNetwork.linear_out self)) = (T * D)%nat ->
      MLPNetwork.forward i self = Ok out ->
      length out = length i
      /\ Forall (fun traj => length traj = T /\ Forall (fun row => length row = D) traj)
                out)
  /\ (forall self : LSTMNetwork.t scalar,
        let T := Z.to_nat (LSTMNetwork.out_timesteps self) in
        let D := Z.to_nat (LSTMNetwork.out_dim self) in
        0 < LSTMNetwork.out_timesteps self -> 0 < LSTMNetwork.out_dim self ->
        LSTMNetwork.forward i self = Ok out ->
        Forall (fun traj => length traj = T /\ Forall (fun row => length row = D) traj)
               out)
  /\ (forall {rng} `{!Modules scalar rng} (obs_dim out_dim out_timesteps nhidden : Z)
             (g : rng),
        GeneralNeuralNetwork.init obs_dim out_dim out_timesteps None nhidden "mlp" g
        = (Raise TypeError, g)).
Proof.
  split; [|split].
  - intros self T D HT HD Hweight Hbias Hforward. unfold MLPNetwork.forward in Hforward.
    destruct (Linear.forward (MLPNetwork.nn self) _) as [hidden|] eqn:Hhidden; [|done].
    cbn [mbind result_bind] in Hforward.
    destruct (Linear.forward (MLPNetwork.linear_out self) _) as [y|] eqn:Hy; [|done].
    cbn [mbind result_bind] in Hforward.
    apply Linear_forward_shape in Hhidden as [Hn _].
    apply Linear_forward_shape in Hy as [Hn' Hwidth].
    rewrite Hweight, Hbias, Nat.min_id in Hwidth.
    apply reshape_rows_shape in Hforward as (Hshape & _ & Hcount); [|done..].
    split; [|done].
    rewrite (length_concat_uniform _ _ Hwidth), Hn', !length_map, Hn, length_map in Hcount.
    fold T D in Hcount. assert (0 < T * D)%nat by (subst T D; nia). nia.
  - intros self T D HT HD Hforward. unfold LSTMNetwork.forward in Hforward.
    repeat step_result Hforward. by apply reshape_rows_shape in Hforward as (Hshape & _).
  - intros rng HM obs_dim out_dim out_timesteps nhidden g. reflexivity.
Qed.
End NetworkFacts.

(** The targets of the test error *)

Section EvaluationFacts.
Context {scalar : Type} `{!Dtype scalar}.

Lemma cat_axis1_Ok (x y z : list (list (list scalar))) :
  cat_axis1 x y = Ok z -> z = zip_with app x y /\ length x = length y.
Proof.
  unfold cat_axis1. destruct (bool_decide (length x = length y)) eqn:Hlen; [|done].
  apply bool_decide_eq_true in Hlen. destruct (bool_decide _); [|done].
  by intros [= <-].
Qed.

Lemma cat_dim0_Ok (xs : list (list (list (list scalar)))) z :
  cat_dim0 xs = Ok z -> z = concat xs.
Proof.
  unfold cat_dim0. destruct xs; [done|]. destruct (forallb _ _); [|done].
  by intros [= <-].
Qed.

Lemma slice_joined_window (P : nat) (o p : list (list scalar)) :
  (0 < P)%nat -> length p = P ->
  py_slice (Some (- Z.of_nat P)) None (o ++ p) = p.
Proof.
  intros HP Hp. rewrite py_slice_last by lia.
  replace (Z.of_nat P =? 0) with false by lia.
  rewrite Nat2Z.id, length_app, Hp.
  replace (length o + P - P)%nat with (length o) by lia.
  by rewrite drop_app_length.
Qed.

(** X19: when the predictions of a harness have as many steps, at least
    one, as the targets of the batches, the slice of the ground truth that the
    experiment scores them against is the targets of the batches, batch after
    batch: the observed steps that [predict] puts in front are cut off. *)
Theorem evaluation_scores_forecast_window {Mdl : Type}
  (model : Batch.t scalar -> M Mdl (list (list (list scalar))))
  (dl : list (Batch.t scalar)) (s s' : Mdl)
  (test_preds test_trajs : list (list (list scalar))) :
  predict_with model dl s = (Ok (test_preds, test_trajs), s') ->
  Forall (fun b => Batch.mode b = "extrap") dl ->
  (0 < dim1 test_preds)%nat ->
  Forall (fun b => Forall (fun fut => length fut = dim1 test_preds)
                          (Batch.data_to_predict b)) dl ->
  test_targets test_preds test_trajs = concat (map Batch.data_to_predict dl).
Proof.
  intros Hpredict Hmode HP Hhorizon.
  apply (predict_with_extrap model dl s s' test_preds test_trajs Hmode) in Hpredict.
  unfold concatenated in Hpredict.
  destruct (mapM _ dl) as [joined|] eqn:Hjoined; [|done].
  cbn [mbind result_bind] in Hpredict. apply cat_dim0_Ok in Hpredict as ->.
  apply mapM_Ok in Hjoined. unfold test_targets.
  set (P := dim1 test_preds) in *. clearbody P. clear Hmode.
  induction Hjoined as [|b z dl joined Hz _ IH]; [done|].
  apply Forall_cons in Hhorizon as [Hb Hrest]. cbn [concat map].
  rewrite map_app, IH by done. f_equal.
  apply cat_axis1_Ok in Hz as [-> Hlen]. clear IH.
  revert Hlen Hb. generalize (Batch.observed_data b), (Batch.data_to_predict b).
  intros obs. induction obs as [|o obs IH]; intros [|p fut] Hlen Hfut; try done.
  apply Forall_cons in Hfut as [Hp Hfut]. cbn [zip_with map].
  rewrite slice_joined_window by done. f_equal. apply IH; [by injection Hlen|done].
Qed.
End EvaluationFacts.

(** ** The further properties on the concrete instance *)

Section Instances.
Import Example.

Ltac indices_in_range :=
  cbn [app default]; repeat (apply List.Forall_cons; [cbn; lia|]); apply List.Forall_nil.

(** The scenario of a window of 200 steps observed for 100: 100 observed
    steps and 100 steps to predict. *)
Lemma dataset_splits_each_window_witness :
  exists ds,
    TimeSeriesDataset.init [long_trajectory] [map Int (seqZ 0 200)] 100 1 [0] [0] None
    = Ok ds
    /\ Forall (fun obs => length obs = 100%nat) (TimeSeriesDataset.observed_data ds)
    /\ Forall (fun fut => length fut = 100%nat) (TimeSeriesDataset.data_to_predict ds)
    /\ zip_with app (TimeSeriesDataset.observed_data ds)
                    (TimeSeriesDataset.data_to_predict ds)
       = map (map (channels [0])) [long_trajectory].
Proof.
  assert (Forall (fun traj : list (list num) =>
                    length traj = 200%nat /\ Forall (fun row => length row = 1%nat) traj)
                 [long_trajectory]) as Hshape.
  { constructor; [|constructor]. split; [reflexivity|].
    apply Forall_map_iff, Forall_forall. reflexivity. }
  destruct (dataset_splits_each_window [long_trajectory] [map Int (seqZ 0 200)]
              100 1 [0] [0] None 200%nat 1%nat ltac:(lia) ltac:(lia) Hshape
              ltac:(indices_in_range))
    as (ds & Hinit & _ & _ & _ & _ & _ & Hobs & Hfut & Hjoin).
  exists ds. split; [exact Hinit|]. split; [exact Hobs|]. split; [exact Hfut|].
  by apply Hjoin.
Defined.

Lemma dataset_pools_by_block_means_witness :
  exists ds,
    TimeSeriesDataset.init [short_trajectory] [map Int (seqZ 0 8)] 4 2 [0] [0] (Some [1])
    = Ok ds
    /\ TimeSeriesDataset.observed_data ds = [[[Int 1]; [Int 5]]]
    /\ TimeSeriesDataset.data_to_predict ds = [[[Int 9]; [Int 13]]]
    /\ Forall (fun obs => length obs = 2%nat) (TimeSeriesDataset.observed_data ds).
Proof.
  destruct (proj1 (dataset_pools_by_block_means [short_trajectory] [map Int (seqZ 0 8)]
                     4 2 [0] [0] (Some [1]) 8%nat 2%nat ltac:(lia) ltac:(lia)
                     ltac:(repeat constructor) ltac:(repeat constructor)
                     ltac:(indices_in_range))
                  ltac:(lia) ltac:(lia))
    as (ds & Hinit & Hobs & Hfut & _ & Hlen & _).
  exists ds. split; [exact Hinit|]. split; [by rewrite Hobs|].
  split; [by rewrite Hfut|exact Hlen].
Defined.

Lemma getitem_index_range_witness :
  exists ds smp,
    TimeSeriesDataset.init observed query 1 1 [0] [1] None = Ok ds
    /\ TimeSeriesDataset.getitem (-1) ds = Ok smp
    /\ smp.1.1.2 = Tensor.tensor NaN
    /\ TimeSeriesDataset.getitem 1 ds = Raise IndexError.
Proof.
  destruct (TimeSeriesDataset.init observed query 1 1 [0] [1] None) as [ds|e] eqn:Hinit;
    [|vm_compute in Hinit; discriminate Hinit].
  destruct (getitem_index_range observed query 1 1 [0] [1] None ds (-1) Hinit)
    as [Hin _].
  destruct (getitem_index_range observed query 1 1 [0] [1] None ds 1 Hinit)
    as [_ Hout].
  destruct (Hin ltac:(cbn; lia)) as (smp & Hsmp & _ & _ & _ & _ & Hnan & _).
  exists ds, smp. split; [reflexivity|]. split; [exact Hsmp|].
  split; [by apply Hnan|]. apply Hout. cbn. lia.
Defined.

(** Both forecasts of the first sample are NaN: the two values of the second
    sample are dealt out over the two rows of the batch. *)
Lemma collate_deals_out_forecasts_witness :
  exists b,
    collate_fn forecast_samples = Ok b
    /\ match Batch.available_forecasts b with
       | Some x => Tensor.data x = [Int 7; Int 8]
                   /\ exists m width, Tensor.shape x = [2%nat; m; width]
                                      /\ (2 * m * width = 2)%nat
       | None => False
       end.
Proof.
  destruct (collate_fn forecast_samples) as [b|e] eqn:Hb;
    [|vm_compute in Hb; discriminate Hb].
  exists b. split; [reflexivity|].
  destruct (collate_deals_out_forecasts forecast_samples b Hb)
    as (_ & _ & _ & _ & _ & Hforecasts).
  destruct (Batch.available_forecasts b) as [x|]; [|discriminate Hforecasts].
  destruct Hforecasts as (Hdata & _ & m & width & Hshape & Hsize & _).
  split; [exact Hdata|]. exists m, width. split; [exact Hshape|exact Hsize].
Defined.

Lemma collate_keeps_complete_forecasts_witness :
  exists b,
    collate_fn complete_samples = Ok b
    /\ Batch.available_forecasts b
       = Some {| Tensor.shape := [2%nat; 2%nat; 1%nat];
                 Tensor.data := [Int 5; Int 6; Int 7; Int 8] |}.
Proof.
  destruct (collate_fn complete_samples) as [b|e] eqn:Hb;
    [|vm_compute in Hb; discriminate Hb].
  exists b. split; [reflexivity|].
  apply (collate_keeps_complete_forecasts complete_samples b 2%nat 1%nat Hb ltac:(lia)).
  repeat (apply List.Forall_cons; [repeat split; repeat constructor|]).
  apply List.Forall_nil.
Defined.

Lemma loader_pass_covers_dataset_witness :
  exists res w' batches,
    generate_data_set config start = (Ok res, w')
    /\ DataLoader.iterate (Generated.dltrain res) 0%nat = Ok batches
    /\ concat (map Batch.observed_data batches)
       = TimeSeriesDataset.observed_data (DataLoader.dataset (Generated.dltrain res))
    /\ length batches = 3%nat.
Proof.
  destruct (generate_data_set config start) as [[res|e] w'] eqn:Hrun;
    [|vm_compute in Hrun; discriminate Hrun].
  destruct (DataLoader.iterate (Generated.dltrain res) 0%nat) as [batches|e] eqn:Hiter;
    [|vm_compute in Hrun; injection Hrun as <- _; vm_compute in Hiter; discriminate Hiter].
  exists res, w', batches. split; [reflexivity|]. split; [exact Hiter|].
  assert (DataLoader.shuffle (Generated.dltrain res) = false
          /\ DataLoader.collate (Generated.dltrain res) = collate_fn
          /\ DataLoader.batch_size (Generated.dltrain res) = 3
          /\ TimeSeriesDataset.len (DataLoader.dataset (Generated.dltrain res)) = 8%nat)
    as (Hshuffle & Hcollate & Hsize & Hlen).
  { vm_compute in Hrun. injection Hrun as <- _. repeat split. }
  destruct (loader_pass_covers_dataset (Generated.dltrain res) 0%nat batches
              Hshuffle Hcollate ltac:(rewrite Hsize; lia) Hiter)
    as (Hobs & _ & Hcount & _).
  split; [exact Hobs|]. rewrite Hcount, Hsize, Hlen. reflexivity.
Defined.

Lemma random_split_partitions_witness :
  exists train val test,
    random_split 8 9 (map (fun i => [[Int i]]) (seqZ 0 10)) start
    = (Ok (train, val, test),
       {| generator := (randperm 10 (generator start)).2; opened := opened start |})
    /\ Permutation (train ++ val ++ test) (map (fun i => [[Int i]]) (seqZ 0 10))
    /\ length train = 8%nat /\ length val = 1%nat /\ length test = 1%nat.
Proof.
  exact (random_split_partitions 8 9 (map (fun i => [[Int i]]) (seqZ 0 10)) start
           ltac:(lia)).
Defined.

Lemma returned_loaders_are_nonempty_witness :
  exists res w',
    generate_data_set config start = (Ok res, w')
    /\ (0 < TimeSeriesDataset.len (DataLoader.dataset (Generated.dltrain res)))%nat.
Proof.
  destruct (generate_data_set config start) as [[res|e] w'] eqn:Hrun;
    [|vm_compute in Hrun; discriminate Hrun].
  exists res, w'. split; [reflexivity|].
  exact (proj1 (returned_loaders_are_nonempty config start w' res Hrun)).
Defined.

(** With the normalization switched on the statistics are tensors, taken
    from the training part. *)
Lemma normalization_uses_training_split_witness :
  exists res w' (trajectories train : list (list (list num))),
    generate_data_set normalized_config start = (Ok res, w')
    /\ Generated.train_mean res
       = StatTensor (map (fun c => nanmean (column c (concat train)))
                         (seq 0 (dim2 trajectories)))
    /\ Generated.train_std res
       = StatTensor (map (fun c => nanstd (column c (concat train)))
                         (seq 0 (dim2 trajectories))).
Proof.
  destruct (generate_data_set normalized_config start) as [[res|e] w'] eqn:Hrun;
    [|vm_compute in Hrun; discriminate Hrun].
  destruct (normalization_uses_training_split normalized_config start w' res Hrun)
    as (trajectories & a & b & train & val & test & w1 & w2 & Hsplit & Hmean & Hstd & _).
  exists res, w', trajectories, train. split; [reflexivity|].
  split; [exact Hmean|exact Hstd].
Defined.

(** The table of 110 rows cut into windows of 2 rows: 109 windows, every
    twelfth kept. *)
Lemma windowed_datasets_cut_strided_windows_witness :
  mfred true (Some 2) start
  = (Ok (map (fun j => map (map (cast true)) (take 2 (drop (12 * j) table))) (seq 0 10),
         [map (cast true) (arange 2)],
         div (of_Z 2) (sum (diff (arange 2))),
         {| hist_feature := [0]; fcst_feature := [0]; avail_fcst_feature := Some [1] |}),
     {| generator := generator start;
        opened := opened start ++ ["../datasets/MFRED_wiztemp.csv"] |}).
Proof.
  destruct (windowed_datasets_cut_strided_windows
              (Files0:=one_file) "../datasets/MFRED_wiztemp.csv" [1]
              true 2 table start eq_refl ltac:(cbn; lia))
    as (Hwindows & Hmfred & _).
  rewrite Hmfred. exact Hwindows.
Defined.

Lemma tree_data_set_needs_forecasts_witness :
  exists e w', generate_tree_data_set config start = (Raise e, w').
Proof.
  exact (tree_data_set_needs_forecasts config start (or_introl eq_refl)).
Defined.

(** With the available forecasts switched on, the same call returns: eight
    training rows of one observed value and one forecast. *)
Lemma generate_tree_data_set_example :
  match (generate_tree_data_set forecast_config start).1 with
  | Ok res =>
      TreeGenerated.input_dim res = 2%nat /\ TreeGenerated.output_dim res = 1%nat
      /\ length (TreeGenerated.dltrain res).1 = 8%nat
      /\ length (TreeGenerated.dlval res).1 = 1%nat
  | Raise _ => False
  end.
Proof. vm_compute. repeat split. Qed.

Lemma generate_data_set_reads_one_file_witness :
  exists res w',
    generate_data_set config start = (Ok res, w')
    /\ opened w' = ["../datasets/MFRED_wiztemp.csv"].
Proof.
  destruct (generate_data_set config start) as [[res|e] w'] eqn:Hrun;
    [|vm_compute in Hrun; discriminate Hrun].
  exists res, w'. split; [reflexivity|].
  exact (proj1 (generate_data_set_reads_one_file config start w' res Hrun)).
Defined.

Lemma persistence_naive_repeats_last_step_witness :
  Persistence.forward observed (Persistence.init 3 "naive")
  = Ok [[[Int 6; Int 8]; [Int 6; Int 8]; [Int 6; Int 8]]].
Proof.
  exact (persistence_naive_repeats_last_step observed (Persistence.init 3 "naive")
           eq_refl ltac:(cbn; lia) ltac:(repeat constructor; discriminate)).
Defined.

Lemma persistence_loop_returns_tail_witness :
  Persistence.forward observed (Persistence.init 1 "loop") = Ok [[[Int 6; Int 8]]]
  /\ Persistence.forward observed (Persistence.init 0 "loop") = Ok observed.
Proof.
  split.
  - exact (proj1 (persistence_loop_returns_tail observed (Persistence.init 1 "loop")
                    eq_refl ltac:(cbn; lia))).
  - exact (proj2 (proj2 (persistence_loop_returns_tail observed (Persistence.init 0 "loop")
                           eq_refl ltac:(cbn; lia))) eq_refl).
Defined.

Lemma encode_returns_seed_states_witness :
  GeneralNODE.encode [batch] {| GeneralNODE.model := node 0 1 |}
  = (Ok [[Int 1]; [Int 3]], {| GeneralNODE.model := node 0 1 |})
  /\ GeneralPersistence.encode [batch] {| GeneralPersistence.model :=
                                           Persistence.init 1 "naive" |}
     = (Raise AttributeError,
        {| GeneralPersistence.model := Persistence.init 1 "naive" |}).
Proof.
  destruct (encode_returns_seed_states [batch] {| GeneralNODE.model := node 0 1 |} 1%nat
              ltac:(discriminate)
              ltac:(repeat constructor; discriminate))
    as (Hnode & _ & Hpersistence & _).
  split; [exact Hnode|apply Hpersistence].
Defined.

(** The naive baseline on the batch of two samples: the error is computed
    against the two targets, not against the observed steps. *)
Lemma evaluation_scores_forecast_window_witness :
  exists test_preds test_trajs s',
    GeneralPersistence.predict [batch]
      {| GeneralPersistence.model := Persistence.init 1 "naive" |}
    = (Ok (test_preds, test_trajs), s')
    /\ test_trajs = [[[Int 1]; [Int 2]]; [[Int 3]; [Int 4]]]
    /\ test_targets test_preds test_trajs = [[[Int 2]]; [[Int 4]]].
Proof.
  destruct (GeneralPersistence.predict [batch]
              {| GeneralPersistence.model := Persistence.init 1 "naive" |})
    as [[[test_preds test_trajs]|e] s'] eqn:Hpredict;
    [|vm_compute in Hpredict; discriminate Hpredict].
  exists test_preds, test_trajs, s'. split; [reflexivity|].
  assert (test_preds = [[[Int 1]]; [[Int 3]]]
          /\ test_trajs = [[[Int 1]; [Int 2]]; [[Int 3]; [Int 4]]]) as [Hpreds Htrajs].
  { vm_compute in Hpredict. by injection Hpredict as <- <- _. }
  split; [exact Htrajs|].
  apply (evaluation_scores_forecast_window GeneralPersistence.call_model [batch] _ s'
           test_preds test_trajs Hpredict).
  - repeat constructor.
  - rewrite Hpreds. cbn. lia.
  - rewrite Hpreds. repeat constructor.
Defined.
End Instances.
